(** * movieGuesser: the two HTML analysers of [scrapper.py]

    A shallow embedding of [get_best_picture_nominations],
    [extract_plot_from_section] and [extract_plot], over a model of the
    parsed document (a BeautifulSoup tree) and of the Python string
    operations the code applies to it.

    Characters are the code points below 256: Python's [str] restricted to
    Latin-1, with [str.isdigit], [str.isspace] and [str.lower] as CPython
    defines them on that range. *)

From Stdlib Require Import Strings.String Strings.Ascii Lists.List Arith.PeanoNat Bool.Bool Lia.
Import ListNotations.
Open Scope string_scope.
Open Scope nat_scope.
Open Scope list_scope.
Set Warnings "-register-all".

(** ** Python string operations *)

Module PyStr.

(** [str.isdigit] on one character: '0'..'9' and the superscripts
    U+00B2, U+00B3, U+00B9. *)
Definition isdigit_char (c : ascii) : bool :=
  let n := nat_of_ascii c in
  ((48 <=? n) && (n <=? 57)) || (n =? 178) || (n =? 179) || (n =? 185).

(** [str.isspace] on one character: TAB..CR, FS..US, space, NEL, NBSP. *)
Definition isspace_char (c : ascii) : bool :=
  let n := nat_of_ascii c in
  ((9 <=? n) && (n <=? 13)) || ((28 <=? n) && (n <=? 32)) || (n =? 133) || (n =? 160).

(** [str.lower] on one character: 'A'..'Z' and U+00C0..U+00DE but the
    multiplication sign U+00D7. *)
Definition lower_char (c : ascii) : ascii :=
  let n := nat_of_ascii c in
  if ((65 <=? n) && (n <=? 90)) || ((192 <=? n) && (n <=? 222) && negb (n =? 215))
  then ascii_of_nat (n + 32) else c.

Fixpoint lower (s : string) : string :=
  match s with
  | EmptyString => EmptyString
  | String c s' => String (lower_char c) (lower s')
  end.

(** [bool(s)] of a string, the test behind [if s] and [not s]. *)
Definition truthy (s : string) : bool :=
  match s with EmptyString => false | String _ _ => true end.

(** [sub in s]. *)
Fixpoint str_in (sub s : string) : bool :=
  prefix sub s ||
  match s with
  | EmptyString => false
  | String _ s' => str_in sub s'
  end.

Definition startswith (s p : string) : bool := prefix p s.

(** [''.join(filter(p, s))]. *)
Fixpoint filter_chars (p : ascii -> bool) (s : string) : string :=
  match s with
  | EmptyString => EmptyString
  | String c s' => if p c then String c (filter_chars p s') else filter_chars p s'
  end.

(** [s.replace(c, '')] for a one-character [c]. *)
Definition remove_char (c : ascii) (s : string) : string :=
  filter_chars (fun x => negb (Ascii.eqb x c)) s.

Fixpoint all_chars (p : ascii -> bool) (s : string) : bool :=
  match s with
  | EmptyString => true
  | String c s' => p c && all_chars p s'
  end.

(** [s.isdigit()]: false on the empty string. *)
Definition isdigit (s : string) : bool := truthy s && all_chars isdigit_char s.

Fixpoint lstrip (s : string) : string :=
  match s with
  | EmptyString => EmptyString
  | String c s' => if isspace_char c then lstrip s' else s
  end.

Fixpoint rstrip (s : string) : string :=
  match s with
  | EmptyString => EmptyString
  | String c s' =>
      let r := rstrip s' in
      if negb (truthy r) && isspace_char c then EmptyString else String c r
  end.

(** [s.strip()]. *)
Definition strip (s : string) : string := rstrip (lstrip s).

(** [s.split(sep)] for a one-character [sep]: never the empty list. *)
Fixpoint split (sep : ascii) (s : string) : list string :=
  match s with
  | EmptyString => [EmptyString]
  | String c s' =>
      if Ascii.eqb c sep then EmptyString :: split sep s'
      else match split sep s' with
           | [] => [String c EmptyString]
           | h :: t => String c h :: t
           end
  end.

(** [s.split(sep, 1)] when [sep in s], and [(s, '')] otherwise: the part
    before the first [sep] and the part after it. *)
Fixpoint partition (sep : ascii) (s : string) : string * string :=
  match s with
  | EmptyString => (EmptyString, EmptyString)
  | String c s' =>
      if Ascii.eqb c sep then (EmptyString, s')
      else let (a, b) := partition sep s' in (String c a, b)
  end.

(** [sep.join(l)]. *)
Definition join (sep : string) (l : list string) : string := String.concat sep l.

(** [s[:n]]. *)
Definition slice_to (n : nat) (s : string) : string := substring 0 n s.

End PyStr.

(** ** The parsed document *)

Module Soup.
Import PyStr.

(** The attributes the scraper reads: [class] (BeautifulSoup keeps it as
    the list of its tokens, [[]] when absent) and [href]. *)
Record attrs := { class_ : list string; href : option string }.

(** A page element: a text node or a tag with its ordered contents.
    Every [Tag] is truthy in Python, so [if tag:] only tests that a
    search found one. *)
Inductive node :=
| NavigableString (s : string)
| Tag (name : string) (a : attrs) (contents : list node).

Definition is_tag (n : node) : bool :=
  match n with Tag _ _ _ => true | NavigableString _ => false end.

Definition name_of (n : node) : string :=
  match n with Tag nm _ _ => nm | NavigableString _ => EmptyString end.

Definition has_name (nm : string) (n : node) : bool :=
  match n with Tag nm' _ _ => String.eqb nm' nm | NavigableString _ => false end.

(** [element.get('class', [])]. *)
Definition classes (n : node) : list string :=
  match n with Tag _ a _ => class_ a | NavigableString _ => [] end.

(** [element.get('href')]. *)
Definition get_href (n : node) : option string :=
  match n with Tag _ a _ => href a | NavigableString _ => None end.

(** [x in l] on a list of strings. *)
Definition mem (x : string) (l : list string) : bool := existsb (String.eqb x) l.

(** The strings below an element, in document order. *)
Fixpoint all_strings (n : node) : list string :=
  match n with
  | NavigableString s => [s]
  | Tag _ _ cs => flat_map all_strings cs
  end.

(** [element.get_text()]. *)
Definition get_text (n : node) : string := join "" (all_strings n).

(** [element.get_text(separator=sep, strip=True)]: every string is
    stripped, the empty ones are dropped, the rest joined. *)
Definition get_text_strip (sep : string) (n : node) : string :=
  join sep (filter truthy (map strip (all_strings n))).

(** [element.descendants]: pre-order. *)
Fixpoint descendants (n : node) : list node :=
  match n with
  | NavigableString _ => []
  | Tag _ _ cs => flat_map (fun c => c :: descendants c) cs
  end.

(** [element.find_all(name)] and [element.find(name)]. *)
Definition find_all (nm : string) (n : node) : list node :=
  filter (has_name nm) (descendants n).

Definition find (nm : string) (n : node) : option node :=
  hd_error (find_all nm n).

(** An element together with its siblings: the preceding ones nearest
    first, the following ones in document order. *)
Record located := {
  prev_siblings : list node;
  element : node;
  next_siblings : list node
}.

(** [element.descendants] again, each node with its siblings. *)
Fixpoint located_descendants (n : node) : list located :=
  match n with
  | NavigableString _ => []
  | Tag _ _ cs =>
      (fix walk (before l : list node) {struct l} : list located :=
         match l with
         | [] => []
         | c :: rest =>
             {| prev_siblings := before; element := c; next_siblings := rest |}
               :: located_descendants c ++ walk (c :: before) rest
         end) [] cs
  end.

(** [soup.find_all(names)] with a list of tag names, keeping the siblings. *)
Definition find_all_located (names : list string) (n : node) : list located :=
  filter (fun l => is_tag (element l) && mem (name_of (element l)) names)
         (located_descendants n).

(** [soup.find_all(name, class_=cls)], keeping the siblings. *)
Definition find_all_class (nm cls : string) (n : node) : list located :=
  filter (fun l => has_name nm (element l) && mem cls (classes (element l)))
         (located_descendants n).

End Soup.

(** ** Resolving a reference against the site *)

Module Url.
Import PyStr.

(** [urllib.parse.urljoin("https://en.wikipedia.org", url)] for a
    reference [url] without scheme and without authority. The scraper
    only resolves references that start with [/wiki/] and hold no colon,
    so [urlsplit] finds neither in them (nor leading blanks to strip); the
    base splits into the three constants below, with empty path,
    parameters, query and fragment. *)
Definition bscheme : string := "https".
Definition bnetloc : string := "en.wikipedia.org".
Definition bpath : string := "".

(** [urlsplit] first deletes TAB, CR and LF from the reference. *)
Definition unsafe_url_bytes_to_remove : list ascii := ["009"; "013"; "010"]%char.

Definition remove_unsafe (url : string) : string :=
  fold_left (fun u b => remove_char b u) unsafe_url_bytes_to_remove url.

(** [_splitparams]: cut at the first semicolon that is not before the
    last slash ([url.find(';', url.rfind('/'))]); no cut when there is
    none. *)
Fixpoint splitparams (url : string) : string * string :=
  match url with
  | EmptyString => (EmptyString, EmptyString)
  | String c rest =>
      if Ascii.eqb c ";" && negb (str_in "/" rest) then (EmptyString, rest)
      else let (p, q) := splitparams rest in (String c p, q)
  end.

(** The loop of [urljoin] over the path segments: [..] pops (and is
    ignored on an empty stack), [.] is dropped. *)
Definition resolve_step (resolved_path : list string) (seg : string) : list string :=
  if String.eqb seg ".." then removelast resolved_path
  else if String.eqb seg "." then resolved_path
  else resolved_path ++ [seg].

Definition resolve (segments : list string) : list string :=
  fold_left resolve_step segments [].

(** [segments[1:-1] = filter(None, segments[1:-1])]. *)
Definition drop_empty_inner (segments : list string) : list string :=
  match segments with
  | first :: (_ :: _) as rest => first :: filter truthy (removelast rest) ++ [last rest first]
  | _ => segments
  end.

Definition join_path (path : string) : string :=
  let base_parts := split "/" bpath in
  let base_parts :=
    if truthy (last base_parts EmptyString) then removelast base_parts else base_parts in
  let segments :=
    if startswith path "/" then split "/" path
    else drop_empty_inner (base_parts ++ split "/" path) in
  let resolved_path := resolve segments in
  let last_seg := last segments EmptyString in
  let resolved_path :=
    if String.eqb last_seg "." || String.eqb last_seg ".."
    then resolved_path ++ [EmptyString] else resolved_path in
  let joined := join "/" resolved_path in
  if truthy joined then joined else "/".

(** [urlunparse], through [urlunsplit], with a non-empty authority. *)
Definition urlunparse (scheme netloc path params query fragment : string) : string :=
  let url := if truthy params then (path ++ ";" ++ params)%string else path in
  let url := if truthy url && negb (startswith url "/") then ("/" ++ url)%string else url in
  let url := ("//" ++ netloc ++ url)%string in
  let url := (scheme ++ ":" ++ url)%string in
  let url := if truthy query then (url ++ "?" ++ query)%string else url in
  if truthy fragment then (url ++ "#" ++ fragment)%string else url.

Definition urljoin (url : string) : string :=
  if negb (truthy url) then (bscheme ++ "://" ++ bnetloc ++ bpath)%string else
  let url := remove_unsafe url in
  let (url, fragment) := partition "#" url in
  let (url, query) := partition "?" url in
  let (path, params) := splitparams url in
  if negb (truthy path) && negb (truthy params)
  then urlunparse bscheme bnetloc bpath EmptyString query fragment
  else urlunparse bscheme bnetloc (join_path path) params query fragment.

End Url.

(** ** The scraper *)

Module Scrapper.
Import PyStr Soup Url.

(** One entry of [movies]: the dict with keys ['year'], ['title'], ['url']. *)
Record movie := { year : option string; title : string; url : string }.

(** The locals of [get_best_picture_nominations] that the loops carry
    from one iteration to the next. *)
Record frame := { movies : list movie; current_year : option string }.

Definition stop_phrases : list string :=
  [ "Production companies and distributors with multiple nominations and wins";
    "production company";
    "distributor" ].

(** [any(phrase.lower() in text for phrase in stop_phrases)]. *)
Definition any_stop_phrase (text : string) : bool :=
  existsb (fun phrase => str_in (lower phrase) text) stop_phrases.

(** Lines 35-41: [find_previous_sibling()] skips text nodes; at most [n]
    elements are collected, nearest first. *)
Fixpoint collect_previous (before : list node) (n : nat) : list node :=
  match before with
  | [] => []
  | NavigableString _ :: rest => collect_previous rest n
  | current :: rest =>
      match n with
      | 0 => []
      | S n' => current :: collect_previous rest n'
      end
  end.

Definition prev_elements (table : located) : list node :=
  collect_previous (prev_siblings table) 3.

(** Lines 43-48. *)
Definition should_stop (table : located) : bool :=
  existsb (fun element => any_stop_phrase (lower (get_text element)))
          (prev_elements table).

(** Lines 54-58. *)
Definition caption_stops (table : node) : bool :=
  match find "caption" table with
  | Some caption => any_stop_phrase (lower (get_text caption))
  | None => false
  end.

(** Lines 61-65. *)
Definition first_row_stops (table : node) : bool :=
  match find "tr" table with
  | Some first_row =>
      let header_text := lower (get_text first_row) in
      str_in "production company" header_text
      || (str_in "nominations" header_text && str_in "wins" header_text)
  | None => false
  end.

(** Lines 74-80: the year a row's header cell supplies, if any. *)
Definition header_year (row : node) : option string :=
  match find "th" row with
  | Some year_th =>
      let year_text := get_text_strip "" year_th in
      let year_parts := filter_chars isdigit_char (hd EmptyString (split "010" year_text)) in
      if truthy year_parts && (4 <=? String.length year_parts)
      then Some (slice_to 4 year_parts)
      else None
  | None => None
  end.

(** [current_year] after lines 74-80. *)
Definition update_year (row : node) (current_year : option string) : option string :=
  match header_year row with
  | Some y => Some y
  | None => current_year
  end.

(** Lines 82-106: [None] is the [continue] of a row without cells. *)
Definition select_film_cell (cells : list node) : option node :=
  match cells with
  | [] => None
  | [only] => Some only
  | first :: second :: _ =>
      let first_cell_text := get_text_strip "" first in
      if truthy first_cell_text
         && isdigit (remove_char ")" (remove_char "(" (remove_char "/" first_cell_text)))
      then Some second
      else Some first
  end.

(** Lines 109-127: what the film cell appends to [movies]. *)
Definition film_cell_movies (film_cell : node) (current_year : option string) : list movie :=
  match find "a" film_cell with
  | Some link =>
      let title := get_text_strip "" link in
      match get_href link with
      | None => []
      | Some href =>
          if negb (truthy href) || negb (startswith href "/wiki/") then []
          else if str_in ":" href then []
          else
            let full_url := urljoin href in
            if truthy title && truthy full_url
            then [ {| year := current_year; title := title; url := full_url |} ]
            else []
      end
  | None => []
  end.

(** Lines 82-127: what one row appends to [movies], given the year in
    force once its header cell has been read. *)
Definition row_movies (row : node) (current_year : option string) : list movie :=
  let cells := find_all "td" row in
  match select_film_cell cells with
  | None => []
  | Some film_cell => film_cell_movies film_cell current_year
  end.

(** The body of the row loop, lines 71-127. *)
Definition row_body (row : node) (st : frame) : frame :=
  let current_year := update_year row (current_year st) in
  {| movies := movies st ++ row_movies row current_year;
     current_year := current_year |}.

Definition rows_loop (rows : list node) (st : frame) : frame :=
  fold_left (fun st row => row_body row st) rows st.

(** The table loop, lines 33-127; returning [st] early is the [break]. *)
Fixpoint tables_loop (tables : list located) (st : frame) : frame :=
  match tables with
  | [] => st
  | table :: rest =>
      if should_stop table then st
      else if caption_stops (element table) then st
      else if first_row_stops (element table) then st
      else
        let rows := find_all "tr" (element table) in
        tables_loop rest (rows_loop rows {| movies := movies st; current_year := None |})
  end.

(** The three [break]s of one iteration together. *)
Definition table_stops (table : located) : bool :=
  should_stop table || caption_stops (element table) || first_row_stops (element table).

(** [soup.find_all('table', class_='wikitable')]. *)
Definition wikitables (soup : node) : list located :=
  find_all_class "table" "wikitable" soup.

(** Line 21: no record yet; [current_year] is set at line 68 before it is
    read. *)
Definition fresh : frame := {| movies := []; current_year := None |}.

(** Lines 21-129, on the parsed page. *)
Definition get_best_picture_nominations (soup : node) : list movie :=
  movies (tables_loop (wikitables soup) fresh).

(** *** [extract_plot_from_section] *)

Definition is_mw_heading (element : node) : bool :=
  String.eqb (name_of element) "div" && mem "mw-heading" (classes element).

(** Lines 137-146: the test of one candidate of the search loop. *)
Definition heading_matches (section_name : string) (element : node) : bool :=
  if is_mw_heading element
  then str_in (lower section_name) (lower (get_text element))
  else if mem (name_of element) ["h2"; "h3"]
  then str_in (lower section_name) (lower (get_text element))
  else false.

Fixpoint search_heading (section_name : string) (elements : list located) : option located :=
  match elements with
  | [] => None
  | candidate :: rest =>
      if heading_matches section_name (element candidate) then Some candidate
      else search_heading section_name rest
  end.

(** Lines 157-164: the two [break]s of the walk. *)
Definition is_boundary (current : node) : bool :=
  (is_mw_heading current
   && match find "h2" current with Some _ => true | None => false end)
  || String.eqb (name_of current) "h2".

(** Lines 155-172: [find_next_sibling()] skips text nodes. *)
Fixpoint walk (siblings : list node) (plot_text : list string) : list string :=
  match siblings with
  | [] => plot_text
  | NavigableString _ :: rest => walk rest plot_text
  | current :: rest =>
      if is_boundary current then plot_text
      else
        let plot_text :=
          if String.eqb (name_of current) "p"
          then
            let text := get_text_strip " " current in
            if truthy text then plot_text ++ [text] else plot_text
          else plot_text in
        walk rest plot_text
  end.

(** Lines 131-174. *)
Definition extract_plot_from_section (soup : node) (section_name : string) : option string :=
  match search_heading section_name (find_all_located ["div"; "h2"; "h3"] soup) with
  | None => None
  | Some plot_section =>
      let plot_text := walk (next_siblings plot_section) [] in
      match plot_text with
      | [] => None
      | _ => Some (join " " plot_text)
      end
  end.

(** *** [extract_plot] *)

(** [not plot_text] on a result that is a string or [None]. *)
Definition py_not (x : option string) : bool :=
  match x with
  | None => true
  | Some s => negb (truthy s)
  end.

(** Lines 191-202, on the parsed page: the section names the helper was
    called with, in order, and the value returned. *)
Definition extract_plot (soup : node) : list string * option string :=
  let plot_text := extract_plot_from_section soup "Plot" in
  let calls := ["Plot"] in
  let (calls, plot_text) :=
    if py_not plot_text
    then (calls ++ ["Synopsis"], extract_plot_from_section soup "Synopsis")
    else (calls, plot_text) in
  if py_not plot_text then (calls, None) else (calls, plot_text).

End Scrapper.

(** ** Sample pages *)

Module Pages.
Import PyStr Soup Url Scrapper.

Definition no_attrs : attrs := {| class_ := []; href := None |}.
Definition el (nm : string) (cs : list node) : node := Tag nm no_attrs cs.
Definition text (s : string) : node := NavigableString s.
Definition newline : string := String "010" EmptyString.
Definition link (h t : string) : node :=
  Tag "a" {| class_ := []; href := Some h |} [text t].
Definition wikitable (rows : list node) : node :=
  Tag "table" {| class_ := ["wikitable"]; href := None |} rows.
Definition heading_div (level title : string) : node :=
  Tag "div" {| class_ := ["mw-heading"]; href := None |} [el level [text title]].
Definition page (body : list node) : node := Tag "[document]" no_attrs body.

Definition film_row (h t producer : string) : node :=
  el "tr" [el "td" [link h t]; el "td" [text producer]].

Definition wings : movie :=
  {| year := None; title := "Wings";
     url := "https://en.wikipedia.org/wiki/Wings_(1927_film)" |}.

(** A nomination table whose header row names a distributor column. *)
Definition distributor_table : node :=
  wikitable [ el "tr" [el "th" [text "Film"]; el "th" [text "Distributor"]];
              film_row "/wiki/Wings_(1927_film)" "Wings" "Paramount" ].

Definition distributor_page : node := page [distributor_table].

(** A nomination table, then the statistics heading and its table. *)
Definition row_1990 : node :=
  el "tr" [el "th" [text "1990"]; el "td" [link "/wiki/A" "A"]; el "td" [text "B"]].

Definition row_carried : node :=
  el "tr" [el "td" [link "/wiki/C" "C"]; el "td" [text "D"]].

Definition nominees_1990 : node := wikitable [row_1990; row_carried].

Definition statistics_heading : node :=
  el "h2" [text "Production companies and distributors with multiple nominations and wins"].

Definition statistics_page : node :=
  page [ nominees_1990; text newline; statistics_heading; text newline;
         wikitable [film_row "/wiki/Wings_(1927_film)" "Wings" "Paramount"] ].

(** An aggregate table (nomination and win counts) before a nomination table. *)
Definition aggregate_table : node :=
  wikitable [ el "tr" [el "th" [text "Studio"]; el "th" [text "Nominations"]; el "th" [text "Wins"]] ].

Definition plain_table : node :=
  wikitable [film_row "/wiki/Wings_(1927_film)" "Wings" "Paramount"].

Definition aggregate_page : node := page [aggregate_table; plain_table].

(** A nomination table with a second table inside one of its cells, under
    a heading of that cell that names distributors. *)
Definition inner_table : node := wikitable [film_row "/wiki/C" "C" "D"].

Definition nested_page : node :=
  page [ wikitable [ film_row "/wiki/A" "A" "B";
                     el "tr" [el "td" [el "h3" [text "Distributors"]; inner_table]] ] ].



Definition film (y : option string) (t : string) : movie :=
  {| year := y; title := t; url := "https://en.wikipedia.org/wiki/" ++ t |}.

(** A header cell whose digits do not come first. *)
Definition ceremony_row : node :=
  el "tr" [el "th" [text "(83rd) 2010"]; el "td" [link "/wiki/A" "A"]].

(** A film link with a dot segment. *)
Definition dotted_page : node :=
  page [wikitable [film_row "/wiki/../w/index.php" "Index" "Nobody"]].

(** An article with a plot section, two sub-headings in it, and a cast section. *)
Definition article : node :=
  page [ el "p" [text "Lead paragraph."];
         heading_div "h2" "Background";
         el "p" [text "Written in 1926."];
         heading_div "h2" "Plot";
         text newline;
         el "p" [text " A pilot "; el "b" [text "falls"]; text " in love. "];
         heading_div "h3" "Act two";
         el "p" [text "  "];
         el "h3" [text "Act three"];
         el "p" [text "The war ends."];
         heading_div "h2" "Cast";
         el "p" [text "Clara Bow"] ].

(** An article with a synopsis and no plot section. *)
Definition synopsis_article : node :=
  page [ el "h2" [text "Synopsis"];
         el "p" [text "Two friends enlist."];
         el "h2" [text "Production"];
         el "p" [text "Shot in Texas."] ].

End Pages.

(** ** The specification's wording, as definitions

    Each definition here follows a sentence of the specification; the
    theorems below compare them with the code. *)

Module Worded.
Import PyStr Soup Url Scrapper.

Fixpoint take_while {A : Type} (p : A -> bool) (l : list A) : list A :=
  match l with
  | [] => []
  | x :: rest => if p x then x :: take_while p rest else []
  end.

(** "Inspect up to 3 preceding sibling elements and the Block's own
    caption (if present) and its first Row's text. If any of these
    contains one of a fixed set of case-insensitive stop phrases ...". *)
Definition heading_contexts (table : located) : list node :=
  firstn 3 (filter is_tag (prev_siblings table))
  ++ match find "caption" (element table) with Some c => [c] | None => [] end.

Definition contexts (table : located) : list node :=
  heading_contexts table
  ++ match find "tr" (element table) with Some r => [r] | None => [] end.

Definition stop_test_as_worded (table : located) : bool :=
  existsb (fun context =>
             existsb (fun phrase => str_in (lower phrase) (lower (get_text context)))
                     stop_phrases)
          (contexts table).

(** "a Block whose first Row's combined text simultaneously contains
    terms for both a nomination-count heading and a win-count heading". *)
Definition aggregate_test (table : node) : bool :=
  match find "tr" table with
  | Some first_row =>
      str_in "nominations" (lower (get_text first_row))
      && str_in "wins" (lower (get_text first_row))
  | None => false
  end.

(** "extract a leading run of digits from its text before any line
    break; if at least 4 digits are found, set current-year to the first
    4 digits". *)
Fixpoint leading_digits (s : string) : string :=
  match s with
  | EmptyString => EmptyString
  | String c s' => if isdigit_char c then String c (leading_digits s') else EmptyString
  end.

Definition header_year_as_worded (row : node) : option string :=
  match find "th" row with
  | Some year_th =>
      let run := leading_digits (hd EmptyString (split "010" (get_text_strip "" year_th))) in
      if 4 <=? String.length run then Some (slice_to 4 run) else None
  | None => None
  end.


(** "Reject (skip this row, continue loop) if: no link, the link target
    is not a same-site content reference, or the target contains a
    namespace separator"; "provided title is non-empty". *)
Definition link_rejected (link : node) : bool :=
  match get_href link with
  | None => true
  | Some target => negb (startswith target "/wiki/") || str_in ":" target
  end
  || negb (truthy (get_text_strip "" link)).

(** "a heading marker (either a dedicated heading-wrapper element or a
    direct level-2/level-3 heading element) whose visible text contains
    [label] case-insensitively". *)
Definition is_heading_for (label : string) (n : node) : bool :=
  ((has_name "div" n && mem "mw-heading" (classes n)) || has_name "h2" n || has_name "h3" n)
  && str_in (lower label) (lower (get_text n)).

(** "a heading-wrapper element that itself contains a level-2 heading,
    or a bare level-2 heading element". *)
Definition top_level_boundary (n : node) : bool :=
  (has_name "div" n && mem "mw-heading" (classes n) && existsb (has_name "h2") (descendants n))
  || has_name "h2" n.

(** "Sub-headings below top level (e.g., level-3)": a bare h3, or a
    heading wrapper that holds no level-2 heading. *)
Definition sub_heading (n : node) : bool :=
  has_name "h3" n
  || (has_name "div" n && mem "mw-heading" (classes n)
      && negb (existsb (has_name "h2") (descendants n))).

(** The non-empty trimmed texts of the paragraph siblings before the
    first top-level boundary. *)
Definition section_paragraphs (siblings : list node) : list string :=
  filter truthy
    (map (get_text_strip " ")
       (filter (has_name "p")
          (take_while (fun n => negb (top_level_boundary n)) (filter is_tag siblings)))).

(** The path of a reference as [urljoin] sees it: without fragment,
    query and parameters; and that path cut into its segments. *)
Definition path_of (target : string) : string :=
  fst (splitparams (fst (partition "?" (fst (partition "#" (remove_unsafe target)))))).

Definition path_segments (target : string) : list string :=
  split "/" (path_of target).

(** A year field: absent, or exactly four digit characters. *)
Definition four_digits (y : option string) : Prop :=
  match y with
  | None => True
  | Some s => String.length s = 4 /\ all_chars isdigit_char s = true
  end.

End Worded.

(** ** Places in the document

    Two elements with the same markup are equal as values; what tells
    them apart is where they stand. The searches are given here once more,
    each element with its place, to say which rows lie inside which table. *)

Module Places.
Import PyStr Soup Scrapper Worded.

(** The place of an element: the child indices that lead to it from the
    root of the document. *)
Definition place := list nat.

(** [inside outer inner]: the place [inner] is [outer] or lies below it. *)
Fixpoint inside (outer inner : place) : bool :=
  match outer, inner with
  | [], _ => true
  | i :: outer', j :: inner' => (i =? j) && inside outer' inner'
  | _ :: _, [] => false
  end.

(** [element.descendants] for the element at place [p], each descendant
    with its place. *)
Fixpoint descendants_at (p : place) (n : node) : list (place * node) :=
  match n with
  | NavigableString _ => []
  | Tag _ _ cs =>
      (fix walk (i : nat) (l : list node) {struct l} : list (place * node) :=
         match l with
         | [] => []
         | c :: rest =>
             (p ++ [i], c) :: descendants_at (p ++ [i]) c ++ walk (S i) rest
         end) 0 cs
  end.

(** The same with the siblings kept, as [located_descendants] has them. *)
Fixpoint located_descendants_at (p : place) (n : node) : list (place * located) :=
  match n with
  | NavigableString _ => []
  | Tag _ _ cs =>
      (fix walk (i : nat) (before l : list node) {struct l} : list (place * located) :=
         match l with
         | [] => []
         | c :: rest =>
             (p ++ [i], {| prev_siblings := before; element := c; next_siblings := rest |})
               :: located_descendants_at (p ++ [i]) c ++ walk (S i) (c :: before) rest
         end) 0 [] cs
  end.

(** [soup.find_all('table', class_='wikitable')], each table with its place. *)
Definition wikitables_at (soup : node) : list (place * located) :=
  filter (fun t => has_name "table" (element (snd t))
                   && mem "wikitable" (classes (element (snd t))))
         (located_descendants_at [] soup).

(** [table.find_all('tr')], each row with its place. *)
Definition rows_at (table : place * located) : list (place * node) :=
  filter (fun r => has_name "tr" (snd r)) (descendants_at (fst table) (element (snd table))).

(** The inner loop of [located_descendants_at], over the children of the
    element at [p]. *)
Definition located_walk (p : place) :=
  fix walk (i : nat) (before l : list node) {struct l} : list (place * located) :=
    match l with
    | [] => []
    | c :: rest =>
        (p ++ [i], {| prev_siblings := before; element := c; next_siblings := rest |})
          :: located_descendants_at (p ++ [i]) c ++ walk (S i) (c :: before) rest
    end.

(** Where the descendants of the element at [p] stand: below its child
    [k], for some [k] from [from] on. *)
Definition below (p : place) (from : nat) (q : place) : Prop :=
  exists k r, from <= k /\ q = p ++ k :: r.

(** Document order: no element lies inside one that is listed after it. *)
Definition in_document_order {A : Type} (l : list (place * A)) : Prop :=
  ForallOrdPairs (fun x y => inside (fst y) (fst x) = false) l.

(** The Blocks that are scanned: those before the first one that ends the
    scan. *)
Definition scanned (tables : list (place * located)) : list (place * located) :=
  take_while (fun t => negb (table_stops (snd t))) tables.

(** The records of one Block scanned on its own: all the rows inside it
    in document order, starting without a year (lines 67-127). *)
Definition block_records (table : place * located) : list movie :=
  movies (rows_loop (map snd (rows_at table)) fresh).

End Places.

(** ** More of Python's strings *)

Module PyText.
Import PyStr.

(** [str.isalpha] on one character: the letters of Latin-1 ('A'..'Z',
    'a'..'z', U+00AA, U+00B5, U+00BA, U+00C0..U+00FF but the signs U+00D7
    and U+00F7). *)
Definition isalpha_char (c : ascii) : bool :=
  let n := nat_of_ascii c in
  ((65 <=? n) && (n <=? 90)) || ((97 <=? n) && (n <=? 122))
  || (n =? 170) || (n =? 181) || (n =? 186)
  || ((192 <=? n) && (n <=? 214)) || ((216 <=? n) && (n <=? 246))
  || ((248 <=? n) && (n <=? 255)).

(** [str.isalnum] on one character: alphabetic, or decimal, digit or
    numeric (the digits, the superscripts and the fractions U+00BC..U+00BE). *)
Definition isalnum_char (c : ascii) : bool :=
  let n := nat_of_ascii c in
  isalpha_char c || isdigit_char c || ((188 <=? n) && (n <=? 190)).

(** [s.replace(a, b)] for one-character [a] and [b]. *)
Fixpoint replace_char (a b : ascii) (s : string) : string :=
  match s with
  | EmptyString => EmptyString
  | String c s' => String (if Ascii.eqb c a then b else c) (replace_char a b s')
  end.

(** [s.endswith(c)] for a one-character [c]. *)
Fixpoint endswith_char (s : string) (c : ascii) : bool :=
  match s with
  | EmptyString => false
  | String x EmptyString => Ascii.eqb x c
  | String _ s' => endswith_char s' c
  end.

(** [posixpath.join(a, b)]. *)
Definition os_path_join (a b : string) : string :=
  if startswith b "/" then b
  else if negb (truthy a) || endswith_char a "/" then (a ++ b)%string
  else (a ++ "/" ++ b)%string.

End PyText.

(** ** JSON values and the files that hold them *)

From Stdlib Require Import ZArith Floats.SpecFloat Sorting.Permutation.

Module PyJson.
Import PyStr.

(** What [json.load] returns: [None], a bool, an int, a float, a str, a
    list or a dict with string keys (kept in insertion order). *)
Inductive json :=
| JNull
| JBool (b : bool)
| JInt (z : Z)
| JFloat (f : spec_float)
| JStr (s : string)
| JList (items : list json)
| JDict (items : list (string * json)).

(** [bool(v)]. *)
Definition py_truthy (v : json) : bool :=
  match v with
  | JNull => false
  | JBool b => b
  | JInt z => negb (Z.eqb z 0)
  | JFloat (S754_zero _) => false
  | JFloat _ => true
  | JStr s => truthy s
  | JList [] => false
  | JList _ => true
  | JDict [] => false
  | JDict _ => true
  end.

(** [d.get(key)] and [key in d] on a dict. *)
Fixpoint dict_get (key : string) (d : list (string * json)) : option json :=
  match d with
  | [] => None
  | (k, v) :: rest => if String.eqb k key then Some v else dict_get key rest
  end.

Definition dict_has (key : string) (d : list (string * json)) : bool :=
  match dict_get key d with Some _ => true | None => false end.

(** [d[key] = v]: the value is replaced in place, a new key goes last. *)
Fixpoint dict_set (key : string) (v : json) (d : list (string * json)) : list (string * json) :=
  match d with
  | [] => [(key, v)]
  | (k, v') :: rest =>
      if String.eqb k key then (k, v) :: rest else (k, v') :: dict_set key v rest
  end.

(** [{**a, **b}]. *)
Definition dict_merge (a b : list (string * json)) : list (string * json) :=
  fold_left (fun acc kv => dict_set (fst kv) (snd kv) acc) b a.

(** [key in v] for a string [key]: membership in a dict's keys, equality
    with an element of a list, substring of a str; [None] is the TypeError
    of the other values. *)
Definition py_contains (key : string) (v : json) : option bool :=
  match v with
  | JDict d => Some (dict_has key d)
  | JList l => Some (existsb (fun e => match e with JStr s => String.eqb s key | _ => false end) l)
  | JStr s => Some (str_in key s)
  | _ => None
  end.

(** A file as the scripts see it: one that [json.load] reads to a value,
    or one that makes [open] or [json.load] raise. A file written by
    [json.dump(v, ...)] reads back as [v]. *)
Inductive content :=
| Parsed (v : json)
| Unreadable.

(** The files by path; [None] where [os.path.exists] is false. Distinct
    path strings name distinct files. *)
Definition files := string -> option content.

Definition exists_ (path : string) (fs : files) : bool :=
  match fs path with Some _ => true | None => false end.

(** How a call ends: it returns a value or an exception leaves it. *)
Inductive outcome (A : Type) :=
| Returned (a : A)
| Raised.
Arguments Returned {A} a.
Arguments Raised {A}.

(** How [with open(path, 'w') as f: json.dump(v, f, ...)] ends: it
    completes, and the file holds [v]; or [open] raises (or the
    [os.makedirs] before it), and nothing is changed; or [json.dump]
    raises after [open] has emptied the file, which is left with a part
    of the text, one that [json.load] does not read (the text of a dict
    or list is closed by its last character). *)
Inductive write_end :=
| Completes
| Refused
| Breaks.

(** What becomes of a write, by path: a script call writes a path at
    most once. *)
Definition disk := string -> write_end.

(** The files after a write to [path] that completes. *)
Definition write (path : string) (v : json) (fs : files) : files :=
  fun p => if String.eqb p path then Some (Parsed v) else fs p.

(** The files after a write to [path] that breaks. *)
Definition spoil (path : string) (fs : files) : files :=
  fun p => if String.eqb p path then Some Unreadable else fs p.

(** [with open(path, 'w') as f: json.dump(v, f, ...)] on a given disk. *)
Definition write_to (dk : disk) (path : string) (v : json) (fs : files)
    : files * outcome unit :=
  match dk path with
  | Completes => (write path v fs, Returned tt)
  | Refused => (fs, Raised)
  | Breaks => (spoil path fs, Raised)
  end.

(** A disk on which every write completes. *)
Definition sound_disk : disk := fun _ => Completes.

End PyJson.

(** ** The movie files of [scrapper.py] *)

Module MovieFiles.
Import PyStr PyText PyJson Scrapper.

(** Line 210: the characters of the title that are kept. *)
Definition kept_in_title (c : ascii) : bool :=
  isalnum_char c || Ascii.eqb c " " || Ascii.eqb c "-" || Ascii.eqb c "_".

(** The characters a sanitized title is made of. *)
Definition safe_char (c : ascii) : bool :=
  isalnum_char c || Ascii.eqb c "-" || Ascii.eqb c "_".

(** Lines 210-211. *)
Definition safe_title (movie_title : string) : string :=
  replace_char " " "_" (strip (filter_chars kept_in_title movie_title)).

(** [f"{movie_year}"] for a year that is a str or [None]. *)
Definition format_year (movie_year : option string) : string :=
  match movie_year with
  | Some y => y
  | None => "None"
  end.

(** Line 212. *)
Definition filename_of (movie_title : string) (movie_year : option string) : string :=
  (format_year movie_year ++ "_" ++ safe_title movie_title ++ ".json")%string.

(** Lines 208-213. *)
Definition get_movie_filepath
    (movie_title : string) (movie_year : option string) (output_dir : string) : string :=
  os_path_join output_dir (filename_of movie_title movie_year).

(** Lines 215-218. *)
Definition movie_already_scraped
    (movie_title : string) (movie_year : option string) (output_dir : string)
    (fs : files) : bool :=
  exists_ (get_movie_filepath movie_title movie_year output_dir) fs.

(** The dict [main] builds at lines 282-287: ['year'] is a str or [None],
    the other three are strs. *)
Record movie_data := {
  md_year : option string;
  md_name : string;
  md_plot : string;
  md_wiki : string
}.

Definition json_of_year (y : option string) : json :=
  match y with
  | Some s => JStr s
  | None => JNull
  end.

Definition json_of_movie_data (d : movie_data) : json :=
  JDict [ ("year", json_of_year (md_year d));
          ("name", JStr (md_name d));
          ("plot", JStr (md_plot d));
          ("wiki", JStr (md_wiki d)) ].

Section Disk.

(** What becomes of the writes of the call. *)
Variable dk : disk.

(** Lines 220-229: the files it leaves and how it ends. *)
Definition save_movie_to_json (d : movie_data) (output_dir : string) (fs : files)
    : files * outcome unit :=
  write_to dk (get_movie_filepath (md_name d) (md_year d) output_dir) (json_of_movie_data d) fs.

(** Lines 237-251: one iteration of [backfill_wiki_links]; the bool tells
    whether the file was updated. *)
Definition backfill_one (output_dir : string) (m : movie) (fs : files) : files * outcome bool :=
  let filepath := get_movie_filepath (title m) (year m) output_dir in
  match fs filepath with
  | None => (fs, Returned false)
  | Some Unreadable => (fs, Raised)
  | Some (Parsed loaded) =>
      match py_contains "wiki" loaded with
      | None => (fs, Raised)
      | Some true => (fs, Returned false)
      | Some false =>
          match loaded with
          | JDict d =>
              match write_to dk filepath (JDict (dict_set "wiki" (JStr (url m)) d)) fs with
              | (fs', Returned _) => (fs', Returned true)
              | (fs', Raised) => (fs', Raised)
              end
          | _ => (fs, Raised)
          end
      end
  end.

(** Lines 236-251: the loop, with its counter [updated]. *)
Fixpoint backfill_loop (output_dir : string) (movies : list movie) (updated : nat)
    (fs : files) : files * outcome nat :=
  match movies with
  | [] => (fs, Returned updated)
  | m :: rest =>
      match backfill_one output_dir m fs with
      | (fs', Returned true) => backfill_loop output_dir rest (S updated) fs'
      | (fs', Returned false) => backfill_loop output_dir rest updated fs'
      | (fs', Raised) => (fs', Raised)
      end
  end.

(** Lines 231-253: the files it leaves and the number it updated. *)
Definition backfill_wiki_links (movies : list movie) (output_dir : string) (fs : files)
    : files * outcome nat :=
  backfill_loop output_dir movies 0 fs.

End Disk.

(** A path where a later backfill finds nothing to do: no file, or a file
    whose value holds ['wiki']. *)
Definition wiki_settled (c : option content) : Prop :=
  c = None \/ exists loaded, c = Some (Parsed loaded) /\ py_contains "wiki" loaded = Some true.

End MovieFiles.

(** ** [main] of [scrapper.py] *)

Module ScrapperMain.
Import PyStr PyText PyJson Soup Scrapper MovieFiles.

(** The counters and the list [main] keeps through its loop. *)
Record tally := {
  processed : nat;
  skipped : nat;
  no_plot_found : list movie
}.

Section Network.

(** What the request for the [i]-th movie's page gives: the parsed page,
    or [None] when [requests.get] or [raise_for_status] raises. *)
Variable fetch : nat -> string -> option node.

(** What becomes of the writes of the call. *)
Variable dk : disk.

(** Lines 177-206, called for the [i]-th movie: every exception gives [None]. *)
Definition extract_plot_at (i : nat) (movie_url : string) : option string :=
  match fetch i movie_url with
  | Some soup => snd (extract_plot soup)
  | None => None
  end.

(** Lines 271-299: one iteration of the loop of [main]; an exception of
    [save_movie_to_json] leaves the loop and the call. *)
Definition main_step (i : nat) (m : movie) (st : files * tally) : files * outcome tally :=
  let (fs, t) := st in
  if movie_already_scraped (title m) (year m) "movie_data" fs
  then (fs, Returned {| processed := processed t; skipped := S (skipped t);
                        no_plot_found := no_plot_found t |})
  else
    match extract_plot_at i (url m) with
    | Some plot =>
        if truthy plot
        then
          match save_movie_to_json dk
                  {| md_year := year m; md_name := title m; md_plot := plot; md_wiki := url m |}
                  "movie_data" fs with
          | (fs', Returned _) =>
              (fs', Returned {| processed := S (processed t); skipped := skipped t;
                                no_plot_found := no_plot_found t |})
          | (fs', Raised) => (fs', Raised)
          end
        else (fs, Returned {| processed := processed t; skipped := skipped t;
                              no_plot_found := no_plot_found t ++ [m] |})
    | None => (fs, Returned {| processed := processed t; skipped := skipped t;
                               no_plot_found := no_plot_found t ++ [m] |})
    end.

(** Lines 270-299: [enumerate(movies, 1)] from index [i]. *)
Fixpoint main_loop (i : nat) (movies : list movie) (st : files * tally)
    : files * outcome tally :=
  match movies with
  | [] => (fst st, Returned (snd st))
  | m :: rest =>
      match main_step i m st with
      | (fs', Returned t') => main_loop (S i) rest (fs', t')
      | (fs', Raised) => (fs', Raised)
      end
  end.

Definition empty_tally : tally := {| processed := 0; skipped := 0; no_plot_found := [] |}.

(** The movies a tally accounts for. *)
Definition counted (t : tally) : nat :=
  processed t + skipped t + List.length (no_plot_found t).

(** What a file made by the loop for movie [m] holds: the four keys, with
    a non-empty plot that a fetched page gave. *)
Definition made_for (m : movie) (c : option content) : Prop :=
  exists k soup plot,
    fetch k (url m) = Some soup /\ snd (extract_plot soup) = Some plot /\
    truthy plot = true /\
    c = Some (Parsed (json_of_movie_data
                        {| md_year := year m; md_name := title m;
                           md_plot := plot; md_wiki := url m |})).

(** Lines 255-310, on the nominations page as fetched and parsed ([None]
    when that request raises). *)
Definition main (page : option node) (fs : files) : files * outcome tally :=
  match page with
  | None => (fs, Raised)
  | Some soup =>
      let movies := get_best_picture_nominations soup in
      match backfill_wiki_links dk movies "movie_data" fs with
      | (fs', Raised) => (fs', Raised)
      | (fs', Returned _) => main_loop 1 movies (fs', empty_tally)
      end
  end.

End Network.

End ScrapperMain.

(** ** The scan, table by table *)

Module Scan.
Import PyStr Soup Url Scrapper Worded.

(** The records of one table scanned on its own. *)
Definition table_movies (table : located) : list movie :=
  movies (rows_loop (find_all "tr" (element table)) fresh).

(** The tables before the first one that stops the scan. *)
Definition scanned_tables (soup : node) : list located :=
  take_while (fun table => negb (table_stops table)) (wikitables soup).

(** A reference without fragment, query, parameters, TAB, CR or LF. *)
Definition plain_char (c : ascii) : bool :=
  negb (Ascii.eqb c "#" || Ascii.eqb c "?" || Ascii.eqb c ";"
        || Ascii.eqb c "009" || Ascii.eqb c "013" || Ascii.eqb c "010").

End Scan.

(** ** [obfuscate_plots.py] *)

Module ObfuscatePlots.
Import PyStr PyJson.

(** The value of the ['status'] key of a result. *)
Inductive status := Success | Skipped | NoPlot | Error.

(** What a call leaves: the files of the output directory by name, the
    status it reports, and whether it called the API. The input and the
    output directory are two directories, as the defaults are. *)
Record report := {
  output_files : files;
  reported : status;
  api_called : bool
}.

(** Lines 7-34: [reply] is the text of the first content block of the
    answer, [None] when the request raises. *)
Definition obfuscate_plot (reply : option string) : option string :=
  match reply with
  | Some text => Some (strip text)
  | None => None
  end.

(** Lines 36-68, for the input file named [name], on a disk [dk] that
    tells what becomes of the write of an output file; every exception,
    that of the write too, ends in the status [Error]. *)
Definition process_single_file
    (dk : disk) (name : string) (input_files output : files) (reply : option string) : report :=
  match output name with
  | Some _ => {| output_files := output; reported := Skipped; api_called := false |}
  | None =>
      match input_files name with
      | Some (Parsed (JDict movie_data)) =>
          let plot := dict_get "plot" movie_data in
          if match plot with Some v => py_truthy v | None => false end
          then
            match obfuscate_plot reply with
            | Some obfuscated =>
                match write_to dk name (JDict [("obfuscated_plot", JStr obfuscated)]) output with
                | (output', Returned _) =>
                    {| output_files := output'; reported := Success; api_called := true |}
                | (output', Raised) =>
                    {| output_files := output'; reported := Error; api_called := true |}
                end
            | None => {| output_files := output; reported := Error; api_called := true |}
            end
          else {| output_files := output; reported := NoPlot; api_called := false |}
      | _ => {| output_files := output; reported := Error; api_called := false |}
      end
  end.

(** The counters of [process_movie_files]: [processed], [skipped] and the
    length of [errors]. *)
Record counts := {
  files_processed : nat;
  files_skipped : nat;
  file_errors : nat
}.

(** Lines 106-117. *)
Definition count_result (s : status) (c : counts) : counts :=
  match s with
  | Success => {| files_processed := S (files_processed c); files_skipped := files_skipped c;
                  file_errors := file_errors c |}
  | Skipped => {| files_processed := files_processed c; files_skipped := S (files_skipped c);
                  file_errors := file_errors c |}
  | NoPlot => c
  | Error => {| files_processed := files_processed c; files_skipped := files_skipped c;
                file_errors := S (file_errors c) |}
  end.

Section Replies.

(** What the API answers when asked about the file of a name. *)
Variable reply_for : string -> option string.

(** What becomes of the write of each output file. *)
Variable dk : disk.

(** One completed task and its bookkeeping, lines 103-117. *)
Definition complete (input_files : files) (st : files * counts) (name : string)
    : files * counts :=
  let r := process_single_file dk name input_files (fst st) (reply_for name) in
  (output_files r, count_result (reported r) (snd st)).

(** Lines 70-124, with the tasks taken in the order they complete: each
    task touches only the output file of its own name, so the run is the
    tasks one after the other in that order. Without an API key the call
    raises before any task. *)
Definition process_movie_files (api_key : option string) (completion_order : list string)
    (input_files output : files) : files * outcome counts :=
  match api_key with
  | Some key =>
      if truthy key
      then
        let (output', c) :=
          fold_left (complete input_files) completion_order
                    (output, {| files_processed := 0; files_skipped := 0; file_errors := 0 |}) in
        (output', Returned c)
      else (output, Raised)
  | None => (output, Raised)
  end.

End Replies.

End ObfuscatePlots.

(** ** [db_joiner.py] *)

Module DbJoiner.
Import PyStr PyJson.

(** Lines 16-34: the loop over the names [glob] gave, with the list
    [movies] built so far. *)
Fixpoint join_loop (names : list string) (movie_data_dir obfuscated_dir : files)
    (movies : list json) : outcome (list json) :=
  match names with
  | [] => Returned movies
  | filename :: rest =>
      match obfuscated_dir filename with
      | Some obfuscated_file =>
          match movie_data_dir filename, obfuscated_file with
          | Some (Parsed (JDict movie_data)), Parsed (JDict obfuscated_data) =>
              join_loop rest movie_data_dir obfuscated_dir
                        (movies ++ [JDict (dict_merge movie_data obfuscated_data)])
          | _, _ => Raised
          end
      | None => join_loop rest movie_data_dir obfuscated_dir movies
      end
  end.

(** Lines 5-41: what [db.json] holds afterwards, given what it held and
    what becomes of its write at lines 38-39, and how the call ends. *)
Definition main (written : write_end) (names : list string)
    (movie_data_dir obfuscated_dir : files) (db : option content)
    : option content * outcome unit :=
  match join_loop names movie_data_dir obfuscated_dir [] with
  | Returned movies =>
      match written with
      | Completes => (Some (Parsed (JList movies)), Returned tt)
      | Refused => (db, Raised)
      | Breaks => (Some Unreadable, Raised)
      end
  | Raised => (db, Raised)
  end.

(** The names that have an obfuscated counterpart, in the order given. *)
Definition paired (names : list string) (obfuscated_dir : files) : list string :=
  filter (fun name => exists_ name obfuscated_dir) names.

(** The entry of one name whose two files hold dicts. *)
Definition entry_of (movie_data_dir obfuscated_dir : files) (name : string) (entry : json) : Prop :=
  exists movie_data obfuscated_data,
    movie_data_dir name = Some (Parsed (JDict movie_data)) /\
    obfuscated_dir name = Some (Parsed (JDict obfuscated_data)) /\
    entry = JDict (dict_merge movie_data obfuscated_data).

End DbJoiner.

(** ** Sample files *)

Module Shelf.
Import PyStr PyText PyJson Soup Scrapper MovieFiles ScrapperMain Pages.

(** One movie file written before the wiki links were kept. *)
Definition old_entry : list (string * json) :=
  [("year", JStr "1990"); ("name", JStr "A"); ("plot", JStr "A plot.")].

Definition old_shelf : files :=
  fun path => if String.eqb path "movie_data/1990_A.json"
              then Some (Parsed (JDict old_entry)) else None.

Definition two_movies : list movie := [film (Some "1990") "A"; film (Some "1990") "C"].

(** A network on which only the page of movie C answers. *)
Definition web : nat -> string -> option node :=
  fun _ movie_url =>
    if String.eqb movie_url "https://en.wikipedia.org/wiki/C" then Some article else None.

(** Both movies of [statistics_page] already on file. *)
Definition full_shelf : files :=
  fun path => if String.eqb path "movie_data/1990_A.json" || String.eqb path "movie_data/1990_C.json"
              then Some (Parsed (JDict (old_entry ++ [("wiki", JStr "https://example.org")])))
              else None.

(** The movie directory by file name, as the scraper leaves it for movie A,
    and an output directory without files. *)
Definition saved_a : movie_data :=
  {| md_year := Some "1990"; md_name := "A"; md_plot := "A plot.";
     md_wiki := "https://en.wikipedia.org/wiki/A" |}.

Definition movie_dir : files :=
  fun name => if String.eqb name "1990_A.json"
              then Some (Parsed (json_of_movie_data saved_a)) else None.

Definition empty_dir : files := fun _ => None.

End Shelf.

Import PyStr Soup Url Scrapper Pages Worded Places Scan.

(** * Theorems *)

(** ** The loops as folds *)

Lemma row_body_year (row : node) (st : frame) :
  current_year (row_body row st) = update_year row (current_year st).
Proof. reflexivity. Qed.

Lemma row_body_movies (row : node) (st : frame) :
  movies (row_body row st) = movies st ++ row_movies row (update_year row (current_year st)).
Proof. reflexivity. Qed.

Lemma rows_loop_cons (row : node) (rest : list node) (st : frame) :
  rows_loop (row :: rest) st = rows_loop rest (row_body row st).
Proof. reflexivity. Qed.


Lemma tables_loop_stop (table : located) (rest : list located) (st : frame) :
  table_stops table = true -> tables_loop (table :: rest) st = st.
Proof.
  unfold table_stops. simpl. intros H.
  destruct (should_stop table); [reflexivity|].
  destruct (caption_stops _); [reflexivity|].
  destruct (first_row_stops _); [reflexivity|discriminate].
Qed.

Lemma tables_loop_go (table : located) (rest : list located) (st : frame) :
  table_stops table = false ->
  tables_loop (table :: rest) st =
  tables_loop rest (rows_loop (find_all "tr" (element table))
                              {| movies := movies st; current_year := None |}).
Proof.
  unfold table_stops. simpl. intros H.
  destruct (should_stop table); [discriminate|].
  destruct (caption_stops _); [discriminate|].
  destruct (first_row_stops _); [discriminate|reflexivity].
Qed.

(** Whatever comes at and after a stopping table is never looked at. *)
Lemma tables_loop_cut (pre : list located) (table : located) (post : list located) :
  table_stops table = true ->
  forall st, tables_loop (pre ++ table :: post) st = tables_loop pre st.
Proof.
  intros Hstop. induction pre as [|t pre IH]; intros st.
  - simpl app. rewrite tables_loop_stop by assumption. reflexivity.
  - rewrite <- app_comm_cons.
    destruct (table_stops t) eqn:Et.
    + rewrite !tables_loop_stop by assumption. reflexivity.
    + rewrite !tables_loop_go by assumption. apply IH.
Qed.

Lemma collect_previous_firstn (before : list node) (n : nat) :
  collect_previous before n = firstn n (filter is_tag before).
Proof.
  revert n. induction before as [|x before IH]; intros n.
  - destruct n; reflexivity.
  - destruct x as [s|nm a cs]; simpl.
    + apply IH.
    + destruct n; [reflexivity|]. simpl. f_equal. apply IH.
Qed.

Lemma any_stop_phrase_iff (text : string) :
  any_stop_phrase text = true <->
  exists phrase, In phrase stop_phrases /\ str_in (lower phrase) text = true.
Proof. unfold any_stop_phrase. apply existsb_exists. Qed.

Lemma heading_context_stops (table : located) (context : node) (phrase : string) :
  In context (heading_contexts table) ->
  In phrase stop_phrases ->
  str_in (lower phrase) (lower (get_text context)) = true ->
  table_stops table = true.
Proof.
  intros Hin Hp Hs.
  assert (Hany : any_stop_phrase (lower (get_text context)) = true)
    by (apply any_stop_phrase_iff; eauto).
  unfold table_stops, heading_contexts in *.
  apply in_app_or in Hin. destruct Hin as [Hin|Hin].
  - assert (should_stop table = true) as ->; [|reflexivity].
    unfold should_stop, prev_elements. rewrite collect_previous_firstn.
    apply existsb_exists. eauto.
  - unfold caption_stops. destruct (find "caption" (element table)) as [c|]; [|contradiction].
    destruct Hin as [<-|[]]. rewrite Hany. apply orb_true_iff. left. apply orb_true_r.
Qed.

Lemma first_row_production_company_stops (table : located) (first_row : node) :
  find "tr" (element table) = Some first_row ->
  str_in "production company" (lower (get_text first_row)) = true ->
  table_stops table = true.
Proof.
  intros Hf Hs. unfold table_stops, first_row_stops. rewrite Hf. cbv zeta.
  rewrite Hs. simpl. apply orb_true_r.
Qed.

Lemma first_row_aggregate_stops (table : located) :
  aggregate_test (element table) = true -> table_stops table = true.
Proof.
  unfold aggregate_test, table_stops, first_row_stops.
  destruct (find "tr" (element table)) as [r|]; [|discriminate].
  cbv zeta. intros ->. rewrite orb_true_r. apply orb_true_r.
Qed.

(** ** The scan, table by table *)

Lemma rows_loop_from_empty (rows : list node) :
  forall st,
    rows_loop rows st =
    {| movies := movies st
                 ++ movies (rows_loop rows {| movies := []; current_year := current_year st |});
       current_year :=
         current_year (rows_loop rows {| movies := []; current_year := current_year st |}) |}.
Proof.
  induction rows as [|r rows IH]; intros st.
  - simpl. rewrite app_nil_r. destruct st; reflexivity.
  - rewrite !rows_loop_cons.
    rewrite (IH (row_body r st)),
            (IH (row_body r {| movies := []; current_year := current_year st |})).
    unfold row_body. simpl. rewrite app_assoc. reflexivity.
Qed.

Lemma tables_loop_concat (tables : list located) :
  forall st,
    movies (tables_loop tables st)
    = movies st ++ flat_map table_movies (take_while (fun t => negb (table_stops t)) tables).
Proof.
  induction tables as [|t tables IH]; intros st; simpl take_while.
  - simpl. rewrite app_nil_r. reflexivity.
  - destruct (table_stops t) eqn:E; simpl negb; cbv iota.
    + rewrite tables_loop_stop by exact E. simpl. rewrite app_nil_r. reflexivity.
    + rewrite tables_loop_go by exact E. rewrite IH.
      rewrite (rows_loop_from_empty _ {| movies := movies st; current_year := None |}).
      simpl. rewrite <- app_assoc. reflexivity.
Qed.

(** ** Substrings *)

Lemma append_assoc (a b c : string) : ((a ++ b) ++ c = a ++ (b ++ c))%string.
Proof. induction a as [|x a IH]; simpl; [reflexivity|]. rewrite IH. reflexivity. Qed.

Lemma startswith_append (p s : string) :
  startswith s p = true -> exists rest, s = (p ++ rest)%string.
Proof.
  unfold startswith. revert s. induction p as [|a p IH]; intros s H.
  - exists s. reflexivity.
  - destruct s as [|b s]; simpl in H; [discriminate|].
    destruct (ascii_dec a b) as [->|]; [|discriminate].
    destruct (IH s H) as [rest ->]. exists rest. reflexivity.
Qed.

Lemma startswith_of_append (p rest : string) : startswith (p ++ rest) p = true.
Proof.
  unfold startswith. induction p as [|a p IH]; simpl.
  - destruct rest; reflexivity.
  - destruct (ascii_dec a a); [exact IH|congruence].
Qed.

Lemma prefix_str_in (sub s : string) : prefix sub s = true -> str_in sub s = true.
Proof. intros H. destruct s; cbn [str_in]; rewrite H; reflexivity. Qed.

Lemma str_in_parts (sub s : string) :
  str_in sub s = true -> exists a b, s = (a ++ sub ++ b)%string.
Proof.
  induction s as [|c s IH]; cbn [str_in]; intros H.
  - rewrite orb_false_r in H. destruct (startswith_append sub "" H) as [rest E].
    exists "", rest. exact E.
  - apply orb_true_iff in H. destruct H as [H|H].
    + destruct (startswith_append sub (String c s) H) as [rest E]. exists "", rest. exact E.
    + destruct (IH H) as (a & b & ->). exists (String c a), b. reflexivity.
Qed.

Lemma str_in_of_parts (a sub b : string) : str_in sub (a ++ sub ++ b) = true.
Proof.
  induction a as [|c a IH].
  - apply prefix_str_in. apply (startswith_of_append sub b).
  - change (String c a ++ sub ++ b)%string with (String c (a ++ sub ++ b)).
    cbn [str_in]. rewrite IH. apply orb_true_r.
Qed.

(** A part of a part is a part. *)
Lemma str_in_trans (a b s : string) :
  str_in a b = true -> str_in b s = true -> str_in a s = true.
Proof.
  intros Hab Hbs.
  destruct (str_in_parts a b Hab) as (a1 & a2 & ->).
  destruct (str_in_parts _ s Hbs) as (b1 & b2 & ->).
  rewrite !append_assoc, <- (append_assoc b1 a1). apply str_in_of_parts.
Qed.

(** ** Places *)

Lemma node_induction (P : node -> Prop) :
  (forall s, P (NavigableString s)) ->
  (forall nm a cs, Forall P cs -> P (Tag nm a cs)) ->
  forall n, P n.
Proof.
  intros Hs Ht. fix IH 1. intros [s|nm a cs]; [apply Hs|]. apply Ht.
  induction cs as [|c cs IHcs]; constructor; [apply IH|exact IHcs].
Qed.

Lemma descendants_at_erase (n : node) :
  forall p, map snd (descendants_at p n) = descendants n.
Proof.
  induction n as [s|nm a cs IH] using node_induction; intros p; [reflexivity|].
  simpl. generalize 0 as i.
  induction IH as [|c cs Hc _ IHcs]; intros i; [reflexivity|].
  simpl. rewrite map_app, Hc, IHcs. reflexivity.
Qed.

Lemma located_descendants_at_erase (n : node) :
  forall p, map snd (located_descendants_at p n) = located_descendants n.
Proof.
  induction n as [s|nm a cs IH] using node_induction; intros p; [reflexivity|].
  simpl. generalize 0 as i. generalize (@nil node) as before.
  induction IH as [|c cs Hc _ IHcs]; intros before i; [reflexivity|].
  simpl. rewrite map_app, Hc, IHcs. reflexivity.
Qed.

Lemma filter_erase {A B : Type} (f : B -> bool) (l : list (A * B)) :
  map snd (filter (fun x => f (snd x)) l) = filter f (map snd l).
Proof.
  induction l as [|x l IH]; simpl; [reflexivity|].
  destruct (f (snd x)); simpl; rewrite IH; reflexivity.
Qed.

Lemma wikitables_at_erase (soup : node) : map snd (wikitables_at soup) = wikitables soup.
Proof.
  unfold wikitables_at, wikitables, find_all_class.
  rewrite <- (located_descendants_at_erase soup []).
  apply (filter_erase (fun l => has_name "table" (element l) && mem "wikitable" (classes (element l)))).
Qed.

Lemma rows_at_erase (table : place * located) :
  map snd (rows_at table) = find_all "tr" (element (snd table)).
Proof.
  unfold rows_at, find_all.
  rewrite <- (descendants_at_erase (element (snd table)) (fst table)).
  apply (filter_erase (has_name "tr")).
Qed.

Lemma inside_length (a b : place) : inside a b = true -> List.length a <= List.length b.
Proof.
  revert b. induction a as [|i a IH]; intros [|j b] H; simpl in *; try lia; try discriminate.
  apply andb_true_iff in H. destruct H as [_ H]. apply IH in H. lia.
Qed.

Lemma inside_app (p rest : place) : inside p (p ++ rest) = true.
Proof.
  induction p as [|i p IH]; simpl; [reflexivity|]. rewrite Nat.eqb_refl. exact IH.
Qed.

Lemma inside_trans (a b c : place) :
  inside a b = true -> inside b c = true -> inside a c = true.
Proof.
  revert b c. induction a as [|i a IH]; intros [|j b] [|k c] H1 H2; simpl in *;
    try reflexivity; try discriminate.
  apply andb_true_iff in H1. destruct H1 as [E1 H1].
  apply andb_true_iff in H2. destruct H2 as [E2 H2].
  apply Nat.eqb_eq in E1, E2. subst. rewrite Nat.eqb_refl. simpl. eapply IH; eauto.
Qed.

(** Two places above the same place lie one above the other. *)
Lemma inside_comparable (a b q : place) :
  inside a q = true -> inside b q = true -> inside a b = true \/ inside b a = true.
Proof.
  revert b q. induction a as [|i a IH]; intros [|j b] [|k q] H1 H2; simpl in *;
    try (left; reflexivity); try (right; reflexivity); try discriminate.
  apply andb_true_iff in H1. destruct H1 as [E1 H1].
  apply andb_true_iff in H2. destruct H2 as [E2 H2].
  apply Nat.eqb_eq in E1, E2. subst. rewrite Nat.eqb_refl. simpl. eapply IH; eauto.
Qed.

(** Below different children of the same element nothing is shared. *)
Lemma inside_children (p : place) (i j : nat) (r r' : place) :
  inside (p ++ j :: r') (p ++ i :: r) = true -> j = i.
Proof.
  induction p as [|k p IH]; simpl.
  - intros H. apply andb_true_iff in H. destruct H as [E _]. apply Nat.eqb_eq in E. exact E.
  - rewrite Nat.eqb_refl. exact IH.
Qed.

Lemma below_inside (p : place) (from : nat) (q : place) : below p from q -> inside p q = true.
Proof. intros (k & r & _ & ->). apply inside_app. Qed.

Lemma below_deeper (p : place) (i from : nat) (q : place) :
  below (p ++ [i]) from q -> below p i q.
Proof.
  intros (k & r & _ & ->). exists i, (k :: r). split; [lia|].
  rewrite <- app_assoc. reflexivity.
Qed.

Lemma descendants_at_below (n : node) :
  forall p, Forall (fun x => below p 0 (fst x)) (descendants_at p n).
Proof.
  induction n as [s|nm a cs IH] using node_induction; intros p; [constructor|].
  simpl.
  assert (H : forall i,
             Forall (fun x => below p i (fst x))
               ((fix walk (i : nat) (l : list node) {struct l} : list (place * node) :=
                   match l with
                   | [] => []
                   | c :: rest => (p ++ [i], c) :: descendants_at (p ++ [i]) c ++ walk (S i) rest
                   end) i cs)); [|apply H].
  induction IH as [|c cs Hc _ IHcs]; intros i; [constructor|].
  constructor; [exists i, []; split; [lia|reflexivity]|].
  apply Forall_app. split.
  - eapply Forall_impl; [|apply Hc]. intros x Hx. eapply below_deeper, Hx.
  - eapply Forall_impl; [|apply IHcs]. intros x (k & r & Hk & E). exists k, r. split; [lia|exact E].
Qed.

(** A row of a table lies inside the table. *)
Lemma rows_at_inside (table : place * located) (row : place * node) :
  In row (rows_at table) -> inside (fst table) (fst row) = true.
Proof.
  unfold rows_at. intros H. apply filter_In in H. destruct H as [H _].
  pose proof (descendants_at_below (element (snd table)) (fst table)) as Hall.
  rewrite Forall_forall in Hall. eapply below_inside, Hall, H.
Qed.

Lemma in_document_order_app {A : Type} (l1 l2 : list (place * A)) :
  in_document_order l1 -> in_document_order l2 ->
  (forall x y, In x l1 -> In y l2 -> inside (fst y) (fst x) = false) ->
  in_document_order (l1 ++ l2).
Proof.
  unfold in_document_order. intros H1 H2 H12.
  induction H1 as [|x l1 Hx _ IH]; [exact H2|].
  simpl. constructor.
  - apply Forall_app. split; [exact Hx|].
    apply Forall_forall. intros y Hy. apply H12; [left; reflexivity|exact Hy].
  - apply IH. intros a b Ha Hb. apply H12; [right; exact Ha|exact Hb].
Qed.

Lemma in_document_order_split {A : Type} (l1 l2 : list (place * A)) :
  in_document_order (l1 ++ l2) ->
  forall x y, In x l1 -> In y l2 -> inside (fst y) (fst x) = false.
Proof.
  unfold in_document_order. induction l1 as [|a l1 IH]; intros H x y Hx Hy; [contradiction|].
  simpl in H. inversion H as [|? ? Ha Hrest]; subst.
  destruct Hx as [<-|Hx].
  - rewrite Forall_forall in Ha. apply Ha. apply in_or_app. right. exact Hy.
  - eapply IH; eauto.
Qed.

Lemma in_document_order_filter {A : Type} (f : place * A -> bool) (l : list (place * A)) :
  in_document_order l -> in_document_order (filter f l).
Proof.
  unfold in_document_order. induction 1 as [|x l Hx _ IH]; simpl; [constructor|].
  destruct (f x); [|exact IH]. constructor; [|exact IH].
  apply Forall_forall. intros y Hy. apply filter_In in Hy. destruct Hy as [Hy _].
  rewrite Forall_forall in Hx. apply Hx, Hy.
Qed.

Lemma below_child (p : place) (i from : nat) (q : place) :
  below (p ++ [i]) from q -> exists r, q = p ++ i :: r.
Proof.
  intros (k & r & _ & ->). exists (k :: r). rewrite <- app_assoc. reflexivity.
Qed.

Lemma not_inside_child (p : place) (i : nat) (q : place) :
  below (p ++ [i]) 0 q -> inside q (p ++ [i]) = false.
Proof.
  intros (k & r & _ & ->). destruct (inside _ _) eqn:E; [|reflexivity].
  apply inside_length in E. rewrite !length_app in E. simpl in E. lia.
Qed.

Lemma not_inside_sibling (p : place) (i : nat) (r q : place) :
  below p (S i) q -> inside q (p ++ i :: r) = false.
Proof.
  intros (k & r' & Hk & ->). destruct (inside _ _) eqn:E; [|reflexivity].
  apply inside_children in E. lia.
Qed.

Lemma located_walk_ordered (p : place) (cs : list node) :
  Forall (fun c => forall p',
              Forall (fun x => below p' 0 (fst x)) (located_descendants_at p' c)
              /\ in_document_order (located_descendants_at p' c)) cs ->
  forall before i,
    Forall (fun x => below p i (fst x)) (located_walk p i before cs)
    /\ in_document_order (located_walk p i before cs).
Proof.
  induction 1 as [|c cs Hc _ IHcs]; intros before i; [split; constructor|].
  change (located_walk p i before (c :: cs))
    with ((p ++ [i], {| prev_siblings := before; element := c; next_siblings := cs |})
            :: located_descendants_at (p ++ [i]) c ++ located_walk p (S i) (c :: before) cs).
  destruct (Hc (p ++ [i])) as [Hb1 Ho1].
  destruct (IHcs (c :: before) (S i)) as [Hb2 Ho2].
  rewrite Forall_forall in Hb1, Hb2.
  split.
  - constructor; [exists i, []; split; [lia|reflexivity]|].
    apply Forall_app. split; apply Forall_forall; intros x Hx.
    + eapply below_deeper, Hb1, Hx.
    + destruct (Hb2 x Hx) as (k & r & Hk & E). exists k, r. split; [lia|exact E].
  - constructor.
    + apply Forall_app. split; apply Forall_forall; intros y Hy; simpl fst.
      * apply not_inside_child, Hb1, Hy.
      * apply not_inside_sibling, Hb2, Hy.
    + apply in_document_order_app; [exact Ho1|exact Ho2|].
      intros x y Hx Hy. destruct (below_child _ _ _ _ (Hb1 x Hx)) as (r & ->).
      apply not_inside_sibling, Hb2, Hy.
Qed.

Lemma located_descendants_at_ordered (n : node) :
  forall p,
    Forall (fun x => below p 0 (fst x)) (located_descendants_at p n)
    /\ in_document_order (located_descendants_at p n).
Proof.
  induction n as [s|nm a cs IH] using node_induction; intros p;
    [split; constructor|].
  apply (located_walk_ordered p cs IH [] 0).
Qed.

Lemma wikitables_at_ordered (soup : node) : in_document_order (wikitables_at soup).
Proof.
  apply in_document_order_filter, located_descendants_at_ordered.
Qed.

(** A row of one table that lies inside a table listed later: then the
    later table lies inside the earlier one. *)
Lemma shared_row_nested (soup : node) (pre post : list (place * located))
    (earlier later : place * located) (row : place * node) :
  wikitables_at soup = pre ++ post ->
  In earlier pre -> In later post ->
  In row (rows_at earlier) ->
  inside (fst later) (fst row) = true ->
  inside (fst earlier) (fst later) = true.
Proof.
  intros Hw He Hl Hr Hin.
  pose proof (wikitables_at_ordered soup) as Ho. rewrite Hw in Ho.
  pose proof (in_document_order_split pre post Ho earlier later He Hl) as Hnot.
  destruct (inside_comparable _ _ _ (rows_at_inside earlier row Hr) Hin) as [H|H];
    [exact H|congruence].
Qed.
(** ** Stopping *)

(** The longest stop phrase holds both words of the aggregate test. *)
Lemma long_phrase_aggregate (text : string) :
  str_in (lower "Production companies and distributors with multiple nominations and wins")
         text = true ->
  str_in "nominations" text = true /\ str_in "wins" text = true.
Proof.
  intros H. split; (eapply str_in_trans; [|exact H]); reflexivity.
Qed.

Lemma first_row_long_phrase_stops (table : located) (first_row : node) :
  find "tr" (element table) = Some first_row ->
  str_in (lower "Production companies and distributors with multiple nominations and wins")
         (lower (get_text first_row)) = true ->
  table_stops table = true.
Proof.
  intros Hf Hs. apply first_row_aggregate_stops. unfold aggregate_test. rewrite Hf.
  destruct (long_phrase_aggregate _ Hs) as [-> ->]. reflexivity.
Qed.

Lemma take_while_erase {A B : Type} (f : B -> bool) (l : list (A * B)) :
  map snd (take_while (fun x => f (snd x)) l) = take_while f (map snd l).
Proof.
  induction l as [|x l IH]; simpl; [reflexivity|].
  destruct (f (snd x)); simpl; [rewrite IH|]; reflexivity.
Qed.

Lemma take_while_prefix {A : Type} (f : A -> bool) (l : list A) :
  exists rest, l = take_while f l ++ rest.
Proof.
  induction l as [|x l [rest IH]]; simpl; [exists []; reflexivity|].
  destruct (f x); [|eexists; reflexivity].
  exists rest. simpl. rewrite <- IH. reflexivity.
Qed.

Lemma block_records_eq (table : place * located) :
  block_records table = table_movies (snd table).
Proof. unfold block_records, table_movies. rewrite rows_at_erase. reflexivity. Qed.

(** The scan ends at a stopping table: the result is what the tables
    before it give, each scanned on its own. *)
Lemma scan_ends_at (soup : node) (pre : list (place * located))
    (table : place * located) (post : list (place * located)) :
  wikitables_at soup = pre ++ table :: post ->
  table_stops (snd table) = true ->
  get_best_picture_nominations soup = flat_map block_records (scanned pre).
Proof.
  intros Hw Hstop. unfold get_best_picture_nominations.
  rewrite <- wikitables_at_erase, Hw, map_app. simpl map.
  rewrite tables_loop_cut by exact Hstop.
  rewrite tables_loop_concat. simpl app.
  unfold scanned.
  rewrite <- (take_while_erase (fun t => negb (table_stops t)) pre).
  rewrite flat_map_concat_map, map_map, <- flat_map_concat_map.
  apply flat_map_ext. intros t. symmetry. apply block_records_eq.
Qed.

(** A row of a scanned table that lies inside the stopping table or a
    later one: then that table is nested in the scanned one. *)
Lemma scanned_rows_nested (soup : node) (pre : list (place * located))
    (table : place * located) (post : list (place * located))
    (earlier later : place * located) (row : place * node) :
  wikitables_at soup = pre ++ table :: post ->
  In earlier (scanned pre) -> In row (rows_at earlier) -> In later (table :: post) ->
  inside (fst later) (fst row) = true ->
  inside (fst earlier) (fst later) = true.
Proof.
  intros Hw He Hr Hl Hin.
  eapply (shared_row_nested soup pre (table :: post)); eauto.
  destruct (take_while_prefix (fun t => negb (table_stops (snd t))) pre) as [rest E].
  rewrite E. apply in_or_app. left. exact He.
Qed.

(** C1, as the code has it: when one of the up to 3 preceding sibling
    elements or the caption of a data table contains a stop phrase
    (case-insensitively), or its first row's text contains "production
    company" or the longest stop phrase, the scan ends at that table.
    The call returns exactly the records of the tables that are scanned,
    which all stand before it, each table giving the records of the rows
    inside it; and a scanned row lies inside the stopping table or a later
    one only where that table is nested in the scanned one. *)
Theorem stop_phrase_terminates
    (soup : node) (pre : list (place * located)) (table : place * located)
    (post : list (place * located)) :
  wikitables_at soup = pre ++ table :: post ->
  (exists context phrase,
      In context (heading_contexts (snd table)) /\ In phrase stop_phrases /\
      str_in (lower phrase) (lower (get_text context)) = true)
  \/ (exists first_row,
         find "tr" (element (snd table)) = Some first_row /\
         (str_in "production company" (lower (get_text first_row)) = true
          \/ str_in (lower "Production companies and distributors with multiple nominations and wins")
                    (lower (get_text first_row)) = true)) ->
  get_best_picture_nominations soup = flat_map block_records (scanned pre)
  /\ (exists rest, pre = scanned pre ++ rest)
  /\ (forall earlier row later,
         In earlier (scanned pre) -> In row (rows_at earlier) -> In later (table :: post) ->
         inside (fst later) (fst row) = true ->
         inside (fst earlier) (fst later) = true).
Proof.
  intros Hw Hstop.
  assert (Hs : table_stops (snd table) = true).
  { destruct Hstop as [(c & ph & Hc & Hp & Hs)|(r & Hr & [Hs|Hs])].
    - eapply heading_context_stops; eauto.
    - eapply first_row_production_company_stops; eauto.
    - eapply first_row_long_phrase_stops; eauto. }
  split; [exact (scan_ends_at soup pre table post Hw Hs)|].
  split; [apply take_while_prefix|].
  intros earlier row later. apply (scanned_rows_nested soup pre table post); exact Hw.
Qed.

(** The statistics page: the heading before the second table stops the scan,
    and only the first table's two records are returned. *)
Lemma stop_phrase_terminates_witness :
  exists first second,
    wikitables_at statistics_page = [first] ++ second :: [] /\
    get_best_picture_nominations statistics_page = flat_map block_records (scanned [first]) /\
    List.length (get_best_picture_nominations statistics_page) = 2.
Proof.
  eexists. eexists. split; [reflexivity|]. split; [|reflexivity].
  eapply stop_phrase_terminates; [reflexivity|].
  left. exists statistics_heading, "distributor".
  split; [left; reflexivity|].
  split; [right; right; left; reflexivity|reflexivity].
Defined.

(** C1 as worded fails: the first row of the only table of
    [distributor_page] contains the stop phrase "distributor", and the
    table's record is returned all the same. *)
Lemma stop_phrase_first_row_counterexample :
  exists table,
    wikitables distributor_page = [] ++ table :: [] /\
    stop_test_as_worded table = true /\
    movies (tables_loop [] fresh) = [] /\
    get_best_picture_nominations distributor_page = [wings].
Proof.
  eexists. split; [reflexivity|]. repeat split; reflexivity.
Qed.

(** Why the rows are told apart by their places: on [nested_page] the
    inner table stops the scan (the heading before it names distributors),
    and its only row has given a record all the same, as a row of the
    outer table; the outer row that holds the inner table has given that
    record too. *)
Example nested_rows_are_scanned :
  exists outer inner row,
    wikitables_at nested_page = [outer] ++ inner :: [] /\
    should_stop (snd inner) = true /\
    inside (fst outer) (fst inner) = true /\
    rows_at inner = [row] /\ In row (rows_at outer) /\
    get_best_picture_nominations nested_page = [film None "A"; film None "C"; film None "C"].
Proof.
  eexists. eexists. eexists. split; [reflexivity|].
  split; [reflexivity|]. split; [reflexivity|]. split; [reflexivity|].
  split; [right; right; left; reflexivity|reflexivity].
Qed.

(** C2, as the code has it: a data table whose first row's text contains
    both "nominations" and "wins" ends the scan, exactly as a stop phrase
    does. The call returns exactly the records of the tables that are
    scanned, which all stand before it; no later table is scanned, and a
    scanned row lies inside the aggregate table or a later one only where
    that table is nested in the scanned one. *)
Theorem aggregate_table_terminates
    (soup : node) (pre : list (place * located)) (table : place * located)
    (post : list (place * located)) :
  wikitables_at soup = pre ++ table :: post ->
  aggregate_test (element (snd table)) = true ->
  get_best_picture_nominations soup = flat_map block_records (scanned pre)
  /\ (exists rest, pre = scanned pre ++ rest)
  /\ (forall earlier row later,
         In earlier (scanned pre) -> In row (rows_at earlier) -> In later (table :: post) ->
         inside (fst later) (fst row) = true ->
         inside (fst earlier) (fst later) = true).
Proof.
  intros Hw Hagg.
  pose proof (first_row_aggregate_stops (snd table) Hagg) as Hs.
  split; [exact (scan_ends_at soup pre table post Hw Hs)|].
  split; [apply take_while_prefix|].
  intros earlier row later. apply (scanned_rows_nested soup pre table post); exact Hw.
Qed.

Lemma aggregate_table_terminates_witness :
  exists first second,
    wikitables_at aggregate_page = [] ++ first :: [second] /\
    aggregate_test (element (snd first)) = true /\
    get_best_picture_nominations aggregate_page = [].
Proof.
  exists ([0], {| prev_siblings := []; element := aggregate_table;
                  next_siblings := [plain_table] |}),
         ([1], {| prev_siblings := [aggregate_table]; element := plain_table;
                  next_siblings := [] |}).
  split; [reflexivity|]. split; [reflexivity|].
  exact (proj1 (aggregate_table_terminates aggregate_page []
                  ([0], {| prev_siblings := []; element := aggregate_table;
                           next_siblings := [plain_table] |})
                  [([1], {| prev_siblings := [aggregate_table]; element := plain_table;
                            next_siblings := [] |})]
                  eq_refl eq_refl)).
Defined.

(** C2 as worded fails: on [aggregate_page] the aggregate table comes
    first and a nomination table follows; skipping the first would return
    the second's record, the code returns nothing. *)
Lemma aggregate_skip_counterexample :
  exists first second,
    wikitables aggregate_page = [first; second] /\
    aggregate_test (element first) = true /\
    movies (tables_loop [second] fresh) = [wings] /\
    get_best_picture_nominations aggregate_page = [].
Proof.
  eexists. eexists. split; [reflexivity|]. repeat split; reflexivity.
Qed.

(** ** Strings as lists of characters *)

Lemma list_ascii_filter_chars (p : ascii -> bool) (s : string) :
  list_ascii_of_string (filter_chars p s) = filter p (list_ascii_of_string s).
Proof.
  induction s as [|c s IH]; simpl; [reflexivity|].
  destruct (p c); simpl; rewrite IH; reflexivity.
Qed.

Lemma length_list_ascii (s : string) :
  String.length s = List.length (list_ascii_of_string s).
Proof. induction s as [|c s IH]; simpl; [reflexivity|]. rewrite IH. reflexivity. Qed.

Lemma slice_to_firstn (n : nat) (s : string) :
  slice_to n s = string_of_list_ascii (firstn n (list_ascii_of_string s)).
Proof.
  unfold slice_to. revert n. induction s as [|c s IH]; intros [|n]; simpl; try reflexivity.
  rewrite IH. reflexivity.
Qed.

Lemma slice_to_length (n : nat) (s : string) :
  n <= String.length s -> String.length (slice_to n s) = n.
Proof.
  unfold slice_to. revert n. induction s as [|c s IH]; intros [|n] H; simpl in *; try reflexivity.
  - lia.
  - rewrite IH by lia. reflexivity.
Qed.

Lemma all_chars_slice_to (p : ascii -> bool) (n : nat) (s : string) :
  all_chars p s = true -> all_chars p (slice_to n s) = true.
Proof.
  unfold slice_to. revert n. induction s as [|c s IH]; intros [|n] H; simpl in *; try reflexivity.
  apply andb_true_iff in H. destruct H as [Hc Hs]. rewrite Hc. simpl. apply IH, Hs.
Qed.

Lemma all_chars_filter_chars (p : ascii -> bool) (s : string) :
  all_chars p (filter_chars p s) = true.
Proof.
  induction s as [|c s IH]; simpl; [reflexivity|].
  destruct (p c) eqn:E; simpl; [rewrite E|]; exact IH.
Qed.

Lemma truthy_length (s : string) : truthy s = (1 <=? String.length s).
Proof. destruct s; reflexivity. Qed.




(** ** Years *)



Lemma film_cell_movies_year (film_cell : node) (cy : option string) :
  Forall (fun m => year m = cy) (film_cell_movies film_cell cy).
Proof.
  unfold film_cell_movies.
  destruct (find "a" film_cell) as [lnk|]; [|constructor].
  destruct (get_href lnk) as [h|]; [|constructor].
  destruct (_ || _); [constructor|].
  destruct (str_in ":" h); [constructor|].
  destruct (_ && _); constructor; [reflexivity|constructor].
Qed.



Lemma header_year_four_digits (row : node) (y : string) :
  header_year row = Some y -> four_digits (Some y).
Proof.
  unfold header_year. destruct (find "th" row) as [th|]; [|discriminate].
  cbv zeta. set (parts := filter_chars _ _).
  destruct (truthy parts && (4 <=? String.length parts)) eqn:E; [|discriminate].
  intros [= <-]. apply andb_true_iff in E. destruct E as [_ E].
  apply Nat.leb_le in E. split.
  - apply slice_to_length, E.
  - apply all_chars_slice_to, all_chars_filter_chars.
Qed.

Lemma update_year_four_digits (row : node) (cy : option string) :
  four_digits cy -> four_digits (update_year row cy).
Proof.
  intros H. unfold update_year. destruct (header_year row) as [y|] eqn:E; [|exact H].
  eapply header_year_four_digits, E.
Qed.

(** ** Invariants of the two loops *)

Section Invariant.
Variable P : movie -> Prop.
Variable Q : option string -> Prop.
Hypothesis Q_reset : Q None.
Hypothesis Q_step : forall row cy, Q cy -> Q (update_year row cy).
Hypothesis P_emit : forall film_cell cy, Q cy -> Forall P (film_cell_movies film_cell cy).

Lemma row_movies_inv (row : node) (cy : option string) :
  Q cy -> Forall P (row_movies row cy).
Proof.
  intros H. unfold row_movies. destruct (select_film_cell _); [apply P_emit, H|constructor].
Qed.

Lemma rows_loop_inv (rows : list node) :
  forall st, Q (current_year st) -> Forall P (movies st) ->
  Q (current_year (rows_loop rows st)) /\ Forall P (movies (rows_loop rows st)).
Proof.
  induction rows as [|r rows IH]; intros st Hq Hp; [split; assumption|].
  rewrite rows_loop_cons. apply IH.
  - rewrite row_body_year. apply Q_step, Hq.
  - rewrite row_body_movies. apply Forall_app. split; [exact Hp|].
    apply row_movies_inv, Q_step, Hq.
Qed.

Lemma tables_loop_inv (tables : list located) :
  forall st, Forall P (movies st) -> Forall P (movies (tables_loop tables st)).
Proof.
  induction tables as [|t tables IH]; intros st Hp; [exact Hp|].
  destruct (table_stops t) eqn:E.
  - rewrite tables_loop_stop by exact E. exact Hp.
  - rewrite tables_loop_go by exact E. apply IH.
    apply rows_loop_inv; simpl; [exact Q_reset|exact Hp].
Qed.

Lemma nominations_inv (soup : node) : Forall P (get_best_picture_nominations soup).
Proof.
  unfold get_best_picture_nominations.
  apply tables_loop_inv. constructor.
Qed.
End Invariant.




(** C4, as the code has it: a row's header cell sets the year from ALL the
    digit characters of the first line of its text, wherever they stand
    (not from a leading run): when there are at least 4 of them the year
    becomes the first 4, otherwise it is unchanged. Consequently every
    emitted record's year is absent or exactly 4 digit characters. *)
Theorem year_parsing :
  (forall (row year_th : node) (cy : option string),
      find "th" row = Some year_th ->
      let line := hd EmptyString (split "010" (get_text_strip "" year_th)) in
      let digits := filter isdigit_char (list_ascii_of_string line) in
      update_year row cy =
      if 4 <=? List.length digits
      then Some (string_of_list_ascii (firstn 4 digits))
      else cy)
  /\ (forall soup : node,
         Forall (fun m => four_digits (year m)) (get_best_picture_nominations soup)).
Proof.
  split.
  - intros row year_th cy Hth. cbv zeta.
    unfold update_year, header_year. rewrite Hth. cbv zeta.
    set (parts := filter_chars _ _).
    rewrite <- list_ascii_filter_chars. fold parts.
    rewrite <- length_list_ascii, <- slice_to_firstn, truthy_length.
    destruct (4 <=? String.length parts) eqn:E.
    + apply Nat.leb_le in E.
      assert ((1 <=? String.length parts) = true) as -> by (apply Nat.leb_le; lia).
      reflexivity.
    + rewrite andb_false_r. reflexivity.
  - intros soup.
    apply (nominations_inv (fun m => four_digits (year m)) four_digits).
    + exact I.
    + intros row cy. apply update_year_four_digits.
    + intros fc cy Hcy. eapply Forall_impl; [|apply film_cell_movies_year].
      intros m ->. exact Hcy.
Qed.

Lemma year_parsing_witness :
  find "th" ceremony_row = Some (el "th" [text "(83rd) 2010"]) /\
  update_year ceremony_row None = Some "8320" /\
  Forall (fun m => four_digits (year m)) (get_best_picture_nominations statistics_page).
Proof.
  split; [reflexivity|]. split.
  - exact (proj1 year_parsing ceremony_row _ None eq_refl).
  - exact (proj2 year_parsing statistics_page).
Defined.

(** C4 as worded fails: the header cell of [ceremony_row] reads
    "(83rd) 2010"; its leading run of digits is empty, so the year would
    stay unset, and the code sets it to "8320". *)
Lemma leading_digits_counterexample :
  find "th" ceremony_row = Some (el "th" [text "(83rd) 2010"]) /\
  leading_digits "(83rd) 2010" = "" /\
  header_year_as_worded ceremony_row = None /\
  update_year ceremony_row None = Some "8320" /\
  movies (row_body ceremony_row fresh) = [film (Some "8320") "A"].
Proof. repeat split; reflexivity. Qed.

(** ** Cells and links *)



(** ** Resolved references *)

Lemma split_nonempty (sep : ascii) (s : string) : split sep s <> [].
Proof.
  induction s as [|c s IH]; simpl; [discriminate|].
  destruct (Ascii.eqb c sep); [discriminate|].
  destruct (split sep s); discriminate.
Qed.

Lemma join_path_truthy (path : string) : truthy (join_path path) = true.
Proof.
  unfold join_path. cbv zeta.
  match goal with |- truthy (if truthy ?j then _ else _) = true => destruct (truthy j) eqn:E end;
    [exact E|reflexivity].
Qed.

(** With a non-empty path, the rebuilt reference starts with the site and
    a slash, and keeps a path prefix that itself starts with a slash. *)
Lemma urlunparse_site (path params query fragment : string) :
  truthy path = true ->
  exists rest,
    urlunparse bscheme bnetloc path params query fragment
    = ("https://en.wikipedia.org/" ++ rest)%string.
Proof.
  intros Hp. unfold urlunparse. cbv zeta.
  set (u1 := if truthy params then _ else _).
  assert (H1 : truthy u1 = true).
  { subst u1. destruct (truthy params); [|exact Hp].
    destruct path; [discriminate|reflexivity]. }
  set (u2 := if truthy u1 && negb (startswith u1 "/") then _ else _).
  assert (H2 : exists r, u2 = ("/" ++ r)%string).
  { subst u2. rewrite H1. simpl andb.
    destruct (startswith u1 "/") eqn:E; simpl negb; cbv iota.
    - apply startswith_append, E.
    - eexists. reflexivity. }
  destruct H2 as [r ->].
  destruct (truthy query), (truthy fragment); simpl; eexists; reflexivity.
Qed.

Lemma urlunparse_keeps (prefix_ tail params query fragment : string) :
  exists rest,
    urlunparse bscheme bnetloc ("/" ++ prefix_ ++ tail) params query fragment
    = ("https://en.wikipedia.org/" ++ prefix_ ++ rest)%string.
Proof.
  unfold urlunparse. cbv zeta.
  set (u1 := if truthy params then _ else _).
  assert (H1 : exists r, u1 = ("/" ++ prefix_ ++ r)%string).
  { subst u1. destruct (truthy params).
    - exists (tail ++ ";" ++ params)%string. simpl. rewrite append_assoc. reflexivity.
    - eexists. reflexivity. }
  destruct H1 as [r ->].
  rewrite (startswith_of_append "/" (prefix_ ++ r)). simpl negb. rewrite andb_false_r.
  destruct (truthy query), (truthy fragment); simpl;
    rewrite ?append_assoc; eexists; reflexivity.
Qed.

Lemma urljoin_eq (target : string) :
  truthy (path_of target) = true ->
  exists params query fragment,
    urljoin target = urlunparse bscheme bnetloc (join_path (path_of target)) params query fragment.
Proof.
  unfold path_of, urljoin. intros H.
  destruct (truthy target) eqn:Et.
  - simpl negb. cbv iota.
    destruct (partition "#" (remove_unsafe target)) as [u1 fragment]. simpl fst in *.
    destruct (partition "?" u1) as [u2 query]. simpl fst in *.
    destruct (splitparams u2) as [path params]. simpl fst in *.
    rewrite H. simpl. eauto.
  - destruct target; [discriminate H|discriminate Et].
Qed.

(** A reference that starts with [/wiki/] has a path that does. *)
Lemma path_of_wiki (target : string) :
  startswith target "/wiki/" = true ->
  exists tail, path_of target = ("/wiki/" ++ tail)%string.
Proof.
  intros H. apply startswith_append in H. destruct H as [rest ->].
  unfold path_of, remove_unsafe. simpl.
  destruct (partition "#" _) as [a b]. simpl.
  destruct (partition "?" a) as [c d]. simpl.
  destruct (splitparams c) as [e f]. simpl.
  eexists. reflexivity.
Qed.

Lemma resolve_without_dotdot (segments : list string) :
  ~ In ".." segments ->
  forall acc,
    fold_left resolve_step segments acc
    = acc ++ filter (fun seg => negb (String.eqb seg ".")) segments.
Proof.
  induction segments as [|seg segments IH]; intros Hno acc; simpl.
  - rewrite app_nil_r. reflexivity.
  - rewrite IH by (intros Hin; apply Hno; right; exact Hin).
    unfold resolve_step.
    destruct (String.eqb_spec seg "..") as [->|_]; [exfalso; apply Hno; left; reflexivity|].
    destruct (String.eqb seg "."); simpl; [reflexivity|].
    rewrite <- app_assoc. reflexivity.
Qed.

Lemma last_in {A : Type} (l : list A) (d : A) : l <> [] -> In (last l d) l.
Proof.
  induction l as [|x l IH]; intros H; [congruence|].
  destruct l as [|y l]; [left; reflexivity|].
  right. apply IH. discriminate.
Qed.

(** Without a [..] segment the resolved path still starts with [/wiki/]. *)
Lemma join_path_wiki (tail : string) :
  ~ In ".." (split "/" ("/wiki/" ++ tail)) ->
  exists rest, join_path ("/wiki/" ++ tail) = ("/" ++ "wiki/" ++ rest)%string.
Proof.
  intros Hno. unfold join_path. cbv zeta.
  assert (Hs : startswith ("/wiki/" ++ tail) "/" = true) by reflexivity.
  rewrite Hs.
  assert (Hsplit : split "/" ("/wiki/" ++ tail) = "" :: "wiki" :: split "/" tail).
  { simpl. destruct (split "/" tail); reflexivity. }
  rewrite Hsplit in *.
  set (S := split "/" tail) in *.
  assert (HS : S <> []) by apply split_nonempty.
  assert (HnoS : ~ In ".." S) by (intros Hin; apply Hno; right; right; exact Hin).
  unfold resolve.
  change (fold_left resolve_step ("" :: "wiki" :: S) [])
    with (fold_left resolve_step S [""; "wiki"]).
  rewrite (resolve_without_dotdot S HnoS).
  assert (Hlast : last ("" :: "wiki" :: S) "" = last S "").
  { destruct S as [|s0 S']; [congruence|reflexivity]. }
  rewrite Hlast.
  set (F := filter _ S).
  set (resolved := if (_ || _)%bool then _ else _).
  assert (Hne : exists f F', resolved = "" :: "wiki" :: f :: F').
  { destruct (String.eqb (last S "") ".") eqn:Edot.
    - subst resolved. simpl orb. cbv iota.
      destruct F as [|f F']; simpl; eauto.
    - assert (Hin : In (last S "") F).
      { subst F. apply filter_In. split; [apply last_in, HS|]. rewrite Edot. reflexivity. }
      destruct F as [|f F']; [contradiction|].
      subst resolved. destruct (_ || _)%bool; simpl; eauto. }
  destruct Hne as (f & F' & ->).
  exists (join "/" (f :: F')). reflexivity.
Qed.

Lemma urljoin_site (target : string) :
  startswith target "/wiki/" = true ->
  exists rest, urljoin target = ("https://en.wikipedia.org/" ++ rest)%string.
Proof.
  intros H. destruct (path_of_wiki target H) as [tail Hp].
  destruct (urljoin_eq target) as (params & query & fragment & ->).
  - rewrite Hp. reflexivity.
  - apply urlunparse_site, join_path_truthy.
Qed.

Lemma urljoin_wiki (target : string) :
  startswith target "/wiki/" = true ->
  ~ In ".." (path_segments target) ->
  exists rest, urljoin target = ("https://en.wikipedia.org/wiki/" ++ rest)%string.
Proof.
  intros H Hno. destruct (path_of_wiki target H) as [tail Hp].
  destruct (urljoin_eq target) as (params & query & fragment & ->).
  - rewrite Hp. reflexivity.
  - unfold path_segments in Hno. rewrite Hp in *.
    destruct (join_path_wiki tail Hno) as [rest ->].
    destruct (urlunparse_keeps "wiki/" rest params query fragment) as [r ->].
    exists r. reflexivity.
Qed.

Lemma urljoin_truthy (target : string) :
  startswith target "/wiki/" = true -> truthy (urljoin target) = true.
Proof. intros H. destruct (urljoin_site target H) as [rest ->]. reflexivity. Qed.

Lemma film_cell_movies_eq (film_cell : node) (cy : option string) :
  film_cell_movies film_cell cy =
  match find "a" film_cell with
  | None => []
  | Some link =>
      if link_rejected link then []
      else match get_href link with
           | Some target =>
               [ {| year := cy; title := get_text_strip "" link; url := urljoin target |} ]
           | None => []
           end
  end.
Proof.
  unfold film_cell_movies, link_rejected.
  destruct (find "a" film_cell) as [lnk|]; [|reflexivity].
  destruct (get_href lnk) as [target|]; [|reflexivity].
  destruct (startswith target "/wiki/") eqn:Ew; simpl negb.
  - assert (truthy target = true) as ->.
    { apply startswith_append in Ew. destruct Ew as [rest ->]. reflexivity. }
    rewrite (urljoin_truthy target Ew). simpl.
    destruct (str_in ":" target); [reflexivity|].
    rewrite andb_true_r. simpl.
    destruct (truthy (get_text_strip "" lnk)); reflexivity.
  - rewrite orb_true_r. reflexivity.
Qed.



Lemma film_cell_movies_shape (film_cell : node) (cy : option string) (m : movie) :
  In m (film_cell_movies film_cell cy) ->
  truthy (title m) = true /\
  exists target,
    url m = urljoin target /\ startswith target "/wiki/" = true /\ str_in ":" target = false.
Proof.
  unfold film_cell_movies.
  destruct (find "a" film_cell) as [lnk|]; [|intros []].
  destruct (get_href lnk) as [target|]; [|intros []].
  destruct (startswith target "/wiki/") eqn:Ew; [|rewrite orb_true_r; intros []].
  destruct (negb (truthy target) || negb true)%bool; [intros []|].
  destruct (str_in ":" target) eqn:Ec; [intros []|].
  destruct (truthy (get_text_strip "" lnk)) eqn:Et; [|intros []].
  destruct (truthy (urljoin target)); [|intros []].
  intros [<-|[]]. simpl. split; [exact Et|]. exists target. auto.
Qed.

(** C10, as the code has it: every record has a non-empty title and a
    reference that is the resolution of a link target starting with
    [/wiki/] and holding no colon anywhere. The reference starts with
    "https://en.wikipedia.org/", and with "https://en.wikipedia.org/wiki/"
    when the target's path has no [..] segment. *)
Theorem record_invariant (soup : node) (m : movie) :
  In m (get_best_picture_nominations soup) ->
  truthy (title m) = true /\
  exists target,
    url m = urljoin target /\
    startswith target "/wiki/" = true /\
    str_in ":" target = false /\
    startswith (url m) "https://en.wikipedia.org/" = true /\
    (~ In ".." (path_segments target) ->
     startswith (url m) "https://en.wikipedia.org/wiki/" = true).
Proof.
  revert m. apply Forall_forall.
  apply (nominations_inv _ (fun _ => True)); [exact I|intros; exact I|].
  intros fc cy _. apply Forall_forall. intros m Hin.
  destruct (film_cell_movies_shape fc cy m Hin) as (Ht & target & Hu & Hw & Hc).
  split; [exact Ht|]. exists target. repeat split; try assumption.
  - rewrite Hu. destruct (urljoin_site target Hw) as [rest ->].
    apply startswith_of_append.
  - intros Hno. rewrite Hu. destruct (urljoin_wiki target Hw Hno) as [rest ->].
    apply startswith_of_append.
Qed.

Lemma record_invariant_witness :
  In wings (get_best_picture_nominations distributor_page) /\
  truthy (title wings) = true /\
  startswith (url wings) "https://en.wikipedia.org/wiki/" = true.
Proof.
  assert (Hin : In wings (get_best_picture_nominations distributor_page))
    by (left; reflexivity).
  split; [exact Hin|].
  destruct (record_invariant distributor_page wings Hin) as (Ht & _).
  split; [exact Ht|reflexivity].
Defined.

(** C10 as worded fails: the film link of [dotted_page] has the target
    [/wiki/../w/index.php], which starts with [/wiki/] and holds no colon;
    its record is emitted with a reference outside [/wiki/]. *)
Lemma reference_prefix_counterexample :
  exists m,
    get_best_picture_nominations dotted_page = [m] /\
    url m = urljoin "/wiki/../w/index.php" /\
    url m = "https://en.wikipedia.org/w/index.php" /\
    startswith (url m) "https://en.wikipedia.org/wiki/" = false.
Proof. eexists. repeat split; reflexivity. Qed.

(** ** The section extractor *)

Lemma find_some_iff_existsb (nm : string) (n : node) :
  match find nm n with Some _ => true | None => false end
  = existsb (has_name nm) (descendants n).
Proof.
  unfold find, find_all. induction (descendants n) as [|x l IH]; simpl; [reflexivity|].
  destruct (has_name nm x); simpl; [reflexivity|exact IH].
Qed.

Lemma is_boundary_worded (n : node) : is_boundary n = top_level_boundary n.
Proof.
  unfold is_boundary, top_level_boundary, is_mw_heading.
  rewrite find_some_iff_existsb. destruct n; reflexivity.
Qed.

Lemma heading_matches_worded (label : string) (n : node) :
  heading_matches label n = is_heading_for label n.
Proof.
  unfold heading_matches, is_heading_for, is_mw_heading.
  destruct n as [s|nm a cs]; [reflexivity|]. simpl.
  destruct (String.eqb nm "div" && mem "mw-heading" (class_ a))%bool; [reflexivity|].
  simpl.
  destruct (String.eqb nm "h2"); [reflexivity|].
  destruct (String.eqb nm "h3"); reflexivity.
Qed.

Lemma search_heading_first (label : string) (before : list located)
    (heading : located) (after : list located) :
  Forall (fun c => heading_matches label (element c) = false) before ->
  heading_matches label (element heading) = true ->
  search_heading label (before ++ heading :: after) = Some heading.
Proof.
  intros Hb Hh. induction Hb as [|c before Hc _ IH]; simpl.
  - rewrite Hh. reflexivity.
  - rewrite Hc. exact IH.
Qed.

(** The walk appends the section's paragraphs to what it was given. *)
Lemma walk_paragraphs (siblings : list node) :
  forall acc, walk siblings acc = acc ++ section_paragraphs siblings.
Proof.
  unfold section_paragraphs.
  induction siblings as [|current rest IH]; intros acc; simpl.
  - rewrite app_nil_r. reflexivity.
  - destruct current as [s|nm a cs]; [apply IH|].
    simpl filter. simpl take_while.
    rewrite is_boundary_worded.
    destruct (top_level_boundary (Tag nm a cs)); simpl.
    + rewrite app_nil_r. reflexivity.
    + rewrite IH. destruct (String.eqb nm "p"); simpl; [|reflexivity].
      destruct (truthy (get_text_strip " " (Tag nm a cs))); simpl; [|reflexivity].
      rewrite <- app_assoc. reflexivity.
Qed.

Lemma sub_heading_inert (h : node) :
  sub_heading h = true ->
  exists nm a cs, h = Tag nm a cs /\ is_boundary h = false /\ String.eqb nm "p" = false.
Proof.
  unfold sub_heading. rewrite is_boundary_worded. unfold top_level_boundary.
  destruct h as [s|nm a cs]; [discriminate|]. simpl. intros H.
  exists nm, a, cs. split; [reflexivity|].
  apply orb_true_iff in H. destruct H as [H|H].
  - apply String.eqb_eq in H. subst nm. split; reflexivity.
  - apply andb_true_iff in H. destruct H as [H Hno].
    apply andb_true_iff in H. destruct H as [Hdiv Hcls].
    apply String.eqb_eq in Hdiv. subst nm. rewrite Hcls.
    apply negb_true_iff in Hno. rewrite Hno. split; reflexivity.
Qed.

Lemma walk_skips_sub_heading (l1 : list node) (h : node) (l2 : list node) :
  sub_heading h = true ->
  forall acc, walk (l1 ++ h :: l2) acc = walk (l1 ++ l2) acc.
Proof.
  intros Hh. destruct (sub_heading_inert h Hh) as (nm & a & cs & -> & Hb & Hp).
  induction l1 as [|x l1 IH]; intros acc.
  - simpl app. cbn [walk]. rewrite Hb. simpl name_of. rewrite Hp. reflexivity.
  - simpl. destruct x as [s|nm' a' cs']; [apply IH|].
    destruct (is_boundary (Tag nm' a' cs')); [reflexivity|]. apply IH.
Qed.

Lemma extract_plot_from_section_found (soup : node) (label : string) (heading : located) :
  search_heading label (find_all_located ["div"; "h2"; "h3"] soup) = Some heading ->
  extract_plot_from_section soup label =
  match section_paragraphs (next_siblings heading) with
  | [] => None
  | texts => Some (join " " texts)
  end.
Proof.
  intros H. unfold extract_plot_from_section.
  rewrite H. cbn [snd]. rewrite walk_paragraphs. cbn [app].
  destruct (section_paragraphs _); reflexivity.
Qed.

Lemma join_truthy (sep first : string) (others : list string) :
  truthy first = true -> truthy (join sep (first :: others)) = true.
Proof.
  intros H. destruct first as [|c first]; [discriminate|].
  destruct others; reflexivity.
Qed.

Lemma section_paragraphs_truthy (siblings : list node) :
  Forall (fun t => truthy t = true) (section_paragraphs siblings).
Proof.
  unfold section_paragraphs. apply Forall_forall. intros t Hin.
  apply filter_In in Hin. tauto.
Qed.

Lemma extract_plot_from_section_not_empty (soup : node) (label : string) :
  extract_plot_from_section soup label <> Some "".
Proof.
  unfold extract_plot_from_section.
  destruct (search_heading _ _) as [heading|]; cbn [snd]; [|discriminate].
  rewrite walk_paragraphs. cbn [app].
  pose proof (section_paragraphs_truthy (next_siblings heading)) as Ht.
  destruct (section_paragraphs _) as [|t ts]; [discriminate|].
  inversion Ht as [|? ? H1 _]; subst.
  pose proof (join_truthy " " t ts H1) as Hj. cbv beta iota.
  destruct (join " " (t :: ts)); [discriminate Hj|discriminate].
Qed.

(** C7: when [heading] is the first element among the divs, h2s and h3s of
    the page, in document order, that is a heading for the label (a
    heading wrapper, an h2 or an h3 whose text contains the label, case
    ignored), the call returns the non-empty trimmed texts of the
    paragraph siblings after it and before the first top-level boundary,
    joined by single spaces (and None when there is none); a sub-heading
    among the siblings (an h3, or a heading wrapper without an h2) neither
    ends the walk nor adds text. *)
Theorem section_boundary
    (soup : node) (label : string)
    (before : list located) (heading : located) (after : list located) :
  find_all_located ["div"; "h2"; "h3"] soup = before ++ heading :: after ->
  Forall (fun c => is_heading_for label (element c) = false) before ->
  is_heading_for label (element heading) = true ->
  extract_plot_from_section soup label =
    match section_paragraphs (next_siblings heading) with
    | [] => None
    | texts => Some (join " " texts)
    end
  /\ (forall l1 h l2 acc,
         sub_heading h = true -> walk (l1 ++ h :: l2) acc = walk (l1 ++ l2) acc).
Proof.
  intros Hall Hb Hh. split.
  - apply extract_plot_from_section_found. rewrite Hall.
    apply search_heading_first.
    + eapply Forall_impl; [|exact Hb]. intros c Hc. rewrite heading_matches_worded. exact Hc.
    + rewrite heading_matches_worded. exact Hh.
  - intros l1 h l2 acc Hsub. apply walk_skips_sub_heading, Hsub.
Qed.

Lemma section_boundary_witness :
  exists before heading after,
    find_all_located ["div"; "h2"; "h3"] article = before ++ heading :: after /\
    List.length before = 2 /\
    Forall (fun c => is_heading_for "Plot" (element c) = false) before /\
    is_heading_for "Plot" (element heading) = true /\
    section_paragraphs (next_siblings heading) = ["A pilot falls in love."; "The war ends."] /\
    extract_plot_from_section article "Plot" = Some "A pilot falls in love. The war ends.".
Proof.
  set (all := find_all_located ["div"; "h2"; "h3"] article).
  set (blank := {| prev_siblings := []; element := text ""; next_siblings := [] |}).
  exists (firstn 2 all), (nth 2 all blank), (skipn 3 all).
  assert (H1 : all = firstn 2 all ++ nth 2 all blank :: skipn 3 all) by reflexivity.
  assert (H2 : Forall (fun c => is_heading_for "Plot" (element c) = false) (firstn 2 all))
    by (repeat constructor).
  assert (H3 : is_heading_for "Plot" (element (nth 2 all blank)) = true) by reflexivity.
  split; [exact H1|]. split; [reflexivity|]. split; [exact H2|]. split; [exact H3|].
  split; [reflexivity|].
  exact (proj1 (section_boundary article "Plot" _ _ _ H1 H2 H3)).
Defined.

(** C8: the call returns None when no heading matches the label and when
    the section has no non-empty paragraph, and never the empty string;
    [extract_plot] calls it with "Plot", and with "Synopsis" after that
    exactly when the first call returned None, returning the first call's
    text or else the second call's result. *)
Theorem absence_and_fallback (soup : node) :
  (forall label,
      search_heading label (find_all_located ["div"; "h2"; "h3"] soup) = None ->
      extract_plot_from_section soup label = None)
  /\ (forall label heading,
         search_heading label (find_all_located ["div"; "h2"; "h3"] soup) = Some heading ->
         section_paragraphs (next_siblings heading) = [] ->
         extract_plot_from_section soup label = None)
  /\ (forall label, extract_plot_from_section soup label <> Some "")
  /\ extract_plot soup =
     match extract_plot_from_section soup "Plot" with
     | Some plot => (["Plot"], Some plot)
     | None => (["Plot"; "Synopsis"], extract_plot_from_section soup "Synopsis")
     end.
Proof.
  split; [|split; [|split]].
  - intros label H. unfold extract_plot_from_section.
    rewrite H. reflexivity.
  - intros label heading H Hp. rewrite (extract_plot_from_section_found _ _ _ H), Hp.
    reflexivity.
  - apply extract_plot_from_section_not_empty.
  - unfold extract_plot.
    pose proof (extract_plot_from_section_not_empty soup "Plot") as H1.
    pose proof (extract_plot_from_section_not_empty soup "Synopsis") as H2.
    destruct (extract_plot_from_section soup "Plot") as [[|c p]|]; try congruence.
    + reflexivity.
    + simpl. destruct (extract_plot_from_section soup "Synopsis") as [[|c s]|];
        try congruence; reflexivity.
Qed.

Lemma absence_and_fallback_witness :
  search_heading "Plot" (find_all_located ["div"; "h2"; "h3"] synopsis_article) = None /\
  extract_plot_from_section synopsis_article "Plot" = None /\
  extract_plot synopsis_article = (["Plot"; "Synopsis"], Some "Two friends enlist.").
Proof.
  destruct (absence_and_fallback synopsis_article) as (Hnone & _ & _ & Hplot).
  assert (H : search_heading "Plot" (find_all_located ["div"; "h2"; "h3"] synopsis_article)
              = None) by reflexivity.
  split; [exact H|]. split; [exact (Hnone "Plot" H)|].
  rewrite Hplot, (Hnone "Plot" H). reflexivity.
Defined.

(** ** The specification's examples *)

(** A first cell that reads as a year hands the film role to the second
    cell; a first cell with the film link keeps it. *)
Example year_cell_then_film :
  movies (row_body (el "tr" [el "td" [text "1995"]; el "td" [link "/wiki/Film" "Film"]]) fresh)
  = [film None "Film"].
Proof. reflexivity. Qed.

Example film_cell_then_producer :
  movies (row_body (el "tr" [el "td" [link "/wiki/Film" "Film"]; el "td" [text "Producer"]]) fresh)
  = [film None "Film"].
Proof. reflexivity. Qed.

(** A film cell whose only link is a category page yields nothing. *)
Example category_link_rejected :
  film_cell_movies (el "td" [link "/wiki/Category:Films" "Films"]) None = [].
Proof. reflexivity. Qed.

(** The text after the next top-level heading is left out. *)
Example plot_stops_at_cast :
  extract_plot_from_section article "Plot" = Some "A pilot falls in love. The war ends.".
Proof. reflexivity. Qed.

(** * More of the scripts *)

Import PyText PyJson MovieFiles ScrapperMain Scan Shelf.

(** ** File names *)

Ltac by_ascii c :=
  destruct c as [[] [] [] [] [] [] [] []]; vm_compute; try reflexivity; try discriminate.

Lemma replaced_safe (c : ascii) :
  kept_in_title c = true -> safe_char (if Ascii.eqb c " " then "_"%char else c) = true.
Proof. by_ascii c. Qed.

Lemma safe_is_kept (c : ascii) : safe_char c = true -> kept_in_title c = true.
Proof. by_ascii c. Qed.

Lemma safe_not_space (c : ascii) : safe_char c = true -> isspace_char c = false.
Proof. by_ascii c. Qed.

Lemma safe_not_blank (c : ascii) : safe_char c = true -> Ascii.eqb c " " = false.
Proof. by_ascii c. Qed.

Lemma safe_not_separator (c : ascii) :
  safe_char c = true ->
  (negb (Ascii.eqb c "/") && negb (Ascii.eqb c " ") && negb (Ascii.eqb c "."))%bool = true.
Proof. by_ascii c. Qed.

Lemma digit_not_slash (c : ascii) : isdigit_char c = true -> Ascii.eqb c "/" = false.
Proof. by_ascii c. Qed.

Lemma all_chars_impl (p q : ascii -> bool) (s : string) :
  (forall c, p c = true -> q c = true) -> all_chars p s = true -> all_chars q s = true.
Proof.
  intros H. induction s as [|c s IH]; simpl; [reflexivity|].
  intros Hs. apply andb_true_iff in Hs. destruct Hs as [Hc Hs].
  rewrite (H c Hc). simpl. apply IH, Hs.
Qed.

Lemma all_chars_append (p : ascii -> bool) (a b : string) :
  all_chars p (a ++ b) = (all_chars p a && all_chars p b)%bool.
Proof.
  induction a as [|c a IH]; simpl; [reflexivity|]. rewrite IH. apply andb_assoc.
Qed.

Lemma all_chars_lstrip (p : ascii -> bool) (s : string) :
  all_chars p s = true -> all_chars p (lstrip s) = true.
Proof.
  induction s as [|c s IH]; simpl; [reflexivity|]. intros H.
  destruct (isspace_char c); [|exact H].
  apply andb_true_iff in H. apply IH, H.
Qed.

Lemma all_chars_rstrip (p : ascii -> bool) (s : string) :
  all_chars p s = true -> all_chars p (rstrip s) = true.
Proof.
  induction s as [|c s IH]; simpl; [reflexivity|]. intros H.
  apply andb_true_iff in H. destruct H as [Hc Hs].
  destruct (negb (truthy (rstrip s)) && isspace_char c)%bool; [reflexivity|].
  simpl. rewrite Hc. simpl. apply IH, Hs.
Qed.

Lemma all_chars_strip (p : ascii -> bool) (s : string) :
  all_chars p s = true -> all_chars p (strip s) = true.
Proof. intros H. apply all_chars_rstrip, all_chars_lstrip, H. Qed.

Lemma all_chars_replace_space (s : string) :
  all_chars kept_in_title s = true ->
  all_chars safe_char (replace_char " " "_" s) = true.
Proof.
  induction s as [|c s IH]; simpl; [reflexivity|]. intros H.
  apply andb_true_iff in H. destruct H as [Hc Hs].
  rewrite (replaced_safe c Hc). simpl. apply IH, Hs.
Qed.

Lemma safe_title_safe (movie_title : string) :
  all_chars safe_char (safe_title movie_title) = true.
Proof.
  unfold safe_title. apply all_chars_replace_space, all_chars_strip, all_chars_filter_chars.
Qed.

(** X1: a sanitized title is made of alphanumeric characters, hyphens and
    underscores only; it holds no slash, no space and no dot. *)
Theorem safe_title_chars (movie_title : string) :
  all_chars (fun c => isalnum_char c || Ascii.eqb c "-" || Ascii.eqb c "_")
            (safe_title movie_title) = true
  /\ all_chars (fun c => negb (Ascii.eqb c "/") && negb (Ascii.eqb c " ")
                         && negb (Ascii.eqb c "."))
               (safe_title movie_title) = true.
Proof.
  split.
  - apply safe_title_safe.
  - eapply all_chars_impl; [|apply safe_title_safe]. apply safe_not_separator.
Qed.

Lemma filter_chars_all (p : ascii -> bool) (s : string) :
  all_chars p s = true -> filter_chars p s = s.
Proof.
  induction s as [|c s IH]; simpl; [reflexivity|]. intros H.
  apply andb_true_iff in H. destruct H as [Hc Hs]. rewrite Hc, (IH Hs). reflexivity.
Qed.

Lemma lstrip_no_space (s : string) :
  all_chars (fun c => negb (isspace_char c)) s = true -> lstrip s = s.
Proof.
  destruct s as [|c s]; simpl; [reflexivity|]. intros H.
  apply andb_true_iff in H. destruct H as [Hc _].
  apply negb_true_iff in Hc. rewrite Hc. reflexivity.
Qed.

Lemma rstrip_no_space (s : string) :
  all_chars (fun c => negb (isspace_char c)) s = true -> rstrip s = s.
Proof.
  induction s as [|c s IH]; simpl; [reflexivity|]. intros H.
  apply andb_true_iff in H. destruct H as [Hc Hs].
  apply negb_true_iff in Hc. rewrite Hc, andb_false_r, (IH Hs). reflexivity.
Qed.

Lemma replace_char_absent (a b : ascii) (s : string) :
  all_chars (fun c => negb (Ascii.eqb c a)) s = true -> replace_char a b s = s.
Proof.
  induction s as [|c s IH]; simpl; [reflexivity|]. intros H.
  apply andb_true_iff in H. destruct H as [Hc Hs].
  apply negb_true_iff in Hc. rewrite Hc, (IH Hs). reflexivity.
Qed.

Lemma safe_title_fixed (s : string) :
  all_chars safe_char s = true -> safe_title s = s.
Proof.
  intros H. unfold safe_title.
  assert (Hnsp : all_chars (fun c => negb (isspace_char c)) s = true).
  { eapply all_chars_impl; [|exact H]. intros c Hc. rewrite (safe_not_space c Hc). reflexivity. }
  rewrite filter_chars_all by (eapply all_chars_impl; [|exact H]; apply safe_is_kept).
  unfold strip. rewrite (lstrip_no_space s Hnsp), (rstrip_no_space s Hnsp).
  apply replace_char_absent.
  eapply all_chars_impl; [|exact H]. intros c Hc. rewrite (safe_not_blank c Hc). reflexivity.
Qed.

Lemma write_to_other (dk : disk) (path : string) (v : json) (fs : files) (other : string) :
  other <> path -> fst (write_to dk path v fs) other = fs other.
Proof.
  intros Hne. apply String.eqb_neq in Hne. unfold write_to, write, spoil.
  destruct (dk path); simpl; try rewrite Hne; reflexivity.
Qed.

(** The three ways a write ends. *)
Lemma write_to_cases (dk : disk) (path : string) (v : json) (fs : files) :
  (dk path = Completes /\ write_to dk path v fs = (write path v fs, Returned tt))
  \/ (dk path = Refused /\ write_to dk path v fs = (fs, Raised))
  \/ (dk path = Breaks /\ write_to dk path v fs = (spoil path fs, Raised)).
Proof. unfold write_to. destruct (dk path); auto. Qed.

Lemma write_at (path : string) (v : json) (fs : files) :
  write path v fs path = Some (Parsed v).
Proof. unfold write. rewrite String.eqb_refl. reflexivity. Qed.

Lemma spoil_at (path : string) (fs : files) : spoil path fs path = Some Unreadable.
Proof. unfold spoil. rewrite String.eqb_refl. reflexivity. Qed.

(** X2: sanitizing a title twice is sanitizing it once, so a movie's file
    is the file of its sanitized title; once a save of the movie has
    returned, every title with the same sanitized form and the same year
    counts as already scraped; and however the save ends, no other path
    is touched. *)
Theorem sanitized_title_names_the_file
    (dk : disk) (d : movie_data) (other_title output_dir : string) (fs : files) :
  safe_title other_title = safe_title (md_name d) ->
  safe_title (safe_title other_title) = safe_title other_title
  /\ get_movie_filepath (safe_title other_title) (md_year d) output_dir
     = get_movie_filepath (md_name d) (md_year d) output_dir
  /\ (snd (save_movie_to_json dk d output_dir fs) = Returned tt ->
      movie_already_scraped other_title (md_year d) output_dir
        (fst (save_movie_to_json dk d output_dir fs)) = true)
  /\ (forall path,
         path <> get_movie_filepath (md_name d) (md_year d) output_dir ->
         fst (save_movie_to_json dk d output_dir fs) path = fs path).
Proof.
  intros Hsame.
  assert (Hidem : safe_title (safe_title other_title) = safe_title other_title)
    by apply safe_title_fixed, safe_title_safe.
  split; [exact Hidem|]. split; [|split].
  - unfold get_movie_filepath, filename_of. rewrite Hidem, Hsame. reflexivity.
  - unfold save_movie_to_json. intros Hr.
    destruct (write_to_cases dk (get_movie_filepath (md_name d) (md_year d) output_dir)
                (json_of_movie_data d) fs) as [[_ E]|[[_ E]|[_ E]]];
      rewrite E in *; try discriminate Hr.
    unfold movie_already_scraped, exists_. simpl fst.
    replace (get_movie_filepath other_title (md_year d) output_dir)
      with (get_movie_filepath (md_name d) (md_year d) output_dir)
      by (unfold get_movie_filepath, filename_of; rewrite Hsame; reflexivity).
    rewrite write_at. reflexivity.
  - intros path Hne. unfold save_movie_to_json. apply write_to_other, Hne.
Qed.

Lemma sanitized_title_names_the_file_witness :
  safe_title "Wings!" = safe_title "Wings" /\
  movie_already_scraped "Wings!" (Some "1927") "movie_data"
    (fst (save_movie_to_json sound_disk
            {| md_year := Some "1927"; md_name := "Wings"; md_plot := "Two pilots.";
               md_wiki := "https://en.wikipedia.org/wiki/Wings_(1927_film)" |}
            "movie_data" (fun _ => None))) = true.
Proof.
  assert (H : safe_title "Wings!" = safe_title "Wings") by reflexivity.
  split; [exact H|].
  exact (proj1 (proj2 (proj2
    (sanitized_title_names_the_file sound_disk
       {| md_year := Some "1927"; md_name := "Wings"; md_plot := "Two pilots.";
          md_wiki := "https://en.wikipedia.org/wiki/Wings_(1927_film)" |}
       "Wings!" "movie_data" (fun _ => None) H))) eq_refl).
Defined.

Lemma nominations_years (soup : node) :
  Forall (fun m => four_digits (year m)) (get_best_picture_nominations soup).
Proof.
  apply (nominations_inv (fun m => four_digits (year m)) four_digits).
  - exact I.
  - intros row cy. apply update_year_four_digits.
  - intros fc cy Hcy. eapply Forall_impl; [|apply film_cell_movies_year].
    intros m ->. exact Hcy.
Qed.

Lemma no_slash_not_absolute (s : string) :
  all_chars (fun c => negb (Ascii.eqb c "/")) s = true -> startswith s "/" = false.
Proof.
  intros H. destruct (startswith s "/") eqn:E; [|reflexivity].
  apply startswith_append in E. destruct E as [rest ->]. discriminate H.
Qed.

Lemma filename_without_slash (movie_title : string) (movie_year : option string) :
  four_digits movie_year ->
  all_chars (fun c => negb (Ascii.eqb c "/")) (filename_of movie_title movie_year) = true.
Proof.
  intros Hy. unfold filename_of. rewrite !all_chars_append.
  apply andb_true_iff. split; [|apply andb_true_iff; split; [reflexivity|]].
  - destruct movie_year as [y|]; [|reflexivity]. destruct Hy as [_ Hd]. simpl.
    eapply all_chars_impl; [|exact Hd]. intros c Hc. rewrite (digit_not_slash c Hc). reflexivity.
  - apply andb_true_iff. split; [|reflexivity].
    eapply all_chars_impl; [|apply safe_title_safe]. intros c Hc.
    pose proof (safe_not_separator c Hc) as H.
    apply andb_true_iff in H. destruct H as [H _].
    apply andb_true_iff in H. destruct H as [H _]. exact H.
Qed.

(** X3: for every record the nomination extractor returns, the file name
    built from its title and year holds no slash, so the movie's path is
    that name directly inside the output directory (joined with one slash
    unless the directory is empty or already ends with one). *)
Theorem nomination_file_in_directory (soup : node) (m : movie) (output_dir : string) :
  In m (get_best_picture_nominations soup) ->
  all_chars (fun c => negb (Ascii.eqb c "/")) (filename_of (title m) (year m)) = true
  /\ get_movie_filepath (title m) (year m) output_dir =
     (if negb (truthy output_dir) || endswith_char output_dir "/"
      then output_dir ++ filename_of (title m) (year m)
      else output_dir ++ "/" ++ filename_of (title m) (year m))%string.
Proof.
  intros Hin.
  assert (Hy : four_digits (year m)).
  { pose proof (nominations_years soup) as H. rewrite Forall_forall in H. apply H, Hin. }
  pose proof (filename_without_slash (title m) (year m) Hy) as Hns.
  split; [exact Hns|].
  unfold get_movie_filepath, os_path_join.
  rewrite (no_slash_not_absolute _ Hns). reflexivity.
Qed.

Lemma nomination_file_in_directory_witness :
  In (film (Some "1990") "A") (get_best_picture_nominations statistics_page) /\
  get_movie_filepath "A" (Some "1990") "movie_data" = "movie_data/1990_A.json".
Proof.
  assert (Hin : In (film (Some "1990") "A") (get_best_picture_nominations statistics_page))
    by (left; reflexivity).
  split; [exact Hin|].
  exact (proj2 (nomination_file_in_directory statistics_page _ "movie_data" Hin)).
Defined.

(** ** Dicts *)

Lemma dict_get_set_same (key : string) (v : json) (d : list (string * json)) :
  dict_get key (dict_set key v d) = Some v.
Proof.
  induction d as [|[k v'] d IH]; simpl.
  - rewrite String.eqb_refl. reflexivity.
  - destruct (String.eqb k key) eqn:E; simpl; rewrite E; [reflexivity|exact IH].
Qed.

Lemma dict_get_set_other (key other : string) (v : json) (d : list (string * json)) :
  other <> key -> dict_get other (dict_set key v d) = dict_get other d.
Proof.
  intros Hne. induction d as [|[k v'] d IH]; simpl.
  - apply String.eqb_neq in Hne. rewrite String.eqb_sym, Hne. reflexivity.
  - destruct (String.eqb k key) eqn:E; simpl.
    + apply String.eqb_eq in E. subst k.
      assert (String.eqb key other = false) as ->; [|reflexivity].
      apply String.eqb_neq. congruence.
    + rewrite IH. reflexivity.
Qed.

Lemma dict_has_set (key : string) (v : json) (d : list (string * json)) :
  dict_has key (dict_set key v d) = true.
Proof. unfold dict_has. rewrite dict_get_set_same. reflexivity. Qed.

(** ** Backfilling the wiki links *)

Section Backfill.
Variable dk : disk.

(** What one iteration can do to a path. *)
Lemma backfill_one_effect (output_dir : string) (m : movie) (fs : files) (path : string) :
  fst (backfill_one dk output_dir m fs) path = fs path
  \/ (path = get_movie_filepath (title m) (year m) output_dir
      /\ exists d,
           fs path = Some (Parsed (JDict d)) /\ dict_has "wiki" d = false /\
           ((snd (backfill_one dk output_dir m fs) = Returned true /\
             fst (backfill_one dk output_dir m fs) path
             = Some (Parsed (JDict (dict_set "wiki" (JStr (url m)) d))))
            \/ (snd (backfill_one dk output_dir m fs) = Raised /\ dk path = Breaks /\
                fst (backfill_one dk output_dir m fs) path = Some Unreadable))).
Proof.
  unfold backfill_one. cbv zeta.
  destruct (fs (get_movie_filepath (title m) (year m) output_dir)) as [[loaded|]|] eqn:Ef;
    try (left; reflexivity).
  destruct (py_contains "wiki" loaded) as [[|]|] eqn:Ec; try (left; reflexivity).
  destruct loaded as [ | b | z | f | s | l | d ]; try (left; reflexivity).
  simpl in Ec. injection Ec as Ec.
  destruct (String.eqb_spec path (get_movie_filepath (title m) (year m) output_dir))
    as [->|Hne].
  - destruct (write_to_cases dk (get_movie_filepath (title m) (year m) output_dir)
                (JDict (dict_set "wiki" (JStr (url m)) d)) fs) as [[Hd E]|[[Hd E]|[Hd E]]];
      rewrite E; simpl.
    + right. split; [reflexivity|]. exists d. rewrite write_at. auto.
    + left. reflexivity.
    + right. split; [reflexivity|]. exists d. rewrite spoil_at. auto 6.
  - left.
    pose proof (write_to_other dk (get_movie_filepath (title m) (year m) output_dir)
                  (JDict (dict_set "wiki" (JStr (url m)) d)) fs path Hne) as Ho.
    destruct (write_to dk _ _ fs) as [fs1 [[]|]]; exact Ho.
Qed.

Lemma backfill_loop_cons (output_dir : string) (m : movie) (rest : list movie)
    (updated : nat) (fs : files) :
  backfill_loop dk output_dir (m :: rest) updated fs =
  match snd (backfill_one dk output_dir m fs) with
  | Returned true =>
      backfill_loop dk output_dir rest (S updated) (fst (backfill_one dk output_dir m fs))
  | Returned false =>
      backfill_loop dk output_dir rest updated (fst (backfill_one dk output_dir m fs))
  | Raised => (fst (backfill_one dk output_dir m fs), Raised)
  end.
Proof.
  simpl. destruct (backfill_one dk output_dir m fs) as [fs1 [[|]|]]; reflexivity.
Qed.

(** What the loop can do to a path. *)
Lemma backfill_loop_effect (output_dir : string) (movies : list movie) (path : string) :
  forall updated fs,
    fst (backfill_loop dk output_dir movies updated fs) path = fs path
    \/ exists d m,
         In m movies /\ path = get_movie_filepath (title m) (year m) output_dir /\
         fs path = Some (Parsed (JDict d)) /\ dict_has "wiki" d = false /\
         (fst (backfill_loop dk output_dir movies updated fs) path
          = Some (Parsed (JDict (dict_set "wiki" (JStr (url m)) d)))
          \/ (fst (backfill_loop dk output_dir movies updated fs) path = Some Unreadable /\
              dk path = Breaks /\
              snd (backfill_loop dk output_dir movies updated fs) = Raised)).
Proof.
  induction movies as [|m rest IH]; intros updated fs; [left; reflexivity|].
  rewrite backfill_loop_cons.
  pose proof (backfill_one_effect output_dir m fs path) as H1.
  set (fs1 := fst (backfill_one dk output_dir m fs)) in *.
  assert (Hrest : forall u,
             snd (backfill_one dk output_dir m fs) <> Raised ->
             fst (backfill_loop dk output_dir rest u fs1) path = fs path
             \/ exists d m0,
                  In m0 (m :: rest) /\
                  path = get_movie_filepath (title m0) (year m0) output_dir /\
                  fs path = Some (Parsed (JDict d)) /\ dict_has "wiki" d = false /\
                  (fst (backfill_loop dk output_dir rest u fs1) path
                   = Some (Parsed (JDict (dict_set "wiki" (JStr (url m0)) d)))
                   \/ (fst (backfill_loop dk output_dir rest u fs1) path = Some Unreadable /\
                       dk path = Breaks /\
                       snd (backfill_loop dk output_dir rest u fs1) = Raised))).
  { intros u Hnr. destruct (IH u fs1) as [E2|(d & m0 & Hin & Hp & Hf & Hw & E2)].
    - destruct H1 as [E1|(Hp & d & Hf & Hw & [[_ E1]|[Hr _]])].
      + left. congruence.
      + right. exists d, m. rewrite E2. split; [left; reflexivity|]. auto.
      + contradiction.
    - destruct H1 as [E1|(_ & d' & _ & _ & [[_ E1]|[Hr _]])].
      + right. exists d, m0. rewrite <- E1. split; [right; exact Hin|]. auto.
      + rewrite E1 in Hf. injection Hf as Hf. subst d.
        rewrite dict_has_set in Hw. discriminate.
      + contradiction. }
  destruct (snd (backfill_one dk output_dir m fs)) as [[|]|] eqn:Es;
    try (apply Hrest; discriminate).
  simpl fst. simpl snd.
  destruct H1 as [E1|(Hp & d & Hf & Hw & [[Hr _]|(_ & Hb & E1)])];
    [left; exact E1|discriminate Hr|].
  right. exists d, m. split; [left; reflexivity|].
  split; [exact Hp|]. split; [exact Hf|]. split; [exact Hw|].
  right. split; [exact E1|]. split; [exact Hb|reflexivity].
Qed.

Lemma backfill_keeps_existence
    (movies : list movie) (output_dir : string) (fs : files) (path : string) :
  exists_ path (fst (backfill_wiki_links dk movies output_dir fs)) = exists_ path fs.
Proof.
  unfold backfill_wiki_links, exists_.
  destruct (backfill_loop_effect output_dir movies path 0 fs)
    as [E|(d & m & _ & _ & Hf & _ & [E|(E & _)])]; rewrite E; try rewrite Hf; reflexivity.
Qed.

Lemma backfill_first_loop (output_dir : string) (m : movie) (after : list movie)
    (d : list (string * json)) (before : list movie) :
  let path := get_movie_filepath (title m) (year m) output_dir in
  Forall (fun m' => get_movie_filepath (title m') (year m') output_dir <> path) before ->
  dict_has "wiki" d = false ->
  forall updated fs n,
    fs path = Some (Parsed (JDict d)) ->
    snd (backfill_loop dk output_dir (before ++ m :: after) updated fs) = Returned n ->
    fst (backfill_loop dk output_dir (before ++ m :: after) updated fs) path
    = Some (Parsed (JDict (dict_set "wiki" (JStr (url m)) d))).
Proof.
  cbv zeta. intros Hb Hw. induction Hb as [|m' before Hm' _ IH]; intros updated fs n Hf Hr.
  - simpl app in *. rewrite backfill_loop_cons in *.
    destruct (backfill_one_effect output_dir m fs
                (get_movie_filepath (title m) (year m) output_dir))
      as [E1|(_ & d' & Hf' & _ & [[Hr1 E1]|[Hr1 _]])].
    + exfalso. revert Hr E1. unfold backfill_one. cbv zeta. rewrite Hf. simpl. rewrite Hw.
      destruct (write_to_cases dk (get_movie_filepath (title m) (year m) output_dir)
                  (JDict (dict_set "wiki" (JStr (url m)) d)) fs) as [[_ E]|[[_ E]|[_ E]]];
        rewrite E; simpl; try discriminate.
      intros _ E1. rewrite write_at in E1. injection E1 as E1. rewrite <- E1 in Hw.
      rewrite dict_has_set in Hw. discriminate Hw.
    + rewrite Hf in Hf'. injection Hf' as <-. rewrite Hr1 in *.
      destruct (backfill_loop_effect output_dir after
                  (get_movie_filepath (title m) (year m) output_dir) (S updated)
                  (fst (backfill_one dk output_dir m fs)))
        as [E|(d' & m0 & _ & _ & Hf' & Hw' & _)].
      * rewrite E. exact E1.
      * rewrite E1 in Hf'. injection Hf' as Hf'. subst d'.
        rewrite dict_has_set in Hw'. discriminate.
    + rewrite Hr1 in Hr. discriminate Hr.
  - rewrite <- app_comm_cons in *. rewrite backfill_loop_cons in *.
    assert (Hsame : fst (backfill_one dk output_dir m' fs)
                      (get_movie_filepath (title m) (year m) output_dir)
                    = fs (get_movie_filepath (title m) (year m) output_dir)).
    { destruct (backfill_one_effect output_dir m' fs
                  (get_movie_filepath (title m) (year m) output_dir))
        as [E|(Hp & _)]; [exact E|]. exfalso. apply Hm'. symmetry. exact Hp. }
    destruct (snd (backfill_one dk output_dir m' fs)) as [[|]|];
      try (eapply IH; [rewrite Hsame; exact Hf|exact Hr]).
    discriminate Hr.
Qed.

Lemma settled_is_noop (output_dir : string) (m : movie) (fs : files) :
  wiki_settled (fs (get_movie_filepath (title m) (year m) output_dir)) ->
  backfill_one dk output_dir m fs = (fs, Returned false).
Proof.
  unfold backfill_one. cbv zeta. intros [->|(loaded & -> & ->)]; reflexivity.
Qed.

Lemma settled_loop_is_noop (output_dir : string) (movies : list movie) (fs : files) :
  Forall (fun m => wiki_settled (fs (get_movie_filepath (title m) (year m) output_dir)))
         movies ->
  forall updated, backfill_loop dk output_dir movies updated fs = (fs, Returned updated).
Proof.
  induction 1 as [|m rest Hm _ IH]; intros updated; [reflexivity|].
  simpl. rewrite (settled_is_noop _ _ _ Hm). apply IH.
Qed.

Lemma settled_stays (output_dir : string) (movies : list movie) (updated : nat)
    (fs : files) (path : string) :
  wiki_settled (fs path) ->
  wiki_settled (fst (backfill_loop dk output_dir movies updated fs) path).
Proof.
  intros Hs.
  destruct (backfill_loop_effect output_dir movies path updated fs)
    as [E|(d & m & _ & _ & Hf & Hw & _)]; [rewrite E; exact Hs|].
  exfalso. destruct Hs as [Hn|(loaded & Hl & Hc)]; [congruence|].
  rewrite Hf in Hl. injection Hl as <-. simpl in Hc. congruence.
Qed.

Lemma backfill_one_settles (output_dir : string) (m : movie) (fs : files) (b : bool) :
  snd (backfill_one dk output_dir m fs) = Returned b ->
  wiki_settled (fst (backfill_one dk output_dir m fs)
                    (get_movie_filepath (title m) (year m) output_dir)).
Proof.
  unfold backfill_one. cbv zeta.
  destruct (fs (get_movie_filepath (title m) (year m) output_dir)) as [[loaded|]|] eqn:Ef;
    simpl; try discriminate.
  - destruct (py_contains "wiki" loaded) as [[|]|] eqn:Ec; simpl; try discriminate.
    + intros _. right. exists loaded. rewrite Ef. auto.
    + destruct loaded as [ | b0 | z | f | s | l | d ]; simpl; try discriminate.
      destruct (write_to_cases dk (get_movie_filepath (title m) (year m) output_dir)
                  (JDict (dict_set "wiki" (JStr (url m)) d)) fs) as [[_ E]|[[_ E]|[_ E]]];
        rewrite E; simpl; try discriminate.
      intros _. right. eexists. rewrite write_at. split; [reflexivity|].
      simpl. rewrite dict_has_set. reflexivity.
  - intros _. left. exact Ef.
Qed.

Lemma backfill_loop_settles (output_dir : string) (movies : list movie) :
  forall updated fs n,
    snd (backfill_loop dk output_dir movies updated fs) = Returned n ->
    Forall (fun m => wiki_settled
                       (fst (backfill_loop dk output_dir movies updated fs)
                            (get_movie_filepath (title m) (year m) output_dir)))
           movies.
Proof.
  induction movies as [|m rest IH]; intros updated fs n Hr; [constructor|].
  rewrite backfill_loop_cons in *.
  destruct (snd (backfill_one dk output_dir m fs)) as [b|] eqn:Es; [|discriminate Hr].
  pose proof (backfill_one_settles output_dir m fs b Es) as Hm.
  destruct b; (constructor; [apply settled_stays, Hm|eapply IH, Hr]).
Qed.

End Backfill.

(** X4: however [backfill_wiki_links] ends and whatever becomes of its
    writes, it creates and removes no file. A file it leaves changed is
    the file of a listed movie and held a dict without the key 'wiki'; it
    now holds that dict with 'wiki' set to the url of a listed movie of
    that path, every other key as it was, or, where the write broke, the
    part of the text that the write left, and then the call has raised. *)
Theorem backfill_only_adds_wiki
    (dk : disk) (movies : list movie) (output_dir : string) (fs : files) (path : string) :
  let fs' := fst (backfill_wiki_links dk movies output_dir fs) in
  exists_ path fs' = exists_ path fs
  /\ (fs' path = fs path
      \/ exists d m,
           In m movies /\ path = get_movie_filepath (title m) (year m) output_dir /\
           fs path = Some (Parsed (JDict d)) /\ dict_has "wiki" d = false /\
           ((fs' path = Some (Parsed (JDict (dict_set "wiki" (JStr (url m)) d))) /\
             forall key, key <> "wiki" ->
                         dict_get key (dict_set "wiki" (JStr (url m)) d) = dict_get key d)
            \/ (fs' path = Some Unreadable /\ dk path = Breaks /\
                snd (backfill_wiki_links dk movies output_dir fs) = Raised))).
Proof.
  cbv zeta. split; [apply backfill_keeps_existence|]. unfold backfill_wiki_links.
  destruct (backfill_loop_effect dk output_dir movies path 0 fs)
    as [E|(d & m & Hin & Hp & Hf & Hw & [E|E])].
  - left. exact E.
  - right. exists d, m. repeat split; auto. left. split; [exact E|].
    intros key Hne. apply dict_get_set_other, Hne.
  - right. exists d, m. repeat split; auto.
Qed.

(** X5: when several listed movies share a path, the first one's url is
    the one written: if the call returns and the file at the path of [m]
    held a dict without 'wiki', and no movie listed before [m] has that
    path, the file ends with 'wiki' set to the url of [m]. *)
Theorem backfill_first_url_wins
    (dk : disk) (before : list movie) (m : movie) (after : list movie) (output_dir : string)
    (fs : files) (d : list (string * json)) (n : nat) :
  let path := get_movie_filepath (title m) (year m) output_dir in
  Forall (fun m' => get_movie_filepath (title m') (year m') output_dir <> path) before ->
  fs path = Some (Parsed (JDict d)) ->
  dict_has "wiki" d = false ->
  snd (backfill_wiki_links dk (before ++ m :: after) output_dir fs) = Returned n ->
  fst (backfill_wiki_links dk (before ++ m :: after) output_dir fs) path
  = Some (Parsed (JDict (dict_set "wiki" (JStr (url m)) d))).
Proof.
  cbv zeta. intros Hb Hf Hw Hr. unfold backfill_wiki_links in *.
  eapply backfill_first_loop; eauto.
Qed.

(** X6: when [backfill_wiki_links] returns, every listed movie's path has
    no file or a file whose value holds 'wiki'; calling it again on the
    files it left changes nothing, writes nothing and reports 0 updates. *)
Theorem backfill_idempotent
    (dk : disk) (movies : list movie) (output_dir : string) (fs : files) (n : nat) :
  snd (backfill_wiki_links dk movies output_dir fs) = Returned n ->
  let fs' := fst (backfill_wiki_links dk movies output_dir fs) in
  Forall (fun m => wiki_settled (fs' (get_movie_filepath (title m) (year m) output_dir)))
         movies
  /\ forall dk', backfill_wiki_links dk' movies output_dir fs' = (fs', Returned 0).
Proof.
  intros Hr. cbv zeta. unfold backfill_wiki_links in *.
  pose proof (backfill_loop_settles dk output_dir movies 0 fs n Hr) as Hs.
  split; [exact Hs|]. intros dk'. apply settled_loop_is_noop, Hs.
Qed.

Lemma backfill_first_url_wins_witness :
  fst (backfill_wiki_links sound_disk
         ([] ++ film (Some "1990") "A" :: [film (Some "1990") "C"])
         "movie_data" old_shelf) "movie_data/1990_A.json"
  = Some (Parsed (JDict (old_entry ++ [("wiki", JStr "https://en.wikipedia.org/wiki/A")]))).
Proof.
  exact (backfill_first_url_wins sound_disk [] (film (Some "1990") "A")
           [film (Some "1990") "C"] "movie_data" old_shelf old_entry 1
           (Forall_nil _) eq_refl eq_refl eq_refl).
Defined.

Lemma backfill_idempotent_witness :
  snd (backfill_wiki_links sound_disk two_movies "movie_data" old_shelf) = Returned 1 /\
  backfill_wiki_links (fun _ => Breaks) two_movies "movie_data"
    (fst (backfill_wiki_links sound_disk two_movies "movie_data" old_shelf))
  = (fst (backfill_wiki_links sound_disk two_movies "movie_data" old_shelf), Returned 0).
Proof.
  assert (H : snd (backfill_wiki_links sound_disk two_movies "movie_data" old_shelf)
              = Returned 1) by reflexivity.
  split; [exact H|].
  exact (proj2 (backfill_idempotent sound_disk two_movies "movie_data" old_shelf 1 H)
               (fun _ => Breaks)).
Defined.

(** ** The main loop of the scraper *)

Section MainLoop.
Variable fetch : nat -> string -> option node.
Variable dk : disk.

Lemma main_step_counts (i : nat) (m : movie) (st : files * tally) (t' : tally) :
  snd (main_step fetch dk i m st) = Returned t' -> counted t' = S (counted (snd st)).
Proof.
  destruct st as [fs t]. unfold main_step, counted.
  destruct (movie_already_scraped _ _ _ fs); simpl; [intros [= <-]; simpl; lia|].
  destruct (extract_plot_at fetch i (url m)) as [plot|]; [destruct (truthy plot)|].
  - destruct (save_movie_to_json dk _ _ fs) as [fs1 [[]|]]; simpl; [|discriminate].
    intros [= <-]. simpl. lia.
  - simpl. intros [= <-]. simpl. rewrite length_app. simpl. lia.
  - simpl. intros [= <-]. simpl. rewrite length_app. simpl. lia.
Qed.

Lemma main_loop_cons (i : nat) (m : movie) (rest : list movie) (st : files * tally) :
  main_loop fetch dk i (m :: rest) st =
  match snd (main_step fetch dk i m st) with
  | Returned t' => main_loop fetch dk (S i) rest (fst (main_step fetch dk i m st), t')
  | Raised => (fst (main_step fetch dk i m st), Raised)
  end.
Proof. simpl. destruct (main_step fetch dk i m st) as [fs1 [t1|]]; reflexivity. Qed.

Lemma main_loop_counts (movies : list movie) :
  forall i st t',
    snd (main_loop fetch dk i movies st) = Returned t' ->
    counted t' = counted (snd st) + List.length movies.
Proof.
  induction movies as [|m rest IH]; intros i st t' Hr.
  - simpl in Hr. injection Hr as <-. simpl. lia.
  - rewrite main_loop_cons in Hr.
    destruct (snd (main_step fetch dk i m st)) as [t1|] eqn:Es; [|discriminate Hr].
    rewrite (IH _ _ _ Hr). simpl snd. rewrite (main_step_counts i m st t1 Es). simpl. lia.
Qed.

(** What one iteration can do to a path. *)
Lemma main_step_effect (i : nat) (m : movie) (st : files * tally) (path : string) :
  fst (main_step fetch dk i m st) path = fst st path
  \/ (fst st path = None
      /\ path = get_movie_filepath (title m) (year m) "movie_data"
      /\ ((made_for fetch m (fst (main_step fetch dk i m st) path) /\
           snd (main_step fetch dk i m st) <> Raised)
          \/ (fst (main_step fetch dk i m st) path = Some Unreadable /\ dk path = Breaks /\
              snd (main_step fetch dk i m st) = Raised))).
Proof.
  destruct st as [fs t]. unfold main_step.
  destruct (movie_already_scraped _ _ _ fs) eqn:Ea; [left; reflexivity|].
  unfold extract_plot_at.
  destruct (fetch i (url m)) as [soup|] eqn:Ef; [|left; reflexivity].
  destruct (snd (extract_plot soup)) as [plot|] eqn:Ep; [|left; reflexivity].
  destruct (truthy plot) eqn:Et; [|left; reflexivity].
  unfold save_movie_to_json. simpl md_name. simpl md_year.
  unfold movie_already_scraped, exists_ in Ea.
  destruct (String.eqb_spec path (get_movie_filepath (title m) (year m) "movie_data"))
    as [->|Hne].
  - destruct (fs (get_movie_filepath (title m) (year m) "movie_data")) eqn:En;
      [discriminate|].
    destruct (write_to_cases dk (get_movie_filepath (title m) (year m) "movie_data")
                (json_of_movie_data {| md_year := year m; md_name := title m;
                                       md_plot := plot; md_wiki := url m |}) fs)
      as [[Hd E]|[[Hd E]|[Hd E]]]; rewrite E; simpl.
    + right. split; [exact En|]. split; [reflexivity|]. left.
      split; [|discriminate]. rewrite write_at. exists i, soup, plot. auto.
    + left. reflexivity.
    + right. split; [exact En|]. split; [reflexivity|]. right.
      rewrite spoil_at. auto.
  - left.
    pose proof (write_to_other dk (get_movie_filepath (title m) (year m) "movie_data")
                  (json_of_movie_data {| md_year := year m; md_name := title m;
                                         md_plot := plot; md_wiki := url m |}) fs path Hne)
      as Ho.
    destruct (write_to dk _ _ fs) as [fs1 [[]|]]; exact Ho.
Qed.

(** What the loop can do to a path. *)
Lemma main_loop_effect (movies : list movie) (path : string) :
  forall i st,
    fst (main_loop fetch dk i movies st) path = fst st path
    \/ (fst st path = None
        /\ exists m,
             In m movies /\ path = get_movie_filepath (title m) (year m) "movie_data" /\
             (made_for fetch m (fst (main_loop fetch dk i movies st) path)
              \/ (fst (main_loop fetch dk i movies st) path = Some Unreadable /\
                  dk path = Breaks /\
                  snd (main_loop fetch dk i movies st) = Raised))).
Proof.
  induction movies as [|m rest IH]; intros i st; [left; reflexivity|].
  rewrite main_loop_cons.
  destruct (main_step_effect i m st path) as [E1|(Hn1 & Hp1 & H1)].
  - destruct (snd (main_step fetch dk i m st)) as [t1|]; [|left; exact E1].
    destruct (IH (S i) (fst (main_step fetch dk i m st), t1))
      as [E2|(Hn & m0 & Hin & Hp & Hm)]; simpl fst in *.
    + left. congruence.
    + right. split; [congruence|]. exists m0. split; [right; exact Hin|]. auto.
  - destruct H1 as [[Hm Hr]|(Eu & Hb & Hr)].
    + destruct (snd (main_step fetch dk i m st)) as [t1|]; [|contradiction].
      destruct (IH (S i) (fst (main_step fetch dk i m st), t1))
        as [E2|(Hn & _)]; simpl fst in *.
      * right. split; [exact Hn1|]. exists m. split; [left; reflexivity|].
        split; [exact Hp1|]. left. rewrite E2. exact Hm.
      * destruct Hm as (k & soup & plot & _ & _ & _ & Hc). congruence.
    + rewrite Hr. simpl fst. simpl snd.
      right. split; [exact Hn1|]. exists m. split; [left; reflexivity|]. auto.
Qed.

Lemma main_loop_all_scraped (movies : list movie) (fs : files) :
  Forall (fun m => movie_already_scraped (title m) (year m) "movie_data" fs = true) movies ->
  forall i t,
    main_loop fetch dk i movies (fs, t)
    = (fs, Returned {| processed := processed t; skipped := skipped t + List.length movies;
                       no_plot_found := no_plot_found t |}).
Proof.
  induction 1 as [|m rest Hm _ IH]; intros i t; simpl.
  - rewrite Nat.add_0_r. destruct t; reflexivity.
  - rewrite Hm, IH. simpl. do 3 f_equal. lia.
Qed.

Lemma main_returns (soup : node) (fs : files) (t : tally) :
  snd (main fetch dk (Some soup) fs) = Returned t ->
  exists n,
    snd (backfill_wiki_links dk (get_best_picture_nominations soup) "movie_data" fs)
    = Returned n
    /\ main fetch dk (Some soup) fs
       = main_loop fetch dk 1 (get_best_picture_nominations soup)
           (fst (backfill_wiki_links dk (get_best_picture_nominations soup) "movie_data" fs),
            empty_tally).
Proof.
  unfold main.
  destruct (backfill_wiki_links dk _ _ fs) as [fs1 [n|]]; simpl; [|discriminate].
  intros _. exists n. split; reflexivity.
Qed.

Lemma main_files (soup : node) (fs : files) :
  let movies := get_best_picture_nominations soup in
  let fs1 := fst (backfill_wiki_links dk movies "movie_data" fs) in
  (main fetch dk (Some soup) fs = (fs1, Raised)
   /\ snd (backfill_wiki_links dk movies "movie_data" fs) = Raised)
  \/ (main fetch dk (Some soup) fs = main_loop fetch dk 1 movies (fs1, empty_tally)
      /\ snd (backfill_wiki_links dk movies "movie_data" fs) <> Raised).
Proof.
  cbv zeta. unfold main.
  destruct (backfill_wiki_links dk _ _ fs) as [fs1 [n|]]; simpl; [right|left]; auto.
  split; [reflexivity|discriminate].
Qed.

End MainLoop.

(** X7: when [main] returns, every nomination was counted once: the
    processed and skipped counters and the length of the no-plot list add
    up to the number of records the nomination extractor gave. *)
Theorem main_counts_every_movie
    (fetch : nat -> string -> option node) (dk : disk) (soup : node) (fs : files) (t : tally) :
  snd (main fetch dk (Some soup) fs) = Returned t ->
  processed t + skipped t + List.length (no_plot_found t)
  = List.length (get_best_picture_nominations soup).
Proof.
  intros Hr. destruct (main_returns fetch dk soup fs t Hr) as (n & _ & Hl).
  rewrite Hl in Hr.
  exact (main_loop_counts fetch dk (get_best_picture_nominations soup) 1 _ t Hr).
Qed.

Lemma main_counts_every_movie_witness :
  snd (main web sound_disk (Some statistics_page) old_shelf)
  = Returned {| processed := 1; skipped := 1; no_plot_found := [] |}
  /\ 1 + 1 + 0 = List.length (get_best_picture_nominations statistics_page).
Proof.
  assert (H : snd (main web sound_disk (Some statistics_page) old_shelf)
              = Returned {| processed := 1; skipped := 1; no_plot_found := [] |})
    by reflexivity.
  split; [exact H|].
  exact (main_counts_every_movie web sound_disk statistics_page old_shelf _ H).
Defined.

(** X8: [main] removes no file and never writes a movie over a file that
    is already there, however it ends and whatever becomes of its writes.
    A file that was there keeps its content, unless the backfill took it:
    then it held a dict without 'wiki' and now holds that dict with 'wiki'
    set to the url of one of the page's nominations, or, where that write
    broke, the part of the text that the write left, and [main] has
    raised. *)
Theorem main_keeps_existing_files
    (fetch : nat -> string -> option node) (dk : disk) (page : option node) (fs : files)
    (path : string) (c : content) :
  fs path = Some c ->
  let fs' := fst (main fetch dk page fs) in
  fs' path = Some c
  \/ exists soup d m,
       page = Some soup /\ In m (get_best_picture_nominations soup) /\
       c = Parsed (JDict d) /\ dict_has "wiki" d = false /\
       (fs' path = Some (Parsed (JDict (dict_set "wiki" (JStr (url m)) d)))
        \/ (fs' path = Some Unreadable /\ dk path = Breaks /\
            snd (main fetch dk page fs) = Raised)).
Proof.
  intros Hc. cbv zeta. destruct page as [soup|]; [|left; exact Hc].
  set (movies := get_best_picture_nominations soup).
  set (fs1 := fst (backfill_wiki_links dk movies "movie_data" fs)).
  pose proof (backfill_loop_effect dk "movie_data" movies path 0 fs) as H1.
  fold (backfill_wiki_links dk movies "movie_data" fs) in H1. fold fs1 in H1.
  assert (Hex : fs1 path <> None).
  { destruct H1 as [E|(d & m & _ & _ & _ & _ & [E|(E & _)])]; rewrite E; congruence. }
  destruct (main_files fetch dk soup fs) as [[E Hr]|[E Hr]]; fold movies in E, Hr;
    fold fs1 in E.
  - rewrite E. simpl fst. simpl snd.
    destruct H1 as [E1|(d & m & Hin & _ & Hf & Hw & [E1|(E1 & Hb & _)])].
    + left. congruence.
    + right. exists soup, d, m. rewrite Hf in Hc. injection Hc as <-. auto 7.
    + right. exists soup, d, m. rewrite Hf in Hc. injection Hc as <-. auto 8.
  - assert (H2 : fst (main fetch dk (Some soup) fs) path = fs1 path).
    { rewrite E.
      destruct (main_loop_effect fetch dk movies path 1 (fs1, empty_tally)) as [E2|(Hn & _)];
        [exact E2|]. simpl in Hn. contradiction. }
    rewrite H2.
    destruct H1 as [E1|(d & m & Hin & _ & Hf & Hw & [E1|(E1 & Hb & Hr')])].
    + left. congruence.
    + right. exists soup, d, m. rewrite Hf in Hc. injection Hc as <-. auto 7.
    + contradiction.
Qed.

Lemma main_keeps_existing_files_witness :
  old_shelf "movie_data/1990_A.json" = Some (Parsed (JDict old_entry)) /\
  fst (main web sound_disk (Some statistics_page) old_shelf) "movie_data/1990_A.json"
  = Some (Parsed (JDict (old_entry ++ [("wiki", JStr "https://en.wikipedia.org/wiki/A")]))).
Proof.
  assert (H : old_shelf "movie_data/1990_A.json" = Some (Parsed (JDict old_entry)))
    by reflexivity.
  split; [exact H|].
  destruct (main_keeps_existing_files web sound_disk (Some statistics_page) old_shelf _ _ H)
    as [E|(soup & d & m & _ & _ & _ & _ & E)]; reflexivity.
Defined.

(** X9: a file that [main] creates is the file of one of the page's
    nominations. It holds exactly the keys year, name, plot and wiki of
    that nomination, the plot being a non-empty text that [extract_plot]
    gave for a fetched page of its url; or, where its write broke, the
    part of the text that the write left, and [main] has raised. *)
Theorem main_new_files
    (fetch : nat -> string -> option node) (dk : disk) (page : option node) (fs : files)
    (path : string) :
  fs path = None ->
  let fs' := fst (main fetch dk page fs) in
  fs' path = None
  \/ exists soup m,
       page = Some soup /\ In m (get_best_picture_nominations soup) /\
       path = get_movie_filepath (title m) (year m) "movie_data" /\
       (made_for fetch m (fs' path)
        \/ (fs' path = Some Unreadable /\ dk path = Breaks /\
            snd (main fetch dk page fs) = Raised)).
Proof.
  intros Hn. cbv zeta. destruct page as [soup|]; [|left; exact Hn].
  set (movies := get_best_picture_nominations soup).
  set (fs1 := fst (backfill_wiki_links dk movies "movie_data" fs)).
  assert (H1 : fs1 path = None).
  { pose proof (backfill_keeps_existence dk movies "movie_data" fs path) as He.
    fold fs1 in He. unfold exists_ in He. rewrite Hn in He.
    destruct (fs1 path); [discriminate He|reflexivity]. }
  destruct (main_files fetch dk soup fs) as [[E _]|[E _]]; fold movies in E; fold fs1 in E;
    rewrite E.
  - left. exact H1.
  - destruct (main_loop_effect fetch dk movies path 1 (fs1, empty_tally))
      as [E2|(_ & m & Hin & Hp & Hm)].
    + left. rewrite E2. exact H1.
    + right. exists soup, m. auto.
Qed.

Lemma main_new_files_witness :
  old_shelf "movie_data/1990_C.json" = None /\
  fst (main web sound_disk (Some statistics_page) old_shelf) "movie_data/1990_C.json"
  = Some (Parsed (json_of_movie_data
                    {| md_year := Some "1990"; md_name := "C";
                       md_plot := "A pilot falls in love. The war ends.";
                       md_wiki := "https://en.wikipedia.org/wiki/C" |})).
Proof.
  assert (H : old_shelf "movie_data/1990_C.json" = None) by reflexivity.
  split; [exact H|].
  destruct (main_new_files web sound_disk (Some statistics_page) old_shelf _ H) as [E|_];
    reflexivity.
Defined.

(** X10: when every nomination of the page already has its file and the
    backfill returns, [main] fetches no movie page and writes no movie
    file: whatever the network would answer, it returns the files the
    backfill left and counts every nomination as skipped. *)
Theorem main_skips_scraped_movies
    (fetch : nat -> string -> option node) (dk : disk) (soup : node) (fs : files) (n : nat) :
  let movies := get_best_picture_nominations soup in
  Forall (fun m => movie_already_scraped (title m) (year m) "movie_data" fs = true) movies ->
  snd (backfill_wiki_links dk movies "movie_data" fs) = Returned n ->
  main fetch dk (Some soup) fs
  = (fst (backfill_wiki_links dk movies "movie_data" fs),
     Returned {| processed := 0; skipped := List.length movies; no_plot_found := [] |}).
Proof.
  cbv zeta. intros Hall Hr. unfold main.
  set (movies := get_best_picture_nominations soup) in *.
  assert (Hall1 : Forall (fun m => movie_already_scraped (title m) (year m) "movie_data"
                                     (fst (backfill_wiki_links dk movies "movie_data" fs))
                                   = true)
                         movies).
  { eapply Forall_impl; [|exact Hall]. intros m Hm. unfold movie_already_scraped in *.
    rewrite backfill_keeps_existence. exact Hm. }
  destruct (backfill_wiki_links dk movies "movie_data" fs) as [fs1 o]. simpl in *. subst o.
  rewrite (main_loop_all_scraped fetch dk movies fs1 Hall1 1 empty_tally). reflexivity.
Qed.

Lemma main_skips_scraped_movies_witness :
  main web sound_disk (Some statistics_page) full_shelf
  = (fst (backfill_wiki_links sound_disk (get_best_picture_nominations statistics_page)
            "movie_data" full_shelf),
     Returned {| processed := 0; skipped := 2; no_plot_found := [] |}).
Proof.
  apply (main_skips_scraped_movies web sound_disk statistics_page full_shelf 0).
  - repeat constructor.
  - reflexivity.
Defined.

Lemma backfill_unreadable_raises (dk : disk) (output_dir : string) (movies : list movie)
    (m : movie) :
  In m movies ->
  forall updated fs,
    fs (get_movie_filepath (title m) (year m) output_dir) = Some Unreadable ->
    snd (backfill_loop dk output_dir movies updated fs) = Raised.
Proof.
  induction movies as [|m0 rest IH]; intros Hin updated fs Hu; [contradiction|].
  rewrite backfill_loop_cons.
  destruct (snd (backfill_one dk output_dir m0 fs)) as [b|] eqn:Es; [|reflexivity].
  assert (Hrest : In m rest).
  { destruct Hin as [->|Hin]; [|exact Hin]. exfalso. revert Es.
    unfold backfill_one. cbv zeta. rewrite Hu. discriminate. }
  assert (Hu1 : fst (backfill_one dk output_dir m0 fs)
                    (get_movie_filepath (title m) (year m) output_dir) = Some Unreadable).
  { destruct (backfill_one_effect dk output_dir m0 fs
                (get_movie_filepath (title m) (year m) output_dir))
      as [E|(_ & d & Hf & _)]; congruence. }
  destruct b; apply IH; assumption.
Qed.

(** X25: a movie file that [json.load] does not read, as a broken write
    leaves it, stops every later run: when the file of one of the page's
    nominations is unreadable, [main] raises in the backfill, before its
    loop, so that it makes no new file, whatever the network and the disk
    would do. *)
Theorem unreadable_file_stops_main
    (fetch : nat -> string -> option node) (dk : disk) (soup : node) (fs : files) (m : movie) :
  In m (get_best_picture_nominations soup) ->
  fs (get_movie_filepath (title m) (year m) "movie_data") = Some Unreadable ->
  snd (main fetch dk (Some soup) fs) = Raised
  /\ forall path, fs path = None -> fst (main fetch dk (Some soup) fs) path = None.
Proof.
  intros Hin Hu.
  pose proof (backfill_unreadable_raises dk "movie_data" _ m Hin 0 fs Hu) as Hr.
  fold (backfill_wiki_links dk (get_best_picture_nominations soup) "movie_data" fs) in Hr.
  destruct (main_files fetch dk soup fs) as [[E _]|[_ Hn]]; [|contradiction].
  rewrite E. split; [reflexivity|]. intros path Hp. simpl fst.
  pose proof (backfill_keeps_existence dk (get_best_picture_nominations soup) "movie_data"
                fs path) as He.
  unfold exists_ in He. rewrite Hp in He.
  destruct (fst (backfill_wiki_links dk _ _ fs) path); [discriminate He|reflexivity].
Qed.

Lemma unreadable_file_stops_main_witness :
  snd (main web sound_disk (Some statistics_page)
         (spoil "movie_data/1990_C.json" old_shelf)) = Raised.
Proof.
  apply (unreadable_file_stops_main web sound_disk statistics_page
           (spoil "movie_data/1990_C.json" old_shelf) (film (Some "1990") "C")).
  - right. left. reflexivity.
  - reflexivity.
Defined.

(** ** The scan as a concatenation *)

Lemma nominations_concat_length (soup : node) :
  List.length (get_best_picture_nominations soup)
  = List.length (flat_map table_movies (scanned_tables soup)).
Proof.
  unfold get_best_picture_nominations, scanned_tables.
  rewrite tables_loop_concat. reflexivity.
Qed.

(** X11: the result is the concatenation, in document order, of the
    records of the data tables before the first one that stops the scan,
    each table scanned on its own and starting without a year. *)
Theorem nominations_are_concatenated (soup : node) :
  get_best_picture_nominations soup = flat_map table_movies (scanned_tables soup).
Proof.
  unfold get_best_picture_nominations, scanned_tables.
  rewrite tables_loop_concat. reflexivity.
Qed.

Lemma film_cell_movies_short (film_cell : node) (cy : option string) :
  List.length (film_cell_movies film_cell cy) <= 1.
Proof.
  rewrite film_cell_movies_eq.
  destruct (find "a" film_cell) as [lnk|]; [|simpl; lia].
  destruct (link_rejected lnk); [simpl; lia|].
  destruct (get_href lnk); simpl; lia.
Qed.

Lemma rows_loop_short (rows : list node) :
  forall st, List.length (movies (rows_loop rows st))
             <= List.length (movies st) + List.length rows.
Proof.
  induction rows as [|r rows IH]; intros st; [simpl; lia|].
  rewrite rows_loop_cons. etransitivity; [apply IH|].
  rewrite row_body_movies, length_app. unfold row_movies.
  destruct (select_film_cell _) as [fc|]; simpl; [|lia].
  pose proof (film_cell_movies_short fc (update_year r (current_year st))). lia.
Qed.

Lemma flat_map_take_while_short {A B : Type} (f : A -> list B) (p : A -> bool) (l : list A) :
  List.length (flat_map f (take_while p l)) <= List.length (flat_map f l).
Proof.
  induction l as [|x l IH]; simpl; [lia|].
  destruct (p x); simpl; rewrite ?length_app; lia.
Qed.

(** X12: a row gives at most one record each time it is scanned, so the
    extractor returns no more records than the rows inside the data tables
    of the page add up to, a row inside nested data tables counting once
    for each of them. *)
Theorem nominations_bounded_by_rows (soup : node) :
  List.length (get_best_picture_nominations soup)
  <= List.length (flat_map (fun table => find_all "tr" (element table)) (wikitables soup)).
Proof.
  rewrite nominations_concat_length.
  unfold scanned_tables.
  etransitivity; [|apply flat_map_take_while_short with (p := fun t => negb (table_stops t))].
  induction (take_while _ (wikitables soup)) as [|t l IH]; simpl; [lia|].
  rewrite !length_app. unfold table_movies at 1.
  pose proof (rows_loop_short (find_all "tr" (element t)) fresh). simpl in H. lia.
Qed.

(** ** Plain references *)

Lemma split_join (s : string) : join "/" (split "/" s) = s.
Proof.
  unfold join. induction s as [|c s IH]; [reflexivity|].
  simpl split. destruct (Ascii.eqb_spec c "/") as [->|Hc].
  - pose proof (split_nonempty "/" s) as Hne.
    destruct (split "/" s) as [|h t] eqn:E; [congruence|].
    change (String.concat "/" ("" :: h :: t))
      with (String "/" (String.concat "/" (h :: t))).
    rewrite IH. reflexivity.
  - pose proof (split_nonempty "/" s) as Hne.
    destruct (split "/" s) as [|h t] eqn:E; [congruence|].
    rewrite <- IH. destruct t; reflexivity.
Qed.

Lemma partition_absent (sep : ascii) (s : string) :
  all_chars (fun c => negb (Ascii.eqb c sep)) s = true -> partition sep s = (s, "").
Proof.
  induction s as [|c s IH]; simpl; [reflexivity|]. intros H.
  apply andb_true_iff in H. destruct H as [Hc Hs].
  apply negb_true_iff in Hc. rewrite Hc, (IH Hs). reflexivity.
Qed.

Lemma splitparams_absent (s : string) :
  all_chars (fun c => negb (Ascii.eqb c ";")) s = true -> splitparams s = (s, "").
Proof.
  induction s as [|c s IH]; simpl; [reflexivity|]. intros H.
  apply andb_true_iff in H. destruct H as [Hc Hs].
  apply negb_true_iff in Hc. rewrite Hc, (IH Hs). reflexivity.
Qed.

Lemma resolve_plain (segments : list string) :
  ~ In "." segments -> ~ In ".." segments ->
  forall acc, fold_left resolve_step segments acc = acc ++ segments.
Proof.
  induction segments as [|seg segments IH]; intros H1 H2 acc; simpl.
  - rewrite app_nil_r. reflexivity.
  - rewrite IH; [|intros Hin; apply H1; right; exact Hin|intros Hin; apply H2; right; exact Hin].
    unfold resolve_step.
    destruct (String.eqb_spec seg "..") as [->|_]; [exfalso; apply H2; left; reflexivity|].
    destruct (String.eqb_spec seg ".") as [->|_]; [exfalso; apply H1; left; reflexivity|].
    rewrite <- app_assoc. reflexivity.
Qed.

Lemma join_path_plain (path : string) :
  startswith path "/" = true ->
  ~ In "." (split "/" path) -> ~ In ".." (split "/" path) ->
  join_path path = path.
Proof.
  intros Hs H1 H2. unfold join_path. cbv zeta. rewrite Hs.
  unfold resolve. rewrite (resolve_plain _ H1 H2). simpl app.
  pose proof (last_in (split "/" path) "" (split_nonempty "/" path)) as Hl.
  destruct (String.eqb_spec (last (split "/" path) "") ".") as [E|_];
    [exfalso; apply H1; rewrite <- E; exact Hl|].
  destruct (String.eqb_spec (last (split "/" path) "") "..") as [E|_];
    [exfalso; apply H2; rewrite <- E; exact Hl|].
  simpl orb. cbv iota. rewrite split_join.
  apply startswith_append in Hs. destruct Hs as [rest ->]. reflexivity.
Qed.

Lemma plain_parts (target : string) :
  all_chars plain_char target = true ->
  remove_unsafe target = target
  /\ partition "#" target = (target, "")
  /\ partition "?" target = (target, "")
  /\ splitparams target = (target, "").
Proof.
  intros H.
  assert (Hc : forall x : ascii,
             (forall c, plain_char c = true -> negb (Ascii.eqb c x) = true) ->
             all_chars (fun c => negb (Ascii.eqb c x)) target = true).
  { intros x Hx. eapply all_chars_impl; [|exact H]. exact Hx. }
  split; [|split; [|split]].
  - unfold remove_unsafe, unsafe_url_bytes_to_remove, remove_char. simpl fold_left.
    rewrite (filter_chars_all (fun x => negb (Ascii.eqb x "009")) target)
      by (apply Hc; intros c; by_ascii c).
    rewrite (filter_chars_all (fun x => negb (Ascii.eqb x "013")) target)
      by (apply Hc; intros c; by_ascii c).
    apply filter_chars_all, Hc. intros c. by_ascii c.
  - apply partition_absent, Hc. intros c. by_ascii c.
  - apply partition_absent, Hc. intros c. by_ascii c.
  - apply splitparams_absent, Hc. intros c. by_ascii c.
Qed.

Lemma urljoin_plain (target : string) :
  startswith target "/wiki/" = true ->
  all_chars plain_char target = true ->
  ~ In "." (split "/" target) -> ~ In ".." (split "/" target) ->
  urljoin target = ("https://en.wikipedia.org" ++ target)%string.
Proof.
  intros Hw Hp H1 H2.
  destruct (plain_parts target Hp) as (E0 & E1 & E2 & E3).
  assert (Hs : startswith target "/" = true).
  { apply startswith_append in Hw. destruct Hw as [rest ->]. reflexivity. }
  assert (Ht : truthy target = true).
  { apply startswith_append in Hw. destruct Hw as [rest ->]. reflexivity. }
  unfold urljoin. rewrite Ht, E0, E1, E2, E3, Ht. simpl negb. simpl andb. cbv iota.
  rewrite (join_path_plain target Hs H1 H2).
  unfold urlunparse. simpl truthy. cbv iota. rewrite Ht, Hs. reflexivity.
Qed.

(** X13: for a film cell whose first link has a non-empty text and a
    target that starts with [/wiki/] and holds no colon, fragment, query,
    parameter, TAB, CR or LF and no [.] or [..] segment, the row's record
    has the site followed by the target, unchanged, as its url. *)
Theorem plain_link_record
    (film_cell link_ : node) (target : string) (cy : option string) :
  find "a" film_cell = Some link_ ->
  get_href link_ = Some target ->
  truthy (get_text_strip "" link_) = true ->
  startswith target "/wiki/" = true ->
  str_in ":" target = false ->
  all_chars plain_char target = true ->
  ~ In "." (split "/" target) -> ~ In ".." (split "/" target) ->
  film_cell_movies film_cell cy
  = [ {| year := cy; title := get_text_strip "" link_;
         url := ("https://en.wikipedia.org" ++ target)%string |} ].
Proof.
  intros Hf Hh Ht Hw Hc Hp H1 H2.
  rewrite film_cell_movies_eq, Hf. unfold link_rejected.
  rewrite Hh, Hw, Hc, Ht. simpl. rewrite (urljoin_plain target Hw Hp H1 H2). reflexivity.
Qed.

Lemma plain_link_record_witness :
  film_cell_movies (el "td" [link "/wiki/Wings_(1927_film)" "Wings"]) None = [wings].
Proof.
  apply (plain_link_record (el "td" [link "/wiki/Wings_(1927_film)" "Wings"])
           (link "/wiki/Wings_(1927_film)" "Wings") "/wiki/Wings_(1927_film)" None);
    try reflexivity.
  - simpl. intuition discriminate.
  - simpl. intuition discriminate.
Defined.

(** ** Headers and labels *)

Lemma substring_nothing (s : string) : substring 0 0 s = EmptyString.
Proof. destruct s; reflexivity. Qed.

(** X14: when the first line of a row's header cell text begins with four
    digit characters, the year the row supplies is those four characters,
    whatever follows them. *)
Theorem header_year_leading_digits
    (row year_th : node) (a b c d : ascii) (rest : string) :
  find "th" row = Some year_th ->
  hd EmptyString (split "010" (get_text_strip "" year_th))
  = String a (String b (String c (String d rest))) ->
  isdigit_char a = true -> isdigit_char b = true ->
  isdigit_char c = true -> isdigit_char d = true ->
  header_year row = Some (String a (String b (String c (String d EmptyString))))
  /\ header_year_as_worded row = header_year row.
Proof.
  intros Hth Hline Ha Hb Hc Hd.
  unfold header_year, header_year_as_worded. rewrite Hth. cbv zeta. rewrite Hline.
  simpl. rewrite Ha, Hb, Hc, Hd. unfold slice_to. simpl.
  rewrite !substring_nothing. split; reflexivity.
Qed.

Lemma header_year_leading_digits_witness :
  header_year (el "tr" [el "th" [text "2010 (83rd)"]]) = Some "2010".
Proof.
  exact (proj1 (header_year_leading_digits
                  (el "tr" [el "th" [text "2010 (83rd)"]]) (el "th" [text "2010 (83rd)"])
                  "2" "0" "1" "0" " (83rd)" eq_refl eq_refl eq_refl eq_refl eq_refl eq_refl)).
Defined.

Lemma lower_char_idempotent (c : ascii) : lower_char (lower_char c) = lower_char c.
Proof. by_ascii c. Qed.

Lemma lower_idempotent (s : string) : lower (lower s) = lower s.
Proof.
  induction s as [|c s IH]; simpl; [reflexivity|].
  rewrite lower_char_idempotent, IH. reflexivity.
Qed.

Lemma heading_matches_label (label label' : string) (n : node) :
  lower label = lower label' -> heading_matches label n = heading_matches label' n.
Proof. intros H. unfold heading_matches. rewrite H. reflexivity. Qed.

Lemma search_heading_label (label label' : string) (elements : list located) :
  lower label = lower label' ->
  search_heading label elements = search_heading label' elements.
Proof.
  intros H. induction elements as [|e l IH]; simpl; [reflexivity|].
  rewrite (heading_matches_label label label' _ H), IH. reflexivity.
Qed.

(** X15: the case of the label is ignored: two labels that are equal once
    lowered give the same result, and so does the lowered label itself. *)
Theorem section_label_case_ignored (soup : node) (label label' : string) :
  lower label = lower label' ->
  extract_plot_from_section soup label = extract_plot_from_section soup label'
  /\ extract_plot_from_section soup (lower label) = extract_plot_from_section soup label.
Proof.
  assert (H : forall l1 l2, lower l1 = lower l2 ->
                            extract_plot_from_section soup l1 = extract_plot_from_section soup l2).
  { intros l1 l2 E. unfold extract_plot_from_section.
    rewrite (search_heading_label l1 l2 _ E). reflexivity. }
  intros E. split; [apply H, E|]. apply H, lower_idempotent.
Qed.

Lemma section_label_case_ignored_witness :
  extract_plot_from_section article "PLOT" = extract_plot_from_section article "Plot".
Proof.
  exact (proj1 (section_label_case_ignored article "PLOT" "Plot" eq_refl)).
Defined.

(** * The obfuscation script *)

Import ObfuscatePlots.

(** X16: the API is called exactly when the output file is not there yet
    and the input file holds a dict whose 'plot' is truthy. *)
Theorem api_called_only_for_new_plots
    (dk : disk) (name : string) (input_files output : files) (reply : option string) :
  api_called (process_single_file dk name input_files output reply) = true
  <-> output name = None
      /\ exists movie_data plot,
           input_files name = Some (Parsed (JDict movie_data)) /\
           dict_get "plot" movie_data = Some plot /\ py_truthy plot = true.
Proof.
  unfold process_single_file. split.
  - destruct (output name) as [c|]; [discriminate|].
    destruct (input_files name) as [[v|]|]; try discriminate.
    destruct v as [ | b | z | f | s | l | d ]; try discriminate. cbv zeta.
    destruct (dict_get "plot" d) as [plot|] eqn:Ep; [|discriminate].
    destruct (py_truthy plot) eqn:Et; [|discriminate].
    intros _. split; [reflexivity|]. exists d, plot. auto.
  - intros (Ho & d & plot & Hi & Hp & Ht). rewrite Ho, Hi. cbv zeta. rewrite Hp, Ht.
    destruct (obfuscate_plot reply) as [text|]; [|reflexivity].
    destruct (write_to dk name _ output) as [o [[]|]]; reflexivity.
Qed.

Lemma api_called_only_for_new_plots_witness :
  api_called (process_single_file sound_disk "1990_A.json" movie_dir empty_dir None) = true.
Proof.
  apply (proj2 (api_called_only_for_new_plots sound_disk "1990_A.json" movie_dir empty_dir
                  None)).
  split; [reflexivity|]. eexists. eexists. repeat split; reflexivity.
Defined.

(** The call on an output file that is not there, by what it reports. *)
Lemma new_output_cases
    (dk : disk) (name : string) (input_files output : files) (reply : option string) :
  output name = None ->
  let r := process_single_file dk name input_files output reply in
  (output_files r = output /\ reported r <> Success)
  \/ (exists text,
         reply = Some text /\ dk name = Completes /\ reported r = Success /\
         output_files r = write name (JDict [("obfuscated_plot", JStr (strip text))]) output)
  \/ (exists text,
         reply = Some text /\ dk name = Breaks /\ reported r = Error /\ api_called r = true /\
         output_files r = spoil name output).
Proof.
  intros Hn. cbv zeta. unfold process_single_file. rewrite Hn.
  destruct (input_files name) as [[v|]|]; try (left; split; [reflexivity|discriminate]).
  destruct v as [ | b | z | f | s | l | d ]; try (left; split; [reflexivity|discriminate]).
  cbv zeta.
  destruct (match dict_get "plot" d with Some v => py_truthy v | None => false end);
    [|left; split; [reflexivity|discriminate]].
  destruct reply as [text|]; simpl; [|left; split; [reflexivity|discriminate]].
  destruct (write_to_cases dk name (JDict [("obfuscated_plot", JStr (strip text))]) output)
    as [[Hd E]|[[Hd E]|[Hd E]]]; rewrite E; simpl.
  - right. left. exists text. auto.
  - left. split; [reflexivity|discriminate].
  - right. right. exists text. auto 6.
Qed.

(** X17: a call writes at most the output file of its own name, and never
    over a file that is there: an existing output file is kept and
    reported as skipped. A new output file appears only after the API has
    answered: with the status success it holds the stripped answer under
    'obfuscated_plot'; where the write broke it holds the part of the text
    that the write left, and the status is error. *)
Theorem obfuscation_writes_only_new_output
    (dk : disk) (name : string) (input_files output : files) (reply : option string)
    (other : string) :
  let r := process_single_file dk name input_files output reply in
  (other <> name -> output_files r other = output other)
  /\ (forall c, output name = Some c ->
                output_files r name = Some c /\ reported r = Skipped /\ api_called r = false)
  /\ (output name = None ->
      (output_files r name = None /\ reported r <> Success)
      \/ (exists text,
             reply = Some text /\ reported r = Success /\
             output_files r name
             = Some (Parsed (JDict [("obfuscated_plot", JStr (strip text))])))
      \/ (exists text,
             reply = Some text /\ dk name = Breaks /\ reported r = Error /\
             output_files r name = Some Unreadable)).
Proof.
  cbv zeta. split; [|split].
  - intros Hne. destruct (output name) as [c|] eqn:Ho.
    + unfold process_single_file. rewrite Ho. reflexivity.
    + destruct (new_output_cases dk name input_files output reply Ho)
        as [[E _]|[(text & _ & _ & _ & E)|(text & _ & _ & _ & _ & E)]]; rewrite E.
      * reflexivity.
      * unfold write. apply String.eqb_neq in Hne. rewrite Hne. reflexivity.
      * unfold spoil. apply String.eqb_neq in Hne. rewrite Hne. reflexivity.
  - intros c Hc. unfold process_single_file. rewrite Hc. simpl. auto.
  - intros Hn.
    destruct (new_output_cases dk name input_files output reply Hn)
      as [[E Hs]|[(text & Hr & _ & Hs & E)|(text & Hr & Hb & Hs & _ & E)]]; rewrite E.
    + left. split; [exact Hn|exact Hs].
    + right. left. exists text. rewrite write_at. auto.
    + right. right. exists text. rewrite spoil_at. auto.
Qed.

Lemma obfuscation_writes_only_new_output_witness :
  output_files (process_single_file sound_disk "1990_A.json" movie_dir movie_dir (Some " x "))
               "1990_A.json"
  = Some (Parsed (json_of_movie_data saved_a)).
Proof.
  exact (proj1 (proj1 (proj2 (obfuscation_writes_only_new_output
                                sound_disk "1990_A.json" movie_dir movie_dir (Some " x ")
                                "other"))
                      _ eq_refl)).
Defined.

Lemma rstrip_idempotent (s : string) : rstrip (rstrip s) = rstrip s.
Proof.
  induction s as [|c s IH]; simpl; [reflexivity|].
  destruct (negb (truthy (rstrip s)) && isspace_char c)%bool eqn:E; [reflexivity|].
  simpl. rewrite IH, E. reflexivity.
Qed.

Lemma lstrip_rstrip_lstrip (s : string) : lstrip (rstrip (lstrip s)) = rstrip (lstrip s).
Proof.
  induction s as [|c s IH]; simpl; [reflexivity|].
  destruct (isspace_char c) eqn:E; [exact IH|].
  simpl. rewrite E, andb_false_r. simpl. rewrite E. reflexivity.
Qed.

Lemma strip_idempotent (s : string) : strip (strip s) = strip s.
Proof.
  unfold strip. rewrite lstrip_rstrip_lstrip. apply rstrip_idempotent.
Qed.

Lemma success_shape
    (dk : disk) (name : string) (input_files output : files) (reply : option string) :
  reported (process_single_file dk name input_files output reply) = Success ->
  exists text,
    reply = Some text /\
    output_files (process_single_file dk name input_files output reply)
    = write name (JDict [("obfuscated_plot", JStr (strip text))]) output.
Proof.
  intros Hs. destruct (output name) as [c|] eqn:Ho.
  - unfold process_single_file in Hs. rewrite Ho in Hs. discriminate Hs.
  - destruct (new_output_cases dk name input_files output reply Ho)
      as [[_ Hn]|[(text & Hr & _ & _ & E)|(text & _ & _ & He & _)]].
    + contradiction.
    + exists text. auto.
    + rewrite He in Hs. discriminate Hs.
Qed.

(** X18: a successful call is not repeated: on the files it left, a second
    call for the same name, whatever the input, the answer and the disk
    would be, reports skipped, calls no API and changes nothing; and the
    text it stored has no surrounding whitespace left to strip. *)
Theorem obfuscation_resumes
    (dk : disk) (name : string) (input_files output : files) (reply : option string)
    (dk' : disk) (input_files' : files) (reply' : option string) :
  let r := process_single_file dk name input_files output reply in
  reported r = Success ->
  process_single_file dk' name input_files' (output_files r) reply'
  = {| output_files := output_files r; reported := Skipped; api_called := false |}
  /\ exists text,
       reply = Some text /\
       output_files r name = Some (Parsed (JDict [("obfuscated_plot", JStr (strip text))])) /\
       strip (strip text) = strip text.
Proof.
  cbv zeta. intros Hs.
  destruct (success_shape dk name input_files output reply Hs) as (text & Hr & Ho).
  rewrite Ho.
  pose proof (write_at name (JDict [("obfuscated_plot", JStr (strip text))]) output) as Hw.
  split.
  - unfold process_single_file. rewrite Hw. reflexivity.
  - exists text. split; [exact Hr|]. split; [exact Hw|apply strip_idempotent].
Qed.

Lemma obfuscation_resumes_witness :
  reported (process_single_file sound_disk "1990_A.json" movie_dir empty_dir (Some " Hidden. "))
  = Success /\
  process_single_file (fun _ => Breaks) "1990_A.json" movie_dir
    (output_files (process_single_file sound_disk "1990_A.json" movie_dir empty_dir
                     (Some " Hidden. ")))
    (Some "Again.")
  = {| output_files :=
         output_files (process_single_file sound_disk "1990_A.json" movie_dir empty_dir
                         (Some " Hidden. "));
       reported := Skipped; api_called := false |}.
Proof.
  assert (H : reported (process_single_file sound_disk "1990_A.json" movie_dir empty_dir
                          (Some " Hidden. "))
              = Success) by reflexivity.
  split; [exact H|].
  exact (proj1 (obfuscation_resumes sound_disk "1990_A.json" movie_dir empty_dir
                  (Some " Hidden. ") (fun _ => Breaks) movie_dir (Some "Again.") H)).
Defined.

(** X24: an output file that a broken write left is not repaired: the
    call that left it reports error after calling the API, and on the
    files it left every later call for the same name, whatever the input,
    the answer and the disk would be, finds the file, reports skipped and
    changes nothing. *)
Theorem broken_output_is_not_repaired
    (dk : disk) (name : string) (input_files output : files) (reply : option string)
    (dk' : disk) (input_files' : files) (reply' : option string) :
  let r := process_single_file dk name input_files output reply in
  output name = None ->
  output_files r name = Some Unreadable ->
  dk name = Breaks /\ reported r = Error /\ api_called r = true
  /\ process_single_file dk' name input_files' (output_files r) reply'
     = {| output_files := output_files r; reported := Skipped; api_called := false |}.
Proof.
  cbv zeta. intros Hn Hu.
  assert (Hskip : process_single_file dk' name input_files'
                    (output_files (process_single_file dk name input_files output reply))
                    reply'
                  = {| output_files :=
                         output_files (process_single_file dk name input_files output reply);
                       reported := Skipped; api_called := false |}).
  { unfold process_single_file at 1. rewrite Hu. reflexivity. }
  destruct (new_output_cases dk name input_files output reply Hn)
    as [[E _]|[(text & _ & _ & _ & E)|(text & _ & Hb & He & Ha & _)]].
  - rewrite E, Hn in Hu. discriminate Hu.
  - rewrite E, write_at in Hu. discriminate Hu.
  - auto.
Qed.

Lemma broken_output_is_not_repaired_witness :
  reported (process_single_file (fun _ => Breaks) "1990_A.json" movie_dir empty_dir
              (Some " Hidden. ")) = Error
  /\ reported (process_single_file sound_disk "1990_A.json" movie_dir
                 (output_files (process_single_file (fun _ => Breaks) "1990_A.json" movie_dir
                                  empty_dir (Some " Hidden. ")))
                 (Some " Hidden. ")) = Skipped.
Proof.
  destruct (broken_output_is_not_repaired (fun _ => Breaks) "1990_A.json" movie_dir empty_dir
              (Some " Hidden. ") sound_disk movie_dir (Some " Hidden. ") eq_refl eq_refl)
    as (_ & He & _ & Hs).
  split; [exact He|]. rewrite Hs. reflexivity.
Defined.

(** * The joiner *)

Lemma join_loop_entries (movie_data_dir obfuscated_dir : files) (names : list string) :
  forall acc result,
    DbJoiner.join_loop names movie_data_dir obfuscated_dir acc = Returned result ->
    exists entries,
      result = acc ++ entries /\
      Forall2 (DbJoiner.entry_of movie_data_dir obfuscated_dir)
              (DbJoiner.paired names obfuscated_dir) entries.
Proof.
  induction names as [|name rest IH]; intros acc result H; simpl in H.
  - injection H as <-. exists []. rewrite app_nil_r. split; [reflexivity|constructor].
  - unfold DbJoiner.paired. simpl filter. unfold exists_ at 1.
    destruct (obfuscated_dir name) as [obf|] eqn:Eo.
    + destruct (movie_data_dir name) as [[[]|]|] eqn:Em; try discriminate.
      destruct obf as [[]|]; try discriminate.
      destruct (IH _ _ H) as (entries & -> & Hall).
      eexists. rewrite <- app_assoc. split; [reflexivity|].
      simpl. constructor; [|exact Hall].
      unfold DbJoiner.entry_of. eauto.
    + apply IH, H.
Qed.

(** X19: when the joiner returns, [db.json] holds the list of one entry
    per movie file that has an obfuscated counterpart, in the order the
    files were listed, each entry the merge of the two files' dicts. When
    it raises, [db.json] is left as it was, unless the loop had ended and
    the write of [db.json] itself broke: then it holds the part of the
    text that the write left. *)
Theorem joiner_entries
    (written : write_end) (names : list string) (movie_data_dir obfuscated_dir : files)
    (db : option content) :
  match snd (DbJoiner.main written names movie_data_dir obfuscated_dir db) with
  | Returned _ =>
      written = Completes /\
      exists entries,
        fst (DbJoiner.main written names movie_data_dir obfuscated_dir db)
        = Some (Parsed (JList entries)) /\
        Forall2 (DbJoiner.entry_of movie_data_dir obfuscated_dir)
                (DbJoiner.paired names obfuscated_dir) entries
  | Raised =>
      fst (DbJoiner.main written names movie_data_dir obfuscated_dir db) = db
      \/ (written = Breaks /\
          (exists entries,
              DbJoiner.join_loop names movie_data_dir obfuscated_dir [] = Returned entries) /\
          fst (DbJoiner.main written names movie_data_dir obfuscated_dir db)
          = Some Unreadable)
  end.
Proof.
  unfold DbJoiner.main.
  destruct (DbJoiner.join_loop names movie_data_dir obfuscated_dir []) as [result|] eqn:E;
    simpl; [|left; reflexivity].
  destruct written; simpl.
  - split; [reflexivity|].
    destruct (join_loop_entries _ _ _ _ _ E) as (entries & -> & Hall).
    exists entries. split; [reflexivity|exact Hall].
  - left. reflexivity.
  - right. split; [reflexivity|]. split; [exists result|]; reflexivity.
Qed.

Lemma dict_get_absent (key : string) (d : list (string * json)) :
  ~ In key (map fst d) -> dict_get key d = None.
Proof.
  induction d as [|[k v] d IH]; simpl; [reflexivity|]. intros H.
  destruct (String.eqb_spec k key) as [->|_]; [exfalso; apply H; left; reflexivity|].
  apply IH. intros Hin. apply H. right. exact Hin.
Qed.

(** X20: in a combined entry the obfuscated file's value wins for every
    key that file has, and every other key keeps the movie file's value
    (the keys of a loaded dict are distinct). *)
Theorem merged_entry_lookup
    (movie_data obfuscated_data : list (string * json)) (key : string) :
  NoDup (map fst obfuscated_data) ->
  dict_get key (dict_merge movie_data obfuscated_data)
  = match dict_get key obfuscated_data with
    | Some v => Some v
    | None => dict_get key movie_data
    end.
Proof.
  unfold dict_merge. revert movie_data.
  induction obfuscated_data as [|[k v] b IH]; intros a Hnd; [reflexivity|].
  simpl in Hnd. inversion Hnd as [|? ? Hk Hb]; subst.
  simpl fold_left. rewrite (IH _ Hb). simpl dict_get.
  destruct (String.eqb_spec k key) as [->|Hne].
  - rewrite (dict_get_absent key b Hk). apply dict_get_set_same.
  - rewrite dict_get_set_other by congruence. reflexivity.
Qed.

Lemma merged_entry_lookup_witness :
  dict_get "plot" (dict_merge old_entry [("plot", JStr "Hidden."); ("obfuscated_plot", JStr "x")])
  = Some (JStr "Hidden.").
Proof.
  apply (merged_entry_lookup old_entry [("plot", JStr "Hidden."); ("obfuscated_plot", JStr "x")]
           "plot").
  repeat constructor; simpl; intuition discriminate.
Defined.

(** X21: the three scripts in a row: a movie file as the scraper saves it,
    with a non-empty plot and no output file yet, is obfuscated with
    success when the API answers and the write completes, and the joiner
    then gives for it the entry with the keys year, name, plot, wiki and
    obfuscated_plot, in this order. *)
Theorem scraped_obfuscated_joined
    (dk : disk) (d : movie_data) (name text : string) (movie_data_dir output : files) :
  movie_data_dir name = Some (Parsed (json_of_movie_data d)) ->
  truthy (md_plot d) = true ->
  output name = None ->
  dk name = Completes ->
  let r := process_single_file dk name movie_data_dir output (Some text) in
  reported r = Success
  /\ DbJoiner.join_loop [name] movie_data_dir (output_files r) []
     = Returned [ JDict [ ("year", json_of_year (md_year d));
                          ("name", JStr (md_name d));
                          ("plot", JStr (md_plot d));
                          ("wiki", JStr (md_wiki d));
                          ("obfuscated_plot", JStr (strip text)) ] ].
Proof.
  intros Hm Hp Ho Hd. cbv zeta. unfold process_single_file, write_to.
  rewrite Ho, Hm. simpl. rewrite Hp, Hd. simpl. split; [reflexivity|].
  unfold write. rewrite String.eqb_refl, Hm. reflexivity.
Qed.

Lemma scraped_obfuscated_joined_witness :
  DbJoiner.join_loop ["1990_A.json"] movie_dir
    (output_files (process_single_file sound_disk "1990_A.json" movie_dir empty_dir
                     (Some " Hidden. "))) []
  = Returned [ JDict [ ("year", JStr "1990"); ("name", JStr "A"); ("plot", JStr "A plot.");
                       ("wiki", JStr "https://en.wikipedia.org/wiki/A");
                       ("obfuscated_plot", JStr "Hidden.") ] ].
Proof.
  exact (proj2 (scraped_obfuscated_joined sound_disk saved_a "1990_A.json" " Hidden. "
                  movie_dir empty_dir eq_refl eq_refl eq_refl eq_refl)).
Defined.

(** * The whole obfuscation run *)

Lemma task_leaves_others (dk : disk) (name : string) (input_files output : files)
    (reply : option string) (other : string) :
  other <> name ->
  output_files (process_single_file dk name input_files output reply) other = output other.
Proof.
  intros Hne. destruct (output name) as [c|] eqn:Ho.
  - unfold process_single_file. rewrite Ho. reflexivity.
  - destruct (new_output_cases dk name input_files output reply Ho)
      as [[E _]|[(text & _ & _ & _ & E)|(text & _ & _ & _ & _ & E)]]; rewrite E.
    + reflexivity.
    + unfold write. apply String.eqb_neq in Hne. rewrite Hne. reflexivity.
    + unfold spoil. apply String.eqb_neq in Hne. rewrite Hne. reflexivity.
Qed.

Lemma task_is_local (dk : disk) (name : string) (input_files output output' : files)
    (reply : option string) :
  output name = output' name ->
  reported (process_single_file dk name input_files output reply)
  = reported (process_single_file dk name input_files output' reply)
  /\ output_files (process_single_file dk name input_files output reply) name
     = output_files (process_single_file dk name input_files output' reply) name.
Proof.
  intros H. unfold process_single_file. rewrite H.
  destruct (output' name) as [c|] eqn:E; [simpl; split; congruence|].
  destruct (input_files name) as [[v|]|]; simpl; try (split; congruence).
  destruct v as [ | b | z | f | s | l | d ]; simpl; try (split; congruence).
  destruct (match dict_get "plot" d with Some v => py_truthy v | None => false end);
    simpl; try (split; congruence).
  destruct reply as [text|]; simpl; try (split; congruence).
  unfold write_to, write, spoil. destruct (dk name); simpl; rewrite ?String.eqb_refl;
    split; congruence.
Qed.

Lemma task_keeps_existing (dk : disk) (name : string) (input_files output : files)
    (reply : option string) (path : string) (c : content) :
  output path = Some c ->
  output_files (process_single_file dk name input_files output reply) path = Some c.
Proof.
  intros Hc. destruct (String.eqb_spec path name) as [->|Hne].
  - unfold process_single_file. rewrite Hc. exact Hc.
  - rewrite task_leaves_others by exact Hne. exact Hc.
Qed.

Lemma count_result_commutes (a b : status) (c : counts) :
  count_result a (count_result b c) = count_result b (count_result a c).
Proof. destruct a, b; reflexivity. Qed.

Lemma counting_permuted (f : string -> status) (l l' : list string) :
  Permutation l l' ->
  forall c,
    fold_left (fun c n => count_result (f n) c) l c
    = fold_left (fun c n => count_result (f n) c) l' c.
Proof.
  induction 1 as [|x l l' _ IH|x y l|l l' l'' _ IH1 _ IH2]; intros c; simpl.
  - reflexivity.
  - apply IH.
  - rewrite count_result_commutes. reflexivity.
  - rewrite IH1. apply IH2.
Qed.

Lemma membership_permuted (p : string) (l l' : list string) :
  Permutation l l' -> existsb (String.eqb p) l = existsb (String.eqb p) l'.
Proof.
  intros H.
  destruct (existsb (String.eqb p) l) eqn:E, (existsb (String.eqb p) l') eqn:E';
    try reflexivity.
  - apply existsb_exists in E. destruct E as (x & Hin & Hx).
    assert (existsb (String.eqb p) l' = true)
      by (apply existsb_exists; exists x; split; [eapply Permutation_in; eauto|exact Hx]).
    congruence.
  - apply existsb_exists in E'. destruct E' as (x & Hin & Hx).
    assert (existsb (String.eqb p) l = true)
      by (apply existsb_exists; exists x; split;
          [eapply Permutation_in; [apply Permutation_sym|]; eauto|exact Hx]).
    congruence.
Qed.

Section Run.
Variable reply_for : string -> option string.
Variable dk : disk.
Variable input_files : files.
Variable output0 : files.

(** The task of a name run alone on the files the run starts with. *)
Let solo (name : string) : report :=
  process_single_file dk name input_files output0 (reply_for name).

Lemma run_task_by_task (order : list string) :
  NoDup order ->
  forall output c,
    (forall n, In n order -> output n = output0 n) ->
    (forall p,
        fst (fold_left (complete reply_for dk input_files) order (output, c)) p
        = if existsb (String.eqb p) order then output_files (solo p) p else output p)
    /\ snd (fold_left (complete reply_for dk input_files) order (output, c))
       = fold_left (fun c n => count_result (reported (solo n)) c) order c.
Proof.
  induction 1 as [|name rest Hnotin Hnd IH]; intros output c Hsame; [split; reflexivity|].
  assert (Hname : output name = output0 name) by (apply Hsame; left; reflexivity).
  destruct (task_is_local dk name input_files output output0 (reply_for name) Hname)
    as [Hrep Hout].
  change (fold_left (complete reply_for dk input_files) (name :: rest) (output, c))
    with (fold_left (complete reply_for dk input_files) rest
            (output_files (process_single_file dk name input_files output (reply_for name)),
             count_result
               (reported (process_single_file dk name input_files output (reply_for name))) c)).
  destruct (IH (output_files (process_single_file dk name input_files output (reply_for name)))
               (count_result
                  (reported (process_single_file dk name input_files output (reply_for name))) c))
    as [Hf Hc].
  { intros n Hn. rewrite task_leaves_others.
    - apply Hsame. right. exact Hn.
    - intros ->. contradiction. }
  split.
  - intros p. rewrite Hf. simpl existsb.
    destruct (existsb (String.eqb p) rest) eqn:Er.
    + rewrite orb_true_r. reflexivity.
    + rewrite orb_false_r. destruct (String.eqb_spec p name) as [->|Hne].
      * exact Hout.
      * apply task_leaves_others, Hne.
  - etransitivity; [exact Hc|]. rewrite Hrep. reflexivity.
Qed.
End Run.

Lemma run_with_key (reply_for : string -> option string) (dk : disk) (key : string)
    (order : list string) (input_files output : files) :
  truthy key = true ->
  process_movie_files reply_for dk (Some key) order input_files output
  = (fst (fold_left (complete reply_for dk input_files) order
            (output, {| files_processed := 0; files_skipped := 0; file_errors := 0 |})),
     Returned (snd (fold_left (complete reply_for dk input_files) order
            (output, {| files_processed := 0; files_skipped := 0; file_errors := 0 |})))).
Proof.
  intros Hk. unfold process_movie_files. rewrite Hk.
  destruct (fold_left _ _ _) as [o c]. reflexivity.
Qed.

(** X22: the order in which the tasks complete does not matter: for a
    list of distinct file names, and whatever the API answers and becomes
    of each write, taking the tasks in any other order gives the same
    counters and, file by file, the same output files. *)
Theorem completion_order_irrelevant
    (reply_for : string -> option string) (dk : disk) (api_key : option string)
    (order order' : list string) (input_files output : files) :
  NoDup order ->
  Permutation order order' ->
  snd (process_movie_files reply_for dk api_key order input_files output)
  = snd (process_movie_files reply_for dk api_key order' input_files output)
  /\ forall path,
       fst (process_movie_files reply_for dk api_key order input_files output) path
       = fst (process_movie_files reply_for dk api_key order' input_files output) path.
Proof.
  intros Hnd Hp.
  destruct api_key as [key|]; [|split; reflexivity].
  destruct (truthy key) eqn:Hk; [|unfold process_movie_files; rewrite Hk; split; reflexivity].
  rewrite !run_with_key by exact Hk.
  assert (Hnd' : NoDup order') by (eapply Permutation_NoDup; eauto).
  set (c0 := {| files_processed := 0; files_skipped := 0; file_errors := 0 |}).
  destruct (run_task_by_task reply_for dk input_files output order Hnd output c0
              (fun _ _ => eq_refl)) as [Hf Hc].
  destruct (run_task_by_task reply_for dk input_files output order' Hnd' output c0
              (fun _ _ => eq_refl)) as [Hf' Hc'].
  cbn [fst snd]. split.
  - f_equal. etransitivity; [exact Hc|]. etransitivity; [|symmetry; exact Hc'].
    apply counting_permuted, Hp.
  - intros path. etransitivity; [apply Hf|]. etransitivity; [|symmetry; apply Hf'].
    rewrite (membership_permuted path order order' Hp). reflexivity.
Qed.

Lemma completion_order_irrelevant_witness :
  snd (process_movie_files (fun _ => Some " Hidden. ") sound_disk (Some "key")
         ["1990_A.json"; "none.json"] movie_dir empty_dir)
  = snd (process_movie_files (fun _ => Some " Hidden. ") sound_disk (Some "key")
           ["none.json"; "1990_A.json"] movie_dir empty_dir).
Proof.
  apply (completion_order_irrelevant (fun _ => Some " Hidden. ") sound_disk (Some "key")
           ["1990_A.json"; "none.json"] ["none.json"; "1990_A.json"] movie_dir empty_dir).
  - repeat constructor; simpl; intuition discriminate.
  - apply perm_swap.
Defined.

(** X23: a whole run never overwrites: an output file that is there before
    [process_movie_files] is there unchanged after it, however it ends and
    whatever the API answers and becomes of the writes. *)
Theorem run_keeps_existing_outputs
    (reply_for : string -> option string) (dk : disk) (api_key : option string)
    (order : list string) (input_files output : files) (path : string) (c : content) :
  output path = Some c ->
  fst (process_movie_files reply_for dk api_key order input_files output) path = Some c.
Proof.
  intros Hc.
  destruct api_key as [key|]; [|exact Hc].
  destruct (truthy key) eqn:Hk; [|unfold process_movie_files; rewrite Hk; exact Hc].
  rewrite run_with_key by exact Hk. cbn [fst].
  assert (H : forall l st, fst st path = Some c ->
                           fst (fold_left (complete reply_for dk input_files) l st) path = Some c).
  { induction l as [|n l IH]; intros st Hst; [exact Hst|].
    simpl. apply IH. unfold complete. simpl. apply task_keeps_existing, Hst. }
  apply H. exact Hc.
Qed.

Lemma run_keeps_existing_outputs_witness :
  fst (process_movie_files (fun _ => Some "x") sound_disk (Some "key") ["1990_A.json"] movie_dir movie_dir)
      "1990_A.json"
  = Some (Parsed (json_of_movie_data saved_a)).
Proof.
  exact (run_keeps_existing_outputs (fun _ => Some "x") sound_disk (Some "key") ["1990_A.json"]
           movie_dir movie_dir "1990_A.json" _ eq_refl).
Defined.
